(** * AnkiServer.apps.rest_app: the REST dispatcher

    A shallow embedding of [RestApp] (src/AnkiServer/apps/rest_app.py) and of
    its default handler groups, with the properties of the path resolver, the
    request gate, the resource locator, the handler registry and the
    dispatcher.

    Python values are modelled as follows.
    - [str] and [unicode] objects are Rocq strings; a [unicode] object stands
      for its UTF-8 bytes, so that it is ASCII-encodable exactly when every
      byte is below 128.
    - A dict used as a map is a [gmap]; the JSON-shaped values that travel
      through the dispatcher are the inductive type [PyVal].
    - A raise is a result [Raise e]; printing and logging are collected in an
      event list. *)

From Stdlib Require Import ZArith Ascii String List Bool Lia.
From stdpp Require Import base option list gmap strings pretty.

Local Open Scope string_scope.
Local Open Scope list_scope.

(** * Part I: the model *)

(** ** Python string primitives *)

Module PyStr.

Definition slash : ascii := "/"%char.

(** [s.split('/')] for a one-character separator. *)
Fixpoint split (sep : ascii) (s : string) : list string :=
  match s with
  | EmptyString => [EmptyString]
  | String c s' =>
      if Ascii.eqb c sep then EmptyString :: split sep s'
      else match split sep s' with
           | [] => [String c EmptyString]
           | w :: ws => String c w :: ws
           end
  end.

(** [c in s] for a character. *)
Fixpoint contains (c : ascii) (s : string) : bool :=
  match s with
  | EmptyString => false
  | String a s' => Ascii.eqb a c || contains c s'
  end.

(** [s.startswith(p)]. *)
Fixpoint startswith (p s : string) : bool :=
  match p, s with
  | EmptyString, _ => true
  | String a p', String b s' => Ascii.eqb a b && startswith p' s'
  | String _ _, EmptyString => false
  end.

(** [s.endswith('/')]. *)
Fixpoint endswith_char (c : ascii) (s : string) : bool :=
  match s with
  | EmptyString => false
  | String a EmptyString => Ascii.eqb a c
  | String _ s' => endswith_char c s'
  end.

(** [s[0:n]]; a slice past the end stops at the end. *)
Fixpoint slice_to (n : nat) (s : string) : string :=
  match n, s with
  | S n', String c s' => String c (slice_to n' s')
  | _, _ => EmptyString
  end.

(** [x in l] for a list of strings. *)
Definition mem (x : string) (l : list string) : bool :=
  existsb (String.eqb x) l.

(** [c * n] for a one-character string. *)
Fixpoint replicate_char (n : nat) (c : ascii) : string :=
  match n with
  | O => EmptyString
  | S n' => String c (replicate_char n' c)
  end.

End PyStr.

(** ** [posixpath]: [join], [normpath], [abspath] *)

Module Posixpath.
Import PyStr.

Definition isabs (s : string) : bool := startswith "/" s.

(** One round of the loop of [join(a, *p)]. *)
Definition join_step (path b : string) : string :=
  if startswith "/" b then b
  else if (path =? "") || endswith_char slash path then path +:+ b
  else path +:+ "/" +:+ b.

Definition join (a : string) (p : list string) : string :=
  fold_left join_step p a.

(** POSIX keeps exactly two leading slashes; three or more count as one. *)
Definition initial_slashes (path : string) : nat :=
  if startswith "/" path then
    if startswith "//" path && negb (startswith "///" path) then 2 else 1
  else 0.

(** [new_comps[-1] == '..'] on a non-empty list. *)
Definition last_is_dotdot (new_comps : list string) : bool :=
  match new_comps with
  | [] => false
  | _ => List.last new_comps "" =? ".."
  end.

(** The body of [for comp in comps] in [normpath]. *)
Definition norm_step (initial : nat) (new_comps : list string) (comp : string)
  : list string :=
  if mem comp [""; "."] then new_comps
  else if negb (comp =? "..")
          || (Nat.eqb initial 0 && Nat.eqb (length new_comps) 0)
          || last_is_dotdot new_comps
       then new_comps ++ [comp]
  else match new_comps with
       | [] => new_comps
       | _ => removelast new_comps
       end.

Definition normpath (path : string) : string :=
  if path =? "" then "."
  else
    let initial := initial_slashes path in
    let comps := fold_left (norm_step initial) (split slash path) [] in
    let path := replicate_char initial slash +:+ String.concat "/" comps in
    if path =? "" then "." else path.

(** [abspath(path)] in a process whose working directory is [cwd]. *)
Definition abspath (cwd path : string) : string :=
  normpath (if isabs path then path else join cwd [path]).

(** The components of a path: the non-empty pieces between slashes. *)
Definition components (p : string) : list string :=
  filter (fun c => c <> "") (split slash p).

(** [p] lies strictly below the directory [root]: both are absolute, the
    components of [root] are a proper prefix of those of [p], and [p] climbs
    nowhere. *)
Definition is_descendant (root p : string) : bool :=
  isabs root && isabs p
  && bool_decide (components root `prefix_of` components p)
  && negb (Nat.eqb (length (components root)) (length (components p)))
  && negb (mem ".." (components p)) && negb (mem "." (components p)).

End Posixpath.

(** ** Python values, exceptions and effects *)

(** The values that cross the dispatcher: what [json.loads] builds, what a
    handler returns and what [json.dumps] accepts.  A float is given by the
    sign, exponent and mantissa fields of its IEEE-754 double; a dict keeps its items in the order
    [items()] yields them. *)
#[warnings="-register-all"]
Inductive PyVal : Type :=
| VNone
| VBool (b : bool)
| VInt (n : Z)
| VFloat (negative : bool) (exponent mantissa : Z)
| VStr (s : string)
| VList (l : list PyVal)
| VDict (kvs : list (string * PyVal)).

(** Truth value of an object in a condition; a float is false when it is
    [0.0] or [-0.0]: exponent and mantissa fields both zero. *)
Definition truthy (v : PyVal) : bool :=
  match v with
  | VNone => false
  | VBool b => b
  | VInt n => negb (n =? 0)%Z
  | VFloat _ exponent mantissa => negb ((exponent =? 0)%Z && (mantissa =? 0)%Z)
  | VStr s => negb (s =? "")
  | VList l => negb (Nat.eqb (length l) 0)
  | VDict kvs => negb (Nat.eqb (length kvs) 0)
  end.

(** [d[k]] on the items of a dict. *)
Fixpoint assoc (k : string) (kvs : list (string * PyVal)) : option PyVal :=
  match kvs with
  | [] => None
  | (k', v) :: rest => if k' =? k then Some v else assoc k rest
  end.

(** An instance of a [webob.exc] class: its status code, the detail it was
    built with and its [Allow] header. *)
Record HTTPException : Type := {
  http_code : nat;
  http_detail : string;
  http_allow : list string
}.

Definition HTTPBadRequest (detail : string) : HTTPException :=
  {| http_code := 400; http_detail := detail; http_allow := [] |}.
Definition HTTPForbidden : HTTPException :=
  {| http_code := 403; http_detail := ""; http_allow := [] |}.
Definition HTTPNotFound : HTTPException :=
  {| http_code := 404; http_detail := ""; http_allow := [] |}.
Definition HTTPMethodNotAllowed (allow : list string) : HTTPException :=
  {| http_code := 405; http_detail := ""; http_allow := allow |}.
Definition HTTPInternalServerError : HTTPException :=
  {| http_code := 500; http_detail := ""; http_allow := [] |}.

(** A raised object.  [HTTPError] and [Error] are instances of classes
    derived from [Exception]; [BaseError] is an instance of a class derived
    from [BaseException] only ([SystemExit], [KeyboardInterrupt],
    [GeneratorExit]). *)
Inductive PyExn : Type :=
| HTTPError (h : HTTPException)
| Error (cls msg : string)
| BaseError (cls msg : string).

(** [isinstance(e, Exception)]: what [except Exception] catches. *)
Definition isinstance_Exception (e : PyExn) : bool :=
  match e with
  | BaseError _ _ => false
  | _ => true
  end.

(** [isinstance(e, JSONDecodeError)], for the name the module binds
    ([simplejson]'s class, or [ValueError] when it falls back to [json]). *)
Definition isinstance_JSONDecodeError (e : PyExn) : bool :=
  match e with
  | Error cls _ => cls =? "JSONDecodeError"
  | _ => false
  end.

(** [str(e)]. *)
Definition exn_str (e : PyExn) : string :=
  match e with
  | HTTPError h => http_detail h
  | Error _ msg => msg
  | BaseError _ msg => msg
  end.

(** The outcome of a call: a value or a raise. *)
Inductive PyResult (A : Type) : Type :=
| Ok (a : A)
| Raise (e : PyExn).
Arguments Ok {A} a.
Arguments Raise {A} e.

Definition bindR {A B} (m : PyResult A) (k : A -> PyResult B) : PyResult B :=
  match m with
  | Ok a => k a
  | Raise e => Raise e
  end.

Notation "'let?' x ':=' m 'in' k" := (bindR m (fun x => k))
  (at level 10, x pattern, m at level 100, k at level 200).

(** What a request leaves behind besides its response: what [print] and
    [pprint] write on standard output and what [logging.error] is given. *)
Inductive Event : Type :=
| Stdout (s : string)
| StdoutData (data : gmap string PyVal)
| LogError (msg : string)
| LogException (e : PyExn).

(** A computation that may raise and that emits events on the way. *)
Definition M (A : Type) : Type := (PyResult A * list Event)%type.

Definition ret {A} (a : A) : M A := (Ok a, []).
Definition raise {A} (e : PyExn) : M A := (Raise e, []).
Definition emit (ev : Event) : M unit := (Ok tt, [ev]).
Definition lift {A} (r : PyResult A) : M A := (r, []).

Definition bind {A B} (m : M A) (k : A -> M B) : M B :=
  match m with
  | (Ok a, w) => let '(r, w') := k a in (r, w ++ w')
  | (Raise e, w) => (Raise e, w)
  end.

Notation "'let!' x ':=' m 'in' k" := (bind m (fun x => k))
  (at level 10, x pattern, m at level 100, k at level 200).

(** A computation on the collection [Col] that may raise: the store after
    the call comes back with the outcome. *)
Definition StoreM (Col A : Type) : Type := Col -> PyResult A * Col.

Definition retS {Col A} (a : A) : StoreM Col A := fun c => (Ok a, c).
Definition raiseS {Col A} (e : PyExn) : StoreM Col A := fun c => (Raise e, c).
Definition liftS {Col A} (r : PyResult A) : StoreM Col A := fun c => (r, c).

Definition bindS {Col A B} (m : StoreM Col A) (k : A -> StoreM Col B) : StoreM Col B :=
  fun c => match m c with
           | (Ok a, c') => k a c'
           | (Raise e, c') => (Raise e, c')
           end.

Notation "'let*' x ':=' m 'in' k" := (bindS m (fun x => k))
  (at level 10, x pattern, m at level 100, k at level 200).

(** A list comprehension whose element expression may raise. *)
Fixpoint mapS {Col A B} (f : A -> StoreM Col B) (l : list A) : StoreM Col (list B) :=
  match l with
  | [] => retS []
  | x :: xs => let* y := f x in let* ys := mapS f xs in retS (y :: ys)
  end.

(** A [for] loop whose body may raise, threading the loop's variable. *)
Fixpoint foldR {A B} (f : B -> A -> PyResult B) (l : list A) (b : B)
  : PyResult B :=
  match l with
  | [] => Ok b
  | x :: xs => let? b' := f b x in foldR f xs b'
  end.

(** The double quote character. *)
Definition dquote : string := String (ascii_of_nat 34) EmptyString.

(** The parts of a [webob] request the dispatcher reads.  [headers] is the
    header mapping ([req.headers[name]] raises [KeyError] on a missing
    name); [remote_addr] is [None] when the server gave no peer address. *)
Record Request : Type := {
  req_method : string;
  req_path : string;
  req_headers : gmap string string;
  req_remote_addr : option string;
  req_body : string
}.

(** What [__call__] hands back to [wsgify]: a [webob.Response] built from a
    body and a content type (status 200), or an instance of a [webob.exc]
    class, which is a response of its own status. *)
Inductive Response : Type :=
| Response200 (body : string) (content_type : string)
| ErrorResponse (h : HTTPException).

Definition status (r : Response) : nat :=
  match r with
  | Response200 _ _ => 200
  | ErrorResponse h => http_code h
  end.

(** ** The collection and its handlers *)

(** The request body as the handlers see it: a dict with [str] keys. *)
Abbreviation Data := (gmap string PyVal).

Section RestApp.

(** The [anki] library is outside this module.  [Col] is an open collection,
    [NoteT] and [CardT] are its note and card objects. *)
Context {Col NoteT CardT : Type}.

(** The operations of the [anki] library that the handlers call. *)
Record Anki : Type := {
  models_all : StoreM Col PyVal;
  models_byName : PyVal -> StoreM Col PyVal;
  models_get : PyVal -> StoreM Col PyVal;
  models_fieldNames : PyVal -> StoreM Col PyVal;
  findNotes : PyVal -> StoreM Col (list PyVal);
  getNote : PyVal -> StoreM Col NoteT;
  Note_new : PyVal -> StoreM Col NoteT;
  Note_setitem : NoteT -> string -> PyVal -> PyResult NoteT;
  Note_setTagsFromStr : NoteT -> PyVal -> PyResult NoteT;
  addNote : NoteT -> StoreM Col unit;
  note_id : NoteT -> PyVal;
  note_model : NoteT -> PyResult (list (string * PyVal));
  note_tags : NoteT -> list string;
  decks_all : StoreM Col PyVal;
  decks_select : PyVal -> StoreM Col unit;
  findCards : PyVal -> StoreM Col (list PyVal);
  getCard : PyVal -> StoreM Col CardT;
  card_id : CardT -> PyVal;
  sched_reset : StoreM Col unit;
  sched_getCard : StoreM Col (option CardT)
}.

Variable anki : Anki.

(** [json.loads] and [json.dumps], from [simplejson] or the standard
    library. *)
Variable json_loads : string -> PyResult PyVal.
Variable json_dumps : PyVal -> string.

(** A registered handler: a callable on [(col, data, ids)], with its
    [hasReturnValue] attribute when it has one.  A bound method carries the
    attribute that [noReturnValue] put on its function; a
    [_RestHandlerWrapper] always has one. *)
Record Handler : Type := {
  func_name : string;
  func : Data -> list string -> StoreM Col PyVal;
  hasReturnValue : option bool
}.

(** [noReturnValue(func)]. *)
Definition noReturnValue (name : string) (f : Data -> list string -> StoreM Col PyVal)
  : Handler :=
  {| func_name := name; func := f; hasReturnValue := Some false |}.

(** A method that no decorator touched. *)
Definition method (name : string) (f : Data -> list string -> StoreM Col PyVal)
  : Handler :=
  {| func_name := name; func := f; hasReturnValue := None |}.

(** [_RestHandlerWrapper(func_name, func, hasReturnValue)]. *)
Definition _RestHandlerWrapper (name : string) (h : Handler) (flag : bool)
  : Handler :=
  {| func_name := name; func := func h; hasReturnValue := Some flag |}.

(** [data[k]]. *)
Definition getitem (data : Data) (k : string) : PyResult PyVal :=
  match data !! k with
  | Some v => Ok v
  | None => Raise (Error "KeyError" k)
  end.

(** [data.get(k, d)]. *)
Definition get (data : Data) (k : string) (d : PyVal) : PyVal :=
  default d (data !! k).

(** [ids[i]]. *)
Definition index (ids : list string) (i : nat) : PyResult string :=
  match ids !! i with
  | Some x => Ok x
  | None => Raise (Error "IndexError" "list index out of range")
  end.

(** [NoteHandler._serialize]. *)
Definition NoteHandler__serialize (note : NoteT) : PyResult PyVal :=
  let? model := note_model anki note in
  match assoc "name" model with
  | None => Raise (Error "KeyError" "name")
  | Some name =>
      Ok (VDict [("id", note_id anki note);
                 ("model", name);
                 ("tags", VStr (String.concat " " (note_tags anki note)))])
  end.

(** [CardHandler._serialize]. *)
Definition CardHandler__serialize (card : CardT) : PyVal :=
  VDict [("id", card_id anki card)].

Definition CollectionHandler_list_models (data : Data) (ids : list string)
  : StoreM Col PyVal :=
  models_all anki.

Definition CollectionHandler_find_model_by_name (data : Data) (ids : list string)
  : StoreM Col PyVal :=
  let* name := liftS (getitem data "model") in
  models_byName anki name.

Definition CollectionHandler_find_notes (data : Data) (ids : list string)
  : StoreM Col PyVal :=
  let query := get data "query" (VStr "") in
  let* ids := findNotes anki query in
  if truthy (get data "preload" (VBool false)) then
    let* nodes :=
      mapS (fun id => let* note := getNote anki id in
                      liftS (NoteHandler__serialize note)) ids in
    retS (VList nodes)
  else
    retS (VList (map (fun id => VDict [("id", id)]) ids)).

Definition CollectionHandler_add_note (data : Data) (ids : list string)
  : StoreM Col PyVal :=
  let* m := liftS (getitem data "model") in
  let* model :=
    match m with
    | VStr _ => models_byName anki m
    | _ => models_get anki m
    end in
  let* note := Note_new anki model in
  let* fields := liftS (getitem data "fields") in
  let* items :=
    match fields with
    | VDict kvs => retS kvs
    | _ => raiseS (Error "AttributeError" "object has no attribute 'items'")
    end in
  let* note :=
    liftS (foldR (fun n kv => Note_setitem anki n (fst kv) (snd kv)) items note) in
  let* note :=
    match data !! "tags" with
    | Some tags => liftS (Note_setTagsFromStr anki note tags)
    | None => retS note
    end in
  let* _ := addNote anki note in
  retS VNone.

Definition CollectionHandler_list_decks (data : Data) (ids : list string)
  : StoreM Col PyVal :=
  decks_all anki.

Definition CollectionHandler_select_deck (data : Data) (ids : list string)
  : StoreM Col PyVal :=
  let* deck_id := liftS (getitem data "deck_id") in
  let* _ := decks_select anki deck_id in
  retS VNone.

Definition CollectionHandler_find_cards (data : Data) (ids : list string)
  : StoreM Col PyVal :=
  let query := get data "query" (VStr "") in
  let* ids := findCards anki query in
  if truthy (get data "preload" (VBool false)) then
    let* cards :=
      mapS (fun id => let* card := getCard anki id in
                      retS (CardHandler__serialize card)) ids in
    retS (VList cards)
  else
    retS (VList (map (fun id => VDict [("id", id)]) ids)).

Definition CollectionHandler_sched_reset (data : Data) (ids : list string)
  : StoreM Col PyVal :=
  let* _ := sched_reset anki in
  retS VNone.

Definition ModelHandler_field_names (data : Data) (ids : list string)
  : StoreM Col PyVal :=
  let* id := liftS (index ids 1) in
  let* model := models_get anki (VStr id) in
  match model with
  | VNone => raiseS (HTTPError HTTPNotFound)
  | _ => models_fieldNames anki model
  end.

Definition NoteHandler_index (data : Data) (ids : list string)
  : StoreM Col PyVal :=
  let* id := liftS (index ids 1) in
  let* note := getNote anki (VStr id) in
  liftS (NoteHandler__serialize note).

Definition DeckHandler_next_card (data : Data) (ids : list string)
  : StoreM Col PyVal :=
  let* deck_id := liftS (index ids 1) in
  let* _ := decks_select anki (VStr deck_id) in
  let* card := sched_getCard anki in
  match card with
  | None => retS VNone
  | Some card => retS (CardHandler__serialize card)
  end.

(** A handler group as [add_handler_group] sees it: the name of its class,
    its [hasReturnValue] attribute when it has one (every class derived from
    [RestHandlerBase] inherits [True]) and the pairs that
    [inspect.getmembers(group, predicate=inspect.ismethod)] returns, sorted
    by name.  A static method is not a method for [inspect.ismethod]. *)
Record HandlerGroup : Type := {
  class_name : string;
  group_hasReturnValue : option bool;
  members : list (string * Handler)
}.

Definition CollectionHandler : HandlerGroup :=
  {| class_name := "CollectionHandler";
     group_hasReturnValue := Some true;
     members :=
       [("add_note", noReturnValue "add_note" CollectionHandler_add_note);
        ("find_cards", method "find_cards" CollectionHandler_find_cards);
        ("find_model_by_name",
          method "find_model_by_name" CollectionHandler_find_model_by_name);
        ("find_notes", method "find_notes" CollectionHandler_find_notes);
        ("list_decks", method "list_decks" CollectionHandler_list_decks);
        ("list_models", method "list_models" CollectionHandler_list_models);
        ("sched_reset", noReturnValue "sched_reset" CollectionHandler_sched_reset);
        ("select_deck", noReturnValue "select_deck" CollectionHandler_select_deck)] |}.

Definition ModelHandler : HandlerGroup :=
  {| class_name := "ModelHandler";
     group_hasReturnValue := Some true;
     members := [("field_names", method "field_names" ModelHandler_field_names)] |}.

Definition NoteHandler : HandlerGroup :=
  {| class_name := "NoteHandler";
     group_hasReturnValue := Some true;
     members := [("index", method "index" NoteHandler_index)] |}.

Definition DeckHandler : HandlerGroup :=
  {| class_name := "DeckHandler";
     group_hasReturnValue := Some true;
     members := [("next_card", method "next_card" DeckHandler_next_card)] |}.

Definition CardHandler : HandlerGroup :=
  {| class_name := "CardHandler";
     group_hasReturnValue := Some true;
     members := [] |}.

(** ** The collection manager *)

(** [AnkiServer.threading] is outside this module: the dispatcher only
    calls [get_collection(path)] on the manager and
    [execute(func, args, kw, waitForReturn)] on what it returns, here with
    [args = [data, ids]] and [kw = {}]. *)
Record CollectionWrapper : Type := {
  execute : Handler -> Data -> list string -> bool -> PyResult PyVal
}.

Record CollectionManager : Type := {
  get_collection : string -> PyResult CollectionWrapper
}.

(** Modelled from the spec: the Resource Executor of [AnkiServer.threading],
    which is not part of this module.  It runs the submitted operation on
    the collection it is bound to and "returns the operation's result or
    surfaces its failure".  The dispatcher hands it the [hasReturnValue] flag
    of the operation as its fourth argument; the spec gives the executor no
    flag, so the flag has no effect here. *)
Definition spec_execute (col : Col) (h : Handler) (data : Data)
  (ids : list string) (produces_output : bool) : PyResult PyVal :=
  fst (func h data ids col).

(** Modelled from the spec: the resource manager that owns one store per
    resolved path, [open_collection path] being the store behind [path]. *)
Definition spec_manager (open_collection : string -> Col) : CollectionManager :=
  {| get_collection := fun path =>
       Ok {| execute := spec_execute (open_collection path) |} |}.

(** ** [RestApp] *)

(** The attributes of a [RestApp] instance.  [collection_manager] is [None]
    while the instance has no attribute of that name. *)
Record RestApp : Type := {
  data_root : string;
  allowed_hosts : string;
  handlers : gmap string (gmap string Handler);
  collection_manager : option CollectionManager
}.

(** An entry of [handler_types]: a type name or a list of type names. *)
Inductive TypeSlot : Type :=
| One (t : string)
| Many (ts : list string).

(** [if type(type_list) is not list: type_list = [type_list]]. *)
Definition as_list (slot : TypeSlot) : list string :=
  match slot with
  | One t => [t]
  | Many ts => ts
  end.

Definition handler_types : list TypeSlot :=
  [One "collection"; Many ["model"; "note"; "deck"]; One "card"].

Definition set_handlers (self : RestApp) (hs : gmap string (gmap string Handler))
  : RestApp :=
  {| data_root := data_root self;
     allowed_hosts := allowed_hosts self;
     handlers := hs;
     collection_manager := collection_manager self |}.

(** [add_handler]: the outcome and the instance after the call. *)
Definition add_handler (self : RestApp) (type name : string) (handler : Handler)
  : PyResult unit * RestApp :=
  match handlers self !! type with
  | None => (Raise (Error "KeyError" type), self)
  | Some of_type =>
      match of_type !! name with
      | Some _ =>
          (* [raise "..."]: raising a [str] is itself a [TypeError] *)
          (Raise (Error "TypeError"
             "exceptions must be old-style classes or derived from BaseException, not str"),
           self)
      | None =>
          (Ok tt, set_handlers self (<[type := <[name := handler]> of_type]> (handlers self)))
      end
  end.

(** The loop of [add_handler_group] over the members of the group. *)
Fixpoint add_members (self : RestApp) (type : string) (group : HandlerGroup)
  (ms : list (string * Handler)) : PyResult unit * RestApp :=
  match ms with
  | [] => (Ok tt, self)
  | (name, method) :: rest =>
      if PyStr.startswith "_" name then add_members self type group rest
      else
        let method :=
          match group_hasReturnValue group, hasReturnValue method with
          | Some flag, None =>
              _RestHandlerWrapper (class_name group +:+ "." +:+ name) method flag
          | _, _ => method
          end in
        match add_handler self type name method with
        | (Ok _, self') => add_members self' type group rest
        | (Raise e, self') => (Raise e, self')
        end
  end.

Definition add_handler_group (self : RestApp) (type : string) (group : HandlerGroup)
  : PyResult unit * RestApp :=
  add_members self type group (members group).

(** The loops of [__init__] that give every handler type an empty dict. *)
Definition empty_handlers : gmap string (gmap string Handler) :=
  fold_left
    (fun hs type_list => fold_left (fun hs t => <[t := ∅]> hs) (as_list type_list) hs)
    handler_types ∅.

(** [add_handler_group] for each pair in turn, stopping at the first raise. *)
Fixpoint add_groups (self : RestApp) (gs : list (string * HandlerGroup))
  : PyResult unit * RestApp :=
  match gs with
  | [] => (Ok tt, self)
  | (type, group) :: rest =>
      match add_handler_group self type group with
      | (Ok _, self') => add_groups self' rest
      | (Raise e, self') => (Raise e, self')
      end
  end.

Definition default_groups : list (string * HandlerGroup) :=
  [("collection", CollectionHandler);
   ("note", NoteHandler);
   ("model", ModelHandler);
   ("deck", DeckHandler);
   ("card", CardHandler)].

(** What [__init__] takes from [AnkiServer.threading], which is outside
    this module: the statement
    [from AnkiServer.threading import getCollectionManager], which runs at
    every construction and may raise, and the call [getCollectionManager()],
    which returns a manager or raises. *)
Record Threading : Type := {
  import_getCollectionManager : PyResult unit;
  getCollectionManager : PyResult CollectionManager
}.

(** [RestApp.__init__], in a process whose working directory is [cwd].  The
    manager it is given (or the one it fetches with [getCollectionManager()]
    when given [None]) is bound to the local name [col] and to nothing else:
    the new instance has no [collection_manager] attribute. *)
Definition RestApp_init (threading : Threading)
  (cwd data_root allowed_hosts : string)
  (use_default_handlers : bool) (collection_manager : option CollectionManager)
  : PyResult RestApp :=
  let? _ := import_getCollectionManager threading in
  let self :=
    {| data_root := Posixpath.abspath cwd data_root;
       allowed_hosts := allowed_hosts;
       handlers := empty_handlers;
       collection_manager := None |} in
  let? col :=
    match collection_manager with
    | Some manager => Ok manager
    | None => getCollectionManager threading
    end in
  if use_default_handlers then
    match add_groups self default_groups with
    | (Ok _, self') => Ok self'
    | (Raise e, _) => Raise e
    end
  else Ok self.

(** [_checkRequest]. *)
Definition _checkRequest (self : RestApp) (req : Request) : PyResult unit :=
  let? _ :=
    if negb (allowed_hosts self =? "*") then
      let remote_addr :=
        match req_headers req !! "X-Forwarded-For" with
        | Some addr => Some addr
        | None => req_remote_addr req
        end in
      if negb (bool_decide (remote_addr = Some (allowed_hosts self)))
      then Raise (HTTPError HTTPForbidden)
      else Ok tt
    else Ok tt in
  if negb (req_method req =? "POST")
  then Raise (HTTPError (HTTPMethodNotAllowed ["POST"]))
  else Ok tt.

(** The variables of the loop of [_parsePath]. *)
Record Walk : Type := {
  w_handler_type : option string;
  w_ids : list string;
  w_parts : list string
}.

(** The loop of [_parsePath] over the remaining entries of
    [handler_types]; leaving the recursion is the loop's [break]. *)
Fixpoint walk (slots : list TypeSlot) (w : Walk) : Walk :=
  match slots with
  | [] => w
  | type_list :: rest =>
      match w_parts w with
      | [] => w
      | part :: parts =>
          if negb (PyStr.mem part (as_list type_list)) then w
          else
            let handler_type := Some part in
            let (ids, parts) :=
              match parts with
              | [] => (w_ids w, parts)
              | id :: parts' => (w_ids w ++ [id], parts')
              end in
            let w' := {| w_handler_type := handler_type;
                         w_ids := ids;
                         w_parts := parts |} in
            if (length parts <? 2)%nat then w' else walk rest w'
      end
  end.

(** [_parsePath]. *)
Definition _parsePath (path : string)
  : PyResult (option string * string * list string) :=
  if PyStr.mem path [""; "/"] then Raise (HTTPError HTTPNotFound)
  else
    let path :=
      match path with
      | String "/" rest => rest
      | _ => path
      end in
    let parts := PyStr.split PyStr.slash path in
    let w := walk handler_types
               {| w_handler_type := None; w_ids := []; w_parts := parts |} in
    if (1 <? length (w_parts w))%nat || Nat.eqb (length (w_ids w)) 0
    then Raise (HTTPError HTTPNotFound)
    else
      let name :=
        match w_parts w with
        | [] => "index"
        | part :: _ => part
        end in
      Ok (w_handler_type w, name, w_ids w).

(** [_getCollectionPath]. *)
Definition _getCollectionPath (self : RestApp) (collection_id : string)
  : PyResult string :=
  let path :=
    Posixpath.normpath
      (Posixpath.join (data_root self) [collection_id; "collection.anki2"]) in
  if negb (PyStr.slice_to (String.length (data_root self)) path =? data_root self)
  then Raise (HTTPError (HTTPBadRequest
         (dquote +:+ collection_id +:+ dquote +:+ " is not a valid collection")))
  else Ok path.

(** [self.handlers[type][name]], [None] standing for a [KeyError]; the
    resource type is [None] when no slot of the path matched. *)
Definition handlers_getitem (self : RestApp) (type : option string) (name : string)
  : option Handler :=
  match type with
  | None => None
  | Some t =>
      match handlers self !! t with
      | None => None
      | Some of_type => of_type !! name
      end
  end.

(** [_getHandler]. *)
Definition _getHandler (self : RestApp) (type : option string) (name : string)
  : PyResult (Handler * bool) :=
  match handlers_getitem self type name with
  | None => Raise (HTTPError HTTPNotFound)
  | Some handler => Ok (handler, default true (hasReturnValue handler))
  end.

(** [str(k)] on a [unicode] key: the default codec is ASCII. *)
Definition str (k : string) : PyResult string :=
  if forallb (fun c => (nat_of_ascii c <? 128)%nat) (list_ascii_of_string k)
  then Ok k
  else Raise (Error "UnicodeEncodeError" "'ascii' codec can't encode character").

(** [dict([(str(k), v) for k, v in items])]: a later item wins. *)
Definition dict_of_items (items : list (string * PyVal)) : PyResult Data :=
  foldR (fun d kv => let? k := str (fst kv) in Ok (<[k := snd kv]> d)) items ∅.

(** [_parseRequestBody]. *)
Definition _parseRequestBody (req : Request) : M Data :=
  match json_loads (req_body req) with
  | Raise e =>
      if isinstance_JSONDecodeError e then
        let! _ := emit (LogError (req_path req +:+ ": Unable to parse JSON: "
                                  +:+ exn_str e)) in
        raise (HTTPError (HTTPBadRequest ""))
      else raise e
  | Ok data =>
      match data with
      | VDict items => lift (dict_of_items items)
      | _ => raise (Error "AttributeError" "object has no attribute 'items'")
      end
  end.

(** [RestApp.__call__], the function that [wsgify] wraps. *)
Definition RestApp_call (self : RestApp) (req : Request) : M Response :=
  let! _ := lift (_checkRequest self req) in
  let! (type, name, ids) := lift (_parsePath (req_path req)) in
  let! id0 := lift (index ids 0) in
  let! collection_path := lift (_getCollectionPath self id0) in
  let! _ := emit (Stdout collection_path) in
  let! (handler, hasReturnValue) := lift (_getHandler self type name) in
  let! data := _parseRequestBody req in
  let! _ := emit (StdoutData data) in
  let! manager :=
    match collection_manager self with
    | Some manager => ret manager
    | None => raise (Error "AttributeError"
                "'RestApp' object has no attribute 'collection_manager'")
    end in
  let! col := lift (get_collection manager collection_path) in
  match execute col handler data ids hasReturnValue with
  | Raise e =>
      if isinstance_Exception e then
        let! _ := emit (LogException e) in
        ret (ErrorResponse HTTPInternalServerError)
      else raise e
  | Ok output =>
      match output with
      | VNone => ret (Response200 "" "text/plain")
      | _ => ret (Response200 (json_dumps output) "application/json")
      end
  end.

(** What the HTTP layer gets from the [wsgify]-wrapped application: the
    response, or an exception that [wsgify] lets through.  [wsgify] turns a
    raised [webob.exc] instance into the response. *)
Inductive Outcome : Type :=
| Responded (r : Response)
| Propagated (e : PyExn).

Definition wsgify (m : M Response) : Outcome * list Event :=
  match m with
  | (Ok r, w) => (Responded r, w)
  | (Raise (HTTPError h), w) => (Responded (ErrorResponse h), w)
  | (Raise e, w) => (Propagated e, w)
  end.

(** The application as the server calls it. *)
Definition RestApp_wsgi (self : RestApp) (req : Request) : Outcome * list Event :=
  wsgify (RestApp_call self req).

End RestApp.

(** The assignment [app.collection_manager = m] on an instance. *)
Definition set_collection_manager {Col} (self : RestApp) (m : @CollectionManager Col)
  : @RestApp Col :=
  {| data_root := data_root self;
     allowed_hosts := allowed_hosts self;
     handlers := handlers self;
     collection_manager := Some m |}.

Arguments Handler Col : clear implicits.
Arguments HandlerGroup Col : clear implicits.
Arguments CollectionWrapper Col : clear implicits.
Arguments CollectionManager Col : clear implicits.
Arguments Threading Col : clear implicits.
Arguments RestApp Col : clear implicits.
Arguments Anki Col NoteT CardT : clear implicits.

(** ** A small collection for the examples *)

Module Demo.

(** A note of the example collection. *)
Record DemoNote : Type := {
  dn_id : Z;
  dn_model : string;
  dn_tags : list string
}.

(** The example collection: its notes and the deck last selected. *)
Record DemoCol : Type := {
  dc_notes : list DemoNote;
  dc_deck : option PyVal
}.

Definition unsupported {A} (what : string) : StoreM DemoCol A :=
  raiseS (Error "Exception" what).

(** [tag:T] finds the notes tagged [T]; any other query finds every note. *)
Definition demo_findNotes (query : PyVal) : StoreM DemoCol (list PyVal) :=
  fun c =>
    let hits :=
      match query with
      | VStr q =>
          if String.prefix "tag:" q
          then filter (fun n => PyStr.mem (String.substring 4 (String.length q) q)
                                  (dn_tags n) = true) (dc_notes c)
          else dc_notes c
      | _ => dc_notes c
      end in
    (Ok (map (fun n => VInt (dn_id n)) hits), c).

Definition demo_getNote (id : PyVal) : StoreM DemoCol DemoNote :=
  fun c =>
    match id with
    | VInt i =>
        match filter (fun n => dn_id n = i) (dc_notes c) with
        | n :: _ => (Ok n, c)
        | [] => (Raise (Error "TypeError" "'NoneType' object is not iterable"), c)
        end
    | _ => (Raise (Error "TypeError" "'NoneType' object is not iterable"), c)
    end.

Definition demo_anki : Anki DemoCol DemoNote unit :=
  {| models_all := retS (VList []);
     models_byName := fun _ => retS VNone;
     models_get := fun _ => retS VNone;
     models_fieldNames := fun _ => retS (VList []);
     findNotes := demo_findNotes;
     getNote := demo_getNote;
     Note_new := fun _ => unsupported "Note";
     Note_setitem := fun n _ _ => Ok n;
     Note_setTagsFromStr := fun n _ => Ok n;
     addNote := fun _ => unsupported "addNote";
     note_id := fun n => VInt (dn_id n);
     note_model := fun n => Ok [("name", VStr (dn_model n))];
     note_tags := dn_tags;
     decks_all := retS (VList []);
     decks_select := fun d c => (Ok tt, {| dc_notes := dc_notes c; dc_deck := Some d |});
     findCards := fun _ => retS [];
     getCard := fun _ => unsupported "getCard";
     card_id := fun _ => VNone;
     sched_reset := retS tt;
     sched_getCard := retS None |}.

Definition demo_col : DemoCol :=
  {| dc_notes :=
       [ {| dn_id := 7; dn_model := "Basic"; dn_tags := ["foo"] |};
         {| dn_id := 3; dn_model := "Basic"; dn_tags := ["bar"] |};
         {| dn_id := 5; dn_model := "Cloze"; dn_tags := ["foo"; "bar"] |} ];
     dc_deck := None |}.

(** The body of the scenario: an object with the one key [query]. *)
Definition query_body : string :=
  "{" +:+ dquote +:+ "query" +:+ dquote +:+ ": "
      +:+ dquote +:+ "tag:foo" +:+ dquote +:+ "}".

(** A decoder that knows the bodies of the examples and refuses every other
    body; on the bodies it knows it answers as [json.loads] does. *)
Definition demo_loads (body : string) : PyResult PyVal :=
  if body =? query_body then Ok (VDict [("query", VStr "tag:foo")])
  else if body =? "{}" then Ok (VDict [])
  else if body =? "[]" then Ok (VList [])
  else if body =? "17" then Ok (VInt 17)
  else Raise (Error "JSONDecodeError" "No JSON object could be decoded").

(** An encoder for the examples: compact separators of [json.dumps], no
    escapes, integers in decimal. *)
Fixpoint demo_dumps (v : PyVal) : string :=
  match v with
  | VNone => "null"
  | VBool true => "true"
  | VBool false => "false"
  | VInt n => pretty n
  | VFloat negative exponent mantissa =>
      (if negative then "-" else "") +:+ pretty mantissa +:+ "p" +:+ pretty exponent
  | VStr s => dquote +:+ s +:+ dquote
  | VList l =>
      "[" +:+ String.concat ", " (map demo_dumps l) +:+ "]"
  | VDict kvs =>
      "{" +:+ String.concat ", "
                (map (fun kv => dquote +:+ fst kv +:+ dquote +:+ ": "
                                +:+ demo_dumps (snd kv)) kvs) +:+ "}"
  end.

Definition demo_manager : CollectionManager DemoCol :=
  spec_manager (fun _ => demo_col).

(** [AnkiServer.threading] as installed: the import succeeds and
    [getCollectionManager()] returns the manager of the examples. *)
Definition demo_threading : Threading DemoCol :=
  {| import_getCollectionManager := Ok tt;
     getCollectionManager := Ok demo_manager |}.

Definition request (method path body : string) : Request :=
  {| req_method := method;
     req_path := path;
     req_headers := ∅;
     req_remote_addr := Some "127.0.0.1";
     req_body := body |}.

(** An instance before [__init__] registers the default handlers. *)
Definition bare_app : RestApp DemoCol :=
  {| data_root := "/srv/data";
     allowed_hosts := "*";
     handlers := empty_handlers;
     collection_manager := None |}.

(** The instance [RestApp('/srv/data')] leaves behind. *)
Definition demo_app0 : RestApp DemoCol :=
  snd (add_groups bare_app (default_groups demo_anki)).

(** The same instance once a manager is bound to it. *)
Definition demo_app : RestApp DemoCol :=
  set_collection_manager demo_app0 demo_manager.

(** Two handlers to register by hand. *)
Definition ping : Handler DemoCol :=
  method "ping" (fun _ _ => retS (VStr "pong")).

Definition ping_again : Handler DemoCol :=
  method "ping_again" (fun _ _ => retS (VStr "pong pong")).

(** An operation that ends the interpreter: [sys.exit(0)]. *)
Definition quit : Handler DemoCol :=
  method "quit" (fun _ _ => raiseS (BaseError "SystemExit" "0")).

Definition demo_app_quit : RestApp DemoCol :=
  snd (add_handler demo_app "collection" "quit" quit).

(** The requests of the examples. *)
Definition find_notes_request : Request :=
  request "POST" "/collection/deck1/find_notes" query_body.

Definition spec_scenario_request : Request :=
  request "POST" "/collection/deck1/note/find_notes" query_body.

Definition unknown_operation_request : Request :=
  request "POST" "/collection/deck1/nosuch" "{".

Definition malformed_body_request : Request :=
  request "POST" "/collection/deck1/find_notes" "{".

Definition array_body_request : Request :=
  request "POST" "/collection/deck1/find_notes" "[]".


Definition add_note_request : Request :=
  request "POST" "/collection/deck1/add_note" "{}".

Definition quit_request : Request :=
  request "POST" "/collection/deck1/quit" "{}".

Definition get_request : Request :=
  request "GET" "/no/such/resource" "".


Definition sibling_app : RestApp DemoCol :=
  {| data_root := Posixpath.abspath "/" "/srv/c";
     allowed_hosts := "*";
     handlers := empty_handlers;
     collection_manager := None |}.

End Demo.

(** ** Further instances for the examples *)

Module Demo2.
Import Demo.

(** An instance that admits one origin only. *)
Definition guarded_app : RestApp DemoCol :=
  {| data_root := "/srv/data";
     allowed_hosts := "10.0.0.1";
     handlers := handlers demo_app;
     collection_manager := collection_manager demo_app |}.

(** A request that a proxy forwarded for [forwarded_for]. *)
Definition forwarded (forwarded_for method path body : string) : Request :=
  {| req_method := method;
     req_path := path;
     req_headers := <["X-Forwarded-For" := forwarded_for]> ∅;
     req_remote_addr := Some "10.0.0.1";
     req_body := body |}.

(** The two bytes of an e with an acute accent in UTF-8. *)
Definition e_acute : string :=
  String (ascii_of_nat 195) (String (ascii_of_nat 169) EmptyString).

(** An object whose one key is that letter. *)
Definition accent_body : string :=
  "{" +:+ dquote +:+ e_acute +:+ dquote +:+ ": 1}".

(** The decoder of the examples, which also knows [accent_body]. *)
Definition demo2_loads (body : string) : PyResult PyVal :=
  if body =? accent_body then Ok (VDict [(e_acute, VInt 1)])
  else demo_loads body.

(** The library of the examples with two cards in the collection. *)
Definition card_anki : Anki DemoCol DemoNote Z :=
  {| models_all := models_all demo_anki;
     models_byName := models_byName demo_anki;
     models_get := models_get demo_anki;
     models_fieldNames := models_fieldNames demo_anki;
     findNotes := findNotes demo_anki;
     getNote := getNote demo_anki;
     Note_new := Note_new demo_anki;
     Note_setitem := Note_setitem demo_anki;
     Note_setTagsFromStr := Note_setTagsFromStr demo_anki;
     addNote := addNote demo_anki;
     note_id := note_id demo_anki;
     note_model := note_model demo_anki;
     note_tags := note_tags demo_anki;
     decks_all := decks_all demo_anki;
     decks_select := decks_select demo_anki;
     findCards := fun _ => retS [VInt 11; VInt 12];
     getCard := fun id =>
       match id with
       | VInt i => retS i
       | _ => unsupported "getCard"
       end;
     card_id := fun i => VInt i;
     sched_reset := sched_reset demo_anki;
     sched_getCard := retS (Some 11%Z) |}.




(** A body that asks for the notes tagged [foo], loaded. *)
Definition preload_data : Data :=
  <["preload" := VBool true]> (<["query" := VStr "tag:foo"]> ∅).

End Demo2.

(** ** Views of the registry *)

(** The flag [_getHandler] returns for a registered handler. *)
Definition returns_value {Col} (handler : Handler Col) : bool :=
  default true (hasReturnValue handler).

(** The flag a member of a group is registered with: its own attribute
    when it has one, else the attribute of the group, else [True]. *)
Definition member_flag {Col} (group : HandlerGroup Col) (m : Handler Col) : bool :=
  match hasReturnValue m with
  | Some flag => flag
  | None => default true (group_hasReturnValue group)
  end.

(** The registry reduced to its flags: resource type, operation name,
    whether the operation has a return value. *)
Definition operation_flags {Col} (self : RestApp Col) : gmap string (gmap string bool) :=
  (fun of_type : gmap string (Handler Col) => returns_value <$> of_type)
    <$> handlers self.

(** The operations of the default handler groups. *)
Definition default_operation_flags : gmap string (gmap string bool) :=
  list_to_map
    [("collection",
       list_to_map [("add_note", false); ("find_cards", true);
                    ("find_model_by_name", true); ("find_notes", true);
                    ("list_decks", true); ("list_models", true);
                    ("sched_reset", false); ("select_deck", false)]);
     ("model", list_to_map [("field_names", true)]);
     ("note", list_to_map [("index", true)]);
     ("deck", list_to_map [("next_card", true)]);
     ("card", ∅)].

(** A serialized resource: a dict with an [id] entry. *)
Definition has_id (v : PyVal) : Prop :=
  exists kvs id, v = VDict kvs /\ assoc "id" kvs = Some id.

(** ** [ImportExportHandler] *)

(** The importer classes of [anki.importing] that [import_file] knows. *)
Inductive ImporterClass : Type :=
| TextImporter
| AnkiPackageImporter
| Anki1Importer
| SupermemoXmlImporter
| MnemosyneImporter
| PaukerImporter.

(** What [import_file] does outside its own code, in the order it does it:
    the imports of the importer modules and the calls on [urllib2],
    [tempfile], the importer and [os].  A call that creates a resource is
    recorded with what it returned, [None] when it raised. *)
Inductive IOEvent (Fd : Type) : Type :=
| ImportModule (cls : ImporterClass)
| UrlOpen (url : PyVal) (fd : option Fd)
| FdRead (fd : Fd)
| FdClose (fd : Fd)
| TempCreate (path : option string)
| TempWrite (path : string) (filedata : PyVal)
| TempExit (path : string)
| ImporterNew (cls : ImporterClass) (path : string)
| ImporterOpen
| ImporterRun
| Unlink (path : string).
Arguments ImportModule {Fd} cls.
Arguments UrlOpen {Fd} url fd.
Arguments FdRead {Fd} fd.
Arguments FdClose {Fd} fd.
Arguments TempCreate {Fd} path.
Arguments TempWrite {Fd} path filedata.
Arguments TempExit {Fd} path.
Arguments ImporterNew {Fd} cls path.
Arguments ImporterOpen {Fd}.
Arguments ImporterRun {Fd}.
Arguments Unlink {Fd} path.

(** A computation on the world [W] (the collection and the system around
    it) that may raise, and that records the calls it makes. *)
Definition IO (Fd W A : Type) : Type :=
  W -> PyResult A * W * list (IOEvent Fd).

Definition retIO {Fd W A} (a : A) : IO Fd W A := fun w => (Ok a, w, []).
Definition raiseIO {Fd W A} (e : PyExn) : IO Fd W A := fun w => (Raise e, w, []).
Definition liftIO {Fd W A} (r : PyResult A) : IO Fd W A := fun w => (r, w, []).

Definition bindIO {Fd W A B} (m : IO Fd W A) (k : A -> IO Fd W B) : IO Fd W B :=
  fun w =>
    match m w with
    | (Ok a, w1, t1) => let '(r, w2, t2) := k a w1 in (r, w2, t1 ++ t2)
    | (Raise e, w1, t1) => (Raise e, w1, t1)
    end.

Notation "'let+' x ':=' m 'in' k" := (bindIO m (fun x => k))
  (at level 10, x pattern, m at level 100, k at level 200).

(** The body of a [try]: its outcome becomes a value. *)
Definition attempt {Fd W A} (m : IO Fd W A) : IO Fd W (PyResult A) :=
  fun w => let '(r, w1, t1) := m w in (Ok r, w1, t1).

(** What a call returned, [None] when it raised. *)
Definition returned {A} (r : PyResult A) : option A :=
  match r with
  | Ok a => Some a
  | Raise _ => None
  end.

(** A call on the outside, recorded once it is over. *)
Definition call {Fd W A} (ev : PyResult A -> IOEvent Fd) (op : StoreM W A)
  : IO Fd W A :=
  fun w => let '(r, w1) := op w in (r, w1, [ev r]).

(** [v == s] for a [str] literal [s]. *)
Definition py_eq (v : PyVal) (s : string) : bool :=
  match v with
  | VStr t => t =? s
  | _ => false
  end.

Section ImportExport.

(** [Fd] is what [urllib2.urlopen] returns, [Importer] an instance of an
    importer class. *)
Context {Fd Importer W : Type}.

(** What [ImportExportHandler] calls outside this module: the import of the
    module of an importer class, [urllib2.urlopen], [read] and [close] on what
    it returns, [tempfile.NamedTemporaryFile('wt', delete=False)] (giving the
    name of the file), [write] on the file and the end of its [with] block,
    the constructor of an importer class with the collection and a path,
    [open] and [run] on the importer, [os.unlink]; and [str] on a value that
    is not a string. *)
Record ImportEnv : Type := {
  import_module : ImporterClass -> StoreM W unit;
  urlopen : PyVal -> StoreM W Fd;
  fd_read : Fd -> StoreM W PyVal;
  fd_close : Fd -> StoreM W unit;
  NamedTemporaryFile : StoreM W string;
  tmp_write : string -> PyVal -> StoreM W unit;
  tmp_exit : string -> StoreM W unit;
  importer_new : ImporterClass -> string -> StoreM W Importer;
  importer_open : Importer -> StoreM W unit;
  importer_run : Importer -> StoreM W unit;
  os_unlink : string -> StoreM W unit;
  py_str : PyVal -> string
}.

Variable env : ImportEnv.

(** ['%s' % v]. *)
Definition percent_s (v : PyVal) : string :=
  match v with
  | VStr s => s
  | _ => py_str env v
  end.

(** [from anki.importing... import cls; return cls]. *)
Definition import_and_return (cls : ImporterClass) : IO Fd W ImporterClass :=
  let+ _ := call (fun _ => ImportModule cls) (import_module env cls) in
  retIO cls.

(** [ImportExportHandler._get_importer_class]. *)
Definition _get_importer_class (data : Data) : IO Fd W ImporterClass :=
  let+ filetype := liftIO (getitem data "filetype") in
  if py_eq filetype "text" then import_and_return TextImporter
  else if py_eq filetype "apkg" then import_and_return AnkiPackageImporter
  else if py_eq filetype "anki1" then import_and_return Anki1Importer
  else if py_eq filetype "supermemo_xml" then import_and_return SupermemoXmlImporter
  else if py_eq filetype "mnemosyne" then import_and_return MnemosyneImporter
  else if py_eq filetype "pauker" then import_and_return PaukerImporter
  else raiseIO (HTTPError (HTTPBadRequest
         ("Unknown filetype '" +:+ percent_s filetype +:+ "'"))).

(** [ImportExportHandler._get_filedata].  A raise of [data['url']] or of
    [urlopen] leaves [fd] at [None], and the [finally] clause closes
    nothing; once [urlopen] returned, [close] is called whatever [read] did,
    and a raise of [close] replaces the outcome of [read]. *)
Definition _get_filedata (data : Data) : IO Fd W PyVal :=
  match data !! "data" with
  | Some filedata => retIO filedata
  | None =>
      let+ url := liftIO (getitem data "url") in
      let+ fd := call (fun r => UrlOpen url (returned r)) (urlopen env url) in
      let+ filedata := attempt (call (fun _ => FdRead fd) (fd_read env fd)) in
      let+ _ := call (fun _ => FdClose fd) (fd_close env fd) in
      liftIO filedata
  end.

(** The [try] block of [import_file]: it yields the value of [path] when
    the block is left, and the outcome of the block.  [path] stays [None]
    when [NamedTemporaryFile] raises.  The [with] block ends the file whatever
    [write] did, and a raise at its end replaces the one of [write]; the
    importer is built, opened and run only when the [with] block was left
    without a raise. *)
Definition import_file_try (importer_class : ImporterClass) (filedata : PyVal)
  : IO Fd W (option string * PyResult unit) :=
  let+ created :=
    attempt (call (fun r => TempCreate (returned r)) (NamedTemporaryFile env)) in
  match created with
  | Raise e => retIO (None, Raise e)
  | Ok path =>
      let+ written :=
        attempt (call (fun _ => TempWrite path filedata)
                   (tmp_write env path filedata)) in
      let+ ended :=
        attempt (call (fun _ => TempExit path) (tmp_exit env path)) in
      match ended, written with
      | Raise e, _ => retIO (Some path, Raise e)
      | Ok _, Raise e => retIO (Some path, Raise e)
      | Ok _, Ok _ =>
          let+ run :=
            attempt
              (let+ importer :=
                 call (fun _ => ImporterNew importer_class path)
                   (importer_new env importer_class path) in
               let+ _ := call (fun _ => ImporterOpen) (importer_open env importer) in
               call (fun _ => ImporterRun) (importer_run env importer)) in
          retIO (Some path, run)
      end
  end.

(** [ImportExportHandler.import_file].  The [finally] clause unlinks [path]
    when it is not [None]; a raise of [os.unlink] replaces the outcome of the
    [try] block.  The function has no [return]. *)
Definition import_file (data : Data) (ids : list string) : IO Fd W PyVal :=
  let+ importer_class := _get_importer_class data in
  let+ filedata := _get_filedata data in
  let+ (path, outcome) := import_file_try importer_class filedata in
  let+ _ :=
    match path with
    | Some path => call (fun _ => Unlink path) (os_unlink env path)
    | None => retIO tt
    end in
  let+ _ := liftIO outcome in
  retIO VNone.

(** A handler on a world that keeps the record of the calls made in it. *)
Definition as_handler (m : IO Fd W PyVal)
  : StoreM (W * list (IOEvent Fd)) PyVal :=
  fun '(w, t0) => let '(r, w1, t) := m w in (r, (w1, t0 ++ t)).

(** A bound method of one argument, called with [(col, data, ids)]. *)
Definition wrong_arity (name : string)
  : Data -> list string -> StoreM (W * list (IOEvent Fd)) PyVal :=
  fun _ _ => raiseS (Error "TypeError"
                       (name +:+ "() takes exactly 2 arguments (4 given)")).

Definition ImportExportHandler : HandlerGroup (W * list (IOEvent Fd)) :=
  {| class_name := "ImportExportHandler";
     group_hasReturnValue := Some true;
     members :=
       [("_get_filedata", method "_get_filedata" (wrong_arity "_get_filedata"));
        ("_get_importer_class",
          method "_get_importer_class" (wrong_arity "_get_importer_class"));
        ("import_file",
          method "import_file" (fun data ids => as_handler (import_file data ids)))] |}.

End ImportExport.

Arguments ImportEnv : clear implicits.

(** ** An example system to import from *)

Module DemoImport.
Import Demo.

(** The files of the example system, with what was written to them. *)
Definition Files : Type := list (string * list PyVal).

Definition deck_url : PyVal := VStr "http://example.org/deck.txt".

(** One URL can be opened; temporary files are all named [/tmp/tmpA];
    importing a file of type [anki1] fails when the importer runs. *)
Definition demo_env : ImportEnv nat ImporterClass Files :=
  {| import_module := fun _ => retS tt;
     urlopen := fun url =>
       match url with
       | VStr "http://example.org/deck.txt" => retS 3
       | _ => raiseS (Error "URLError" "no route to host")
       end;
     fd_read := fun _ => retS (VStr "front;back");
     fd_close := fun _ => retS tt;
     NamedTemporaryFile := fun files => (Ok "/tmp/tmpA", ("/tmp/tmpA", []) :: files);
     tmp_write := fun path filedata files =>
       (Ok tt, map (fun f => if fst f =? path then (path, snd f ++ [filedata]) else f)
                 files);
     tmp_exit := fun _ => retS tt;
     importer_new := fun cls _ => retS cls;
     importer_open := fun _ => retS tt;
     importer_run := fun cls =>
       match cls with
       | Anki1Importer => raiseS (Error "Exception" "invalid deck")
       | _ => retS tt
       end;
     os_unlink := fun path files =>
       (Ok tt, filter (fun f => negb (fst f =? path)) files);
     py_str := demo_dumps |}.

Definition csv_data : Data := <["filetype" := VStr "csv"]> ∅.

Definition url_data : Data :=
  <["filetype" := VStr "text"]> (<["url" := deck_url]> ∅).

Definition inline_data : Data :=
  <["filetype" := VStr "text"]>
    (<["data" := VStr "front;back"]> (<["url" := deck_url]> ∅)).

Definition anki1_data : Data :=
  <["filetype" := VStr "anki1"]> (<["data" := VStr "old deck"]> ∅).

(** The calls of the examples. *)
Definition fetch_calls : list (IOEvent nat) :=
  [UrlOpen deck_url (Some 3); FdRead 3; FdClose 3].

Definition failed_import_calls : list (IOEvent nat) :=
  [ImportModule Anki1Importer; TempCreate (Some "/tmp/tmpA");
   TempWrite "/tmp/tmpA" (VStr "old deck"); TempExit "/tmp/tmpA";
   ImporterNew Anki1Importer "/tmp/tmpA"; ImporterOpen; ImporterRun;
   Unlink "/tmp/tmpA"].

Definition url_import_calls : list (IOEvent nat) :=
  [ImportModule TextImporter; UrlOpen deck_url (Some 3); FdRead 3; FdClose 3;
   TempCreate (Some "/tmp/tmpA"); TempWrite "/tmp/tmpA" (VStr "front;back");
   TempExit "/tmp/tmpA"; ImporterNew TextImporter "/tmp/tmpA";
   ImporterOpen; ImporterRun; Unlink "/tmp/tmpA"].

Definition inline_import_calls : list (IOEvent nat) :=
  [ImportModule TextImporter; TempCreate (Some "/tmp/tmpA");
   TempWrite "/tmp/tmpA" (VStr "front;back"); TempExit "/tmp/tmpA";
   ImporterNew TextImporter "/tmp/tmpA"; ImporterOpen; ImporterRun;
   Unlink "/tmp/tmpA"].

(** An instance without handlers for a collection on that system. *)
Definition import_app : RestApp (Files * list (IOEvent nat)) :=
  {| data_root := "/srv/data";
     allowed_hosts := "*";
     handlers := empty_handlers;
     collection_manager := None |}.

End DemoImport.

(** ** The entry point *)

(** What [make_app] does to set up logging. *)
Inductive SetupEvent : Type :=
| ImportLogpatch
| FileConfig (path : string).

(** What [make_app] reads and calls outside this module: [sys.version_info],
    the import of [AnkiServer.logpatch] and [logging.config.fileConfig]. *)
Record SetupEnv : Type := {
  version_info : nat * nat;
  import_logpatch : PyResult unit;
  fileConfig : string -> PyResult unit
}.

(** [make_app(global_conf, **local_conf)] in a process whose working
    directory is [cwd]; the values of [local_conf] are the strings of the
    configuration file.  It returns what [RestApp(...)] returns, called
    without a manager, with the logging calls made before. *)
Definition make_app {Col NoteT CardT} (anki : Anki Col NoteT CardT)
  (threading : Threading Col)
  (setup : SetupEnv) (cwd : string) (local_conf : gmap string string)
  : PyResult (RestApp Col) * list SetupEvent :=
  let logging_config_file := local_conf !! "logging.config_file" in
  let configured : PyResult unit * list SetupEvent :=
    match logging_config_file with
    | Some file =>
        if negb (file =? "") then
          let patched : PyResult unit * list SetupEvent :=
            if Nat.eqb (fst (version_info setup)) 2
               && Nat.eqb (snd (version_info setup)) 5
            then (import_logpatch setup, [ImportLogpatch])
            else (Ok tt, []) in
          match patched with
          | (Raise e, calls) => (Raise e, calls)
          | (Ok _, calls) => (fileConfig setup file, calls ++ [FileConfig file])
          end
        else (Ok tt, [])
    | None => (Ok tt, [])
    end in
  match configured with
  | (Raise e, calls) => (Raise e, calls)
  | (Ok _, calls) =>
      (RestApp_init anki threading cwd
         (default "." (local_conf !! "data_root"))
         (default "*" (local_conf !! "allowed_hosts"))
         true None,
       calls)
  end.

(** A configuration that names a logging file, on Python 2.5. *)
Module DemoSetup.

Definition paste_conf : gmap string string :=
  <["data_root" := "/srv/data"]>
    (<["logging.config_file" := "/etc/anki/logging.conf"]> ∅).

Definition python25 : SetupEnv :=
  {| version_info := (2, 5);
     import_logpatch := Ok tt;
     fileConfig := fun _ => Ok tt |}.

Definition setup_calls : list SetupEvent :=
  [ImportLogpatch; FileConfig "/etc/anki/logging.conf"].

End DemoSetup.

(** * Part II: properties *)

(** ** Splitting and joining *)

Section PyStrFacts.
Import PyStr.

Lemma split_nonempty sep s : split sep s <> [].
Proof.
  destruct s as [|c s]; simpl; [discriminate|].
  destruct (Ascii.eqb c sep); [discriminate|].
  destruct (split sep s); discriminate.
Qed.

(** Splitting distributes over a separator in the middle. *)
Lemma split_app_sep sep a b :
  split sep (a +:+ String sep b) = split sep a ++ split sep b.
Proof.
  induction a as [|c a IH]; simpl.
  - rewrite Ascii.eqb_refl. reflexivity.
  - destruct (Ascii.eqb c sep); rewrite IH; [reflexivity|].
    pose proof (split_nonempty sep a) as Hne.
    destruct (split sep a); [congruence|reflexivity].
Qed.

Lemma split_no_sep sep s : contains sep s = false -> split sep s = [s].
Proof.
  induction s as [|c s IH]; simpl; [reflexivity|].
  intros H. apply orb_false_iff in H as [Hc Hs].
  rewrite Hc, (IH Hs). reflexivity.
Qed.

(** Every piece of a split is free of the separator. *)
Lemma split_pieces sep s :
  Forall (fun w => contains sep w = false) (split sep s).
Proof.
  induction s as [|c s IH]; simpl.
  - constructor; [reflexivity|constructor].
  - destruct (Ascii.eqb c sep) eqn:Hc.
    + constructor; [reflexivity|exact IH].
    + destruct (split sep s) as [|w ws]; inversion IH; subst.
      * constructor; [simpl; rewrite Hc; reflexivity|constructor].
      * constructor; [simpl; rewrite Hc; simpl; assumption|assumption].
Qed.

(** [sep.join(l).split(sep)] is [l] for separator-free, non-empty [l]. *)
Lemma split_concat sep (l : list string) :
  l <> [] ->
  Forall (fun w => contains sep w = false) l ->
  split sep (String.concat (String sep EmptyString) l) = l.
Proof.
  induction l as [|x l IH]; [congruence|].
  intros _ Hall. inversion Hall as [|? ? Hx Hl]; subst.
  destruct l as [|y l].
  - simpl. apply split_no_sep, Hx.
  - change (String.concat (String sep "") (x :: y :: l))
      with (x +:+ String sep (String.concat (String sep "") (y :: l))).
    rewrite split_app_sep, (split_no_sep _ _ Hx), IH by (congruence || assumption).
    reflexivity.
Qed.

End PyStrFacts.

(** ** The path resolver *)

(** The path that names the resources [pairs], each a type and an
    identifier, and the operation [op]. *)
Definition build_path (pairs : list (string * string)) (op : string) : string :=
  "/" +:+ String.concat "/" (flat_map (fun p => [fst p; snd p]) pairs ++ [op]).

(** The types of [pairs] are drawn, in order, from the leading [slots]. *)
Fixpoint drawn_in_order (slots : list TypeSlot) (pairs : list (string * string))
  : bool :=
  match pairs, slots with
  | [], _ => true
  | (t, _) :: ps, s :: ss => PyStr.mem t (as_list s) && drawn_in_order ss ps
  | _ :: _, [] => false
  end.

(** No separator inside a segment. *)
Definition segment (s : string) : Prop := PyStr.contains PyStr.slash s = false.

(** The type of the last pair: the deepest resource type of the path. *)
Definition deepest_type (pairs : list (string * string)) : option string :=
  fst <$> List.last (Some <$> pairs) None.

Lemma mem_true_iff x l : PyStr.mem x l = true <-> In x l.
Proof.
  unfold PyStr.mem. rewrite existsb_exists. split.
  - intros (y & Hin & Heq). apply String.eqb_eq in Heq. subst. exact Hin.
  - intros Hin. exists x. split; [exact Hin|apply String.eqb_refl].
Qed.

Lemma split_concat_slash (l : list string) :
  l <> [] ->
  Forall segment l ->
  PyStr.split PyStr.slash (String.concat "/" l) = l.
Proof. apply (split_concat PyStr.slash). Qed.

Lemma mem_slash_prefixed rest :
  PyStr.mem (String "/" rest) [""; "/"] = (rest =? "").
Proof. destruct rest; reflexivity. Qed.

(** The loop consumes one pair per slot and stops in front of the
    operation name. *)
Lemma walk_pairs pairs : forall slots ht ids op,
  pairs <> [] ->
  drawn_in_order slots pairs = true ->
  walk slots {| w_handler_type := ht; w_ids := ids;
                w_parts := flat_map (fun p => [fst p; snd p]) pairs ++ [op] |}
  = {| w_handler_type := deepest_type pairs;
       w_ids := ids ++ map snd pairs;
       w_parts := [op] |}.
Proof.
  induction pairs as [|[t i] ps IH]; intros slots ht ids op Hne Hdrawn;
    [congruence|].
  destruct slots as [|s ss]; [discriminate|].
  simpl in Hdrawn. apply andb_true_iff in Hdrawn as [Hmem Hrest].
  simpl. rewrite Hmem. simpl.
  destruct ps as [|[t' i'] ps'].
  - reflexivity.
  - set (parts := flat_map (fun p => [fst p; snd p]) ((t', i') :: ps') ++ [op]).
    assert (Hlen : (length parts <? 2)%nat = false).
    { subst parts. simpl. destruct (flat_map _ ps' ++ [op]); reflexivity. }
    rewrite Hlen. subst parts.
    rewrite (IH ss (Some t) (ids ++ [i]) op) by (congruence || assumption).
    f_equal. rewrite <- app_assoc. reflexivity.
Qed.

Lemma segments_of_pairs pairs op :
  Forall (fun p => segment (snd p)) pairs ->
  Forall (fun p => segment (fst p)) pairs ->
  segment op ->
  Forall segment (flat_map (fun p => [fst p; snd p]) pairs ++ [op]).
Proof.
  intros Hids Hts Hop. apply Forall_app. split.
  - induction pairs as [|p ps IH]; simpl; [constructor|].
    inversion Hids; inversion Hts; subst. auto.
  - auto.
Qed.

(** A type name of the grammar holds no separator. *)
Lemma drawn_types_are_segments pairs : forall slots,
  Forall (fun s => Forall segment (as_list s)) slots ->
  drawn_in_order slots pairs = true ->
  Forall (fun p => segment (fst p)) pairs.
Proof.
  induction pairs as [|[t i] ps IH]; intros slots Hslots Hdrawn; [constructor|].
  destruct slots as [|s ss]; [discriminate|].
  simpl in Hdrawn. apply andb_true_iff in Hdrawn as [Hmem Hrest].
  inversion Hslots as [|? ? Hs Hss]; subst.
  constructor.
  - apply mem_true_iff in Hmem. rewrite List.Forall_forall in Hs. apply Hs, Hmem.
  - eapply IH; eassumption.
Qed.

Lemma handler_types_are_segments :
  Forall (fun s => Forall segment (as_list s)) handler_types.
Proof. repeat constructor. Qed.

(** A path made of a slash and separator-free pieces is split back into
    those pieces before the loop runs. *)
Lemma parsePath_joined (segs : list string) :
  segs <> [] ->
  Forall segment segs ->
  (String.concat "/" segs =? "") = false ->
  _parsePath (String "/" (String.concat "/" segs))
  = let w := walk handler_types
               {| w_handler_type := None; w_ids := []; w_parts := segs |} in
    if (1 <? length (w_parts w))%nat || Nat.eqb (length (w_ids w)) 0
    then Raise (HTTPError HTTPNotFound)
    else Ok (w_handler_type w,
             match w_parts w with [] => "index" | part :: _ => part end,
             w_ids w).
Proof.
  intros Hne Hsegs Hrest. unfold _parsePath.
  rewrite mem_slash_prefixed, Hrest. cbv beta iota zeta.
  rewrite split_concat_slash by assumption. reflexivity.
Qed.

Lemma concat_collection_nonempty (rest : list string) :
  (String.concat "/" ("collection" :: rest) =? "") = false.
Proof. destruct rest; reflexivity. Qed.

(** C4. Path grammar round trip: a path built from one to three
    type/identifier pairs, drawn in order from the slots [collection],
    [model|note|deck], [card], each identifier a single segment, and closed by
    an operation name, resolves to the type of the last pair, that operation
    name and the identifiers in order. *)
Theorem parsePath_round_trip (pairs : list (string * string)) (op : string) :
  pairs <> [] ->
  drawn_in_order handler_types pairs = true ->
  Forall (fun p => segment (snd p)) pairs ->
  segment op ->
  _parsePath (build_path pairs op)
  = Ok (deepest_type pairs, op, map snd pairs).
Proof.
  intros Hne Hdrawn Hids Hop.
  pose proof (drawn_types_are_segments _ _ handler_types_are_segments Hdrawn) as Hts.
  pose proof (segments_of_pairs _ _ Hids Hts Hop) as Hsegs.
  destruct pairs as [|[t i] ps]; [congruence|].
  assert (Ht : t = "collection").
  { cbn [drawn_in_order handler_types] in Hdrawn.
    apply andb_true_iff in Hdrawn as [Hmem _].
    apply mem_true_iff in Hmem. destruct Hmem as [<-|[]]. reflexivity. }
  subst t. unfold build_path.
  change ("/" +:+ ?s) with (String "/" s).
  rewrite parsePath_joined;
    [|discriminate|exact Hsegs|apply concat_collection_nonempty].
  cbv zeta. rewrite walk_pairs by (congruence || assumption).
  cbn [w_parts w_ids w_handler_type length app].
  destruct (map snd ps); reflexivity.
Qed.

(** The theorem at the three shapes of the grammar. *)
Lemma parsePath_round_trip_witness :
  _parsePath (build_path [("collection", "deck1")] "find_notes")
    = Ok (Some "collection", "find_notes", ["deck1"])
  /\ _parsePath (build_path [("collection", "c"); ("note", "42")] "index")
    = Ok (Some "note", "index", ["c"; "42"])
  /\ _parsePath (build_path [("collection", "c"); ("deck", "1"); ("card", "9")] "answer")
    = Ok (Some "card", "answer", ["c"; "1"; "9"]).
Proof.
  split; [|split].
  - apply (parsePath_round_trip [("collection", "deck1")] "find_notes");
      [discriminate|reflexivity|repeat constructor|reflexivity].
  - apply (parsePath_round_trip [("collection", "c"); ("note", "42")] "index");
      [discriminate|reflexivity|repeat constructor|reflexivity].
  - apply (parsePath_round_trip
             [("collection", "c"); ("deck", "1"); ("card", "9")] "answer");
      [discriminate|reflexivity|repeat constructor|reflexivity].
Defined.

(** C9. A five-segment path [/collection/X/T/Y/card], with [T] one of
    [model], [note], [deck], resolves: [card] has no identifier after it and
    is taken as the operation name, on the resource type [T] with the
    identifiers [X] and [Y]. *)
Theorem parsePath_trailing_type_name (X T Y : string) :
  segment X ->
  segment Y ->
  PyStr.mem T ["model"; "note"; "deck"] = true ->
  _parsePath ("/collection/" +:+ X +:+ "/" +:+ T +:+ "/" +:+ Y +:+ "/card")
  = Ok (Some T, "card", [X; Y]).
Proof.
  intros HX HY HT.
  assert (HTseg : segment T).
  { apply mem_true_iff in HT.
    destruct HT as [<-|[<-|[<-|[]]]]; reflexivity. }
  change ("/collection/" +:+ X +:+ "/" +:+ T +:+ "/" +:+ Y +:+ "/card")
    with (String "/" (String.concat "/" ["collection"; X; T; Y; "card"])).
  rewrite parsePath_joined;
    [|discriminate|repeat constructor; assumption|apply concat_collection_nonempty].
  cbv zeta.
  change ["collection"; X; T; Y; "card"]
    with (flat_map (fun p : string * string => [fst p; snd p])
            [("collection", X); (T, Y)] ++ ["card"]).
  rewrite walk_pairs; [reflexivity|discriminate|].
  cbn [drawn_in_order handler_types as_list]. rewrite HT. reflexivity.
Qed.

Lemma parsePath_trailing_type_name_witness :
  _parsePath "/collection/X/deck/Y/card" = Ok (Some "deck", "card", ["X"; "Y"]).
Proof.
  apply (parsePath_trailing_type_name "X" "deck" "Y"); reflexivity.
Defined.

(** ** The dispatcher *)

(** The address the gate compares with [allowed_hosts]. *)
Definition request_origin (req : Request) : option string :=
  match req_headers req !! "X-Forwarded-For" with
  | Some addr => Some addr
  | None => req_remote_addr req
  end.

(** The request does not violate the origin allow-list. *)
Definition origin_allowed {Col} (self : RestApp Col) (req : Request) : Prop :=
  allowed_hosts self = "*" \/ request_origin req = Some (allowed_hosts self).

(** The request passes the gate, its path resolves to [(type, name, ids)]
    and its collection is located at [collection_path]. *)
Record Located {Col} (self : RestApp Col) (req : Request)
  (type : option string) (name : string) (ids : list string)
  (collection_path : string) : Prop := {
  located_gate : _checkRequest self req = Ok tt;
  located_path : _parsePath (req_path req) = Ok (type, name, ids);
  located_collection : _getCollectionPath self (hd "" ids) = Ok collection_path
}.

(** The request reaches execution: it is located, its operation is
    registered as [handler] with the flag [flag], its body decodes to [data]
    and the manager bound to the application opens the collection [col]. *)
Definition Reaches_execution {Col} (json_loads : string -> PyResult PyVal)
  (self : RestApp Col) (req : Request) (ids : list string)
  (collection_path : string) (handler : Handler Col) (flag : bool)
  (data : Data) (col : CollectionWrapper Col) : Prop :=
  exists type name manager,
    Located self req type name ids collection_path
    /\ _getHandler self type name = Ok (handler, flag)
    /\ _parseRequestBody json_loads req = (Ok data, [])
    /\ collection_manager self = Some manager
    /\ get_collection manager collection_path = Ok col.

Lemma bind_lift_Ok {A B} (a : A) (k : A -> M B) : bind (lift (Ok a)) k = k a.
Proof. unfold bind, lift. destruct (k a). reflexivity. Qed.

Section DispatcherFacts.
Context {Col : Type}.
Variable json_loads : string -> PyResult PyVal.
Variable json_dumps : PyVal -> string.
Implicit Types (self : RestApp Col) (req : Request).

Lemma checkRequest_not_post self req :
  origin_allowed self req ->
  req_method req <> "POST" ->
  _checkRequest self req = Raise (HTTPError (HTTPMethodNotAllowed ["POST"])).
Proof.
  intros Horigin Hmethod. unfold _checkRequest.
  assert (Hm : (req_method req =? "POST") = false)
    by (apply String.eqb_neq; exact Hmethod).
  destruct Horigin as [Hstar | Horigin].
  - rewrite Hstar. cbn. rewrite Hm. reflexivity.
  - fold (request_origin req). rewrite Horigin.
    rewrite bool_decide_eq_true_2 by reflexivity.
    destruct (negb (allowed_hosts self =? "*")); cbn; rewrite Hm; reflexivity.
Qed.

Lemma checkRequest_post self req :
  origin_allowed self req ->
  req_method req = "POST" ->
  _checkRequest self req = Ok tt.
Proof.
  intros Horigin Hmethod. unfold _checkRequest. rewrite Hmethod.
  destruct Horigin as [Hstar | Horigin].
  - rewrite Hstar. reflexivity.
  - fold (request_origin req). rewrite Horigin.
    rewrite bool_decide_eq_true_2 by reflexivity.
    destruct (negb (allowed_hosts self =? "*")); reflexivity.
Qed.

(** A resolved path has a first identifier. *)
Lemma parsePath_ids path type name ids :
  _parsePath path = Ok (type, name, ids) ->
  exists id0 rest, ids = id0 :: rest.
Proof.
  unfold _parsePath. destruct (PyStr.mem path [""; "/"]); [discriminate|].
  cbv zeta.
  match goal with |- context [walk handler_types ?w0] =>
    generalize (walk handler_types w0) end.
  intros w.
  destruct ((1 <? length (w_parts w))%nat || Nat.eqb (length (w_ids w)) 0) eqn:Hc;
    [discriminate|].
  intros [= _ _ <-]. apply orb_false_iff in Hc as [_ Hids].
  destruct (w_ids w) as [|id0 rest]; [discriminate|]. eauto.
Qed.

(** The dispatcher on a located request: the collection path is printed,
    then the handler is looked up, then the body is parsed. *)
Lemma call_located self req type name ids collection_path :
  Located self req type name ids collection_path ->
  RestApp_call json_loads json_dumps self req
  = bind (emit (Stdout collection_path)) (fun _ =>
    bind (lift (_getHandler self type name)) (fun '(handler, flag) =>
    bind (_parseRequestBody json_loads req) (fun data =>
    bind (emit (StdoutData data)) (fun _ =>
    bind (match collection_manager self with
          | Some manager => ret manager
          | None => raise (Error "AttributeError"
                      "'RestApp' object has no attribute 'collection_manager'")
          end) (fun manager =>
    bind (lift (get_collection manager collection_path)) (fun col =>
    match execute col handler data ids flag with
    | Raise e =>
        if isinstance_Exception e then
          bind (emit (LogException e)) (fun _ =>
          ret (ErrorResponse HTTPInternalServerError))
        else raise e
    | Ok output =>
        match output with
        | VNone => ret (Response200 "" "text/plain")
        | _ => ret (Response200 (json_dumps output) "application/json")
        end
    end)))))).
Proof.
  intros [Hgate Hpath Hcoll].
  destruct (parsePath_ids _ _ _ _ Hpath) as (id0 & rest & ->).
  unfold RestApp_call.
  rewrite Hgate, bind_lift_Ok, Hpath, bind_lift_Ok.
  change (index (id0 :: rest) 0) with (@Ok string id0).
  rewrite bind_lift_Ok. change (hd "" (id0 :: rest)) with id0 in Hcoll.
  rewrite Hcoll, bind_lift_Ok. reflexivity.
Qed.

(** What the dispatcher does once the operation came back or raised. *)
Lemma call_reaches self req ids collection_path handler flag data col :
  Reaches_execution json_loads self req ids collection_path handler flag data col ->
  RestApp_call json_loads json_dumps self req
  = match execute col handler data ids flag with
    | Raise e =>
        if isinstance_Exception e
        then (Ok (ErrorResponse HTTPInternalServerError),
              [Stdout collection_path; StdoutData data; LogException e])
        else (Raise e, [Stdout collection_path; StdoutData data])
    | Ok VNone =>
        (Ok (Response200 "" "text/plain"),
         [Stdout collection_path; StdoutData data])
    | Ok output =>
        (Ok (Response200 (json_dumps output) "application/json"),
         [Stdout collection_path; StdoutData data])
    end.
Proof.
  intros (type & name & manager & Hloc & Hhandler & Hbody & Hbound & Hopen).
  rewrite (call_located _ _ _ _ _ _ Hloc).
  rewrite Hhandler, Hbody, Hbound. cbn [bind lift ret emit]. rewrite Hopen.
  destruct (execute col handler data ids flag) as [[]|e]; try reflexivity.
  destruct (isinstance_Exception e); reflexivity.
Qed.

(** C6. Method gate: a request whose method is not [POST], and whose
    origin the allow-list admits, is answered 405 with [Allow: POST], whatever
    its path: the path is not resolved, so that a path on which resolution
    fails gets 405 too, not 404; nothing is printed or logged. *)
Theorem method_gate_precedes_resolution self req :
  origin_allowed self req ->
  req_method req <> "POST" ->
  RestApp_wsgi json_loads json_dumps self req
  = (Responded (ErrorResponse (HTTPMethodNotAllowed ["POST"])), []).
Proof.
  intros Horigin Hmethod. unfold RestApp_wsgi, RestApp_call.
  rewrite (checkRequest_not_post _ _ Horigin Hmethod). reflexivity.
Qed.

(** C2, as the code has it. For a request that passes the gate, path
    resolution and resource location, the handler registry is looked up
    before the body is decoded: an unknown operation is answered 404
    whatever the body, malformed or not, and only a registered operation
    with a malformed body is answered 400, the decode error being logged
    with the request path. The failing step ends the request: after the 404
    only the collection path was printed. *)
Theorem lookup_precedes_body_decode self req type name ids collection_path :
  Located self req type name ids collection_path ->
  (handlers_getitem self type name = None ->
   RestApp_wsgi json_loads json_dumps self req
   = (Responded (ErrorResponse HTTPNotFound), [Stdout collection_path]))
  /\ (forall handler e,
       handlers_getitem self type name = Some handler ->
       json_loads (req_body req) = Raise e ->
       isinstance_JSONDecodeError e = true ->
       RestApp_wsgi json_loads json_dumps self req
       = (Responded (ErrorResponse (HTTPBadRequest "")),
          [Stdout collection_path;
           LogError (req_path req +:+ ": Unable to parse JSON: " +:+ exn_str e)])).
Proof.
  intros Hloc. split.
  - intros Hnone. unfold RestApp_wsgi.
    rewrite (call_located _ _ _ _ _ _ Hloc).
    unfold _getHandler. rewrite Hnone. reflexivity.
  - intros handler e Hsome Hloads Hdecode. unfold RestApp_wsgi.
    rewrite (call_located _ _ _ _ _ _ Hloc).
    unfold _getHandler, _parseRequestBody. rewrite Hsome, Hloads, Hdecode.
    reflexivity.
Qed.

(** C10. A body that is valid JSON but not an object: [json.loads]
    succeeds, [data.items()] raises [AttributeError], which is not a
    [webob] exception; [_parseRequestBody] does not catch it, and for a
    request that reaches the body parser neither does the dispatcher nor
    [wsgify]: the error goes to the HTTP layer and no 400 is sent. *)
Theorem non_object_body_escapes req (v : PyVal) :
  json_loads (req_body req) = Ok v ->
  (forall kvs, v <> VDict kvs) ->
  _parseRequestBody json_loads req
  = (Raise (Error "AttributeError" "object has no attribute 'items'"), [])
  /\ forall self type name ids collection_path handler flag,
       Located self req type name ids collection_path ->
       _getHandler self type name = Ok (handler, flag) ->
       RestApp_wsgi json_loads json_dumps self req
       = (Propagated (Error "AttributeError" "object has no attribute 'items'"),
          [Stdout collection_path]).
Proof.
  intros Hloads Hshape.
  assert (Hbody : _parseRequestBody json_loads req
                  = (Raise (Error "AttributeError" "object has no attribute 'items'"), [])).
  { unfold _parseRequestBody. rewrite Hloads.
    destruct v; try reflexivity. destruct (Hshape kvs). reflexivity. }
  split; [exact Hbody|].
  intros self type name ids collection_path handler flag Hloc Hhandler.
  unfold RestApp_wsgi. rewrite (call_located _ _ _ _ _ _ Hloc).
  rewrite Hhandler, Hbody. reflexivity.
Qed.


(** C8, as the code has it. When the executor raises an instance of
    [Exception] for a request that reached execution, the dispatcher logs the
    exception and answers with a bare 500: the response is the same for
    every such exception, and nothing is raised into the HTTP layer. *)
Theorem internal_error_is_opaque self req ids collection_path handler flag data
  col (e : PyExn) :
  Reaches_execution json_loads self req ids collection_path handler flag data col ->
  execute col handler data ids flag = Raise e ->
  isinstance_Exception e = true ->
  RestApp_wsgi json_loads json_dumps self req
  = (Responded (ErrorResponse HTTPInternalServerError),
     [Stdout collection_path; StdoutData data; LogException e]).
Proof.
  intros Hreach Hexec Hinst. unfold RestApp_wsgi.
  rewrite (call_reaches _ _ _ _ _ _ _ _ Hreach), Hexec, Hinst. reflexivity.
Qed.

(** An exception outside [Exception] is not caught: it goes through the
    dispatcher and through [wsgify]. *)
Lemma exit_exception_propagates self req ids collection_path handler flag data
  col (e : PyExn) :
  Reaches_execution json_loads self req ids collection_path handler flag data col ->
  execute col handler data ids flag = Raise e ->
  isinstance_Exception e = false ->
  RestApp_wsgi json_loads json_dumps self req
  = (Propagated e, [Stdout collection_path; StdoutData data]).
Proof.
  intros Hreach Hexec Hinst. unfold RestApp_wsgi.
  rewrite (call_reaches _ _ _ _ _ _ _ _ Hreach), Hexec, Hinst.
  destruct e; try discriminate. reflexivity.
Qed.

End DispatcherFacts.

(** ** The handler registry *)

Section RegistryFacts.
Context {Col : Type}.
Implicit Types (self : RestApp Col) (handler : Handler Col).

(** A fresh name of a known type is registered. *)
Lemma add_handler_fresh self type name handler of_type :
  handlers self !! type = Some of_type ->
  of_type !! name = None ->
  fst (add_handler self type name handler) = Ok tt
  /\ handlers_getitem (snd (add_handler self type name handler)) (Some type) name
     = Some handler.
Proof.
  intros Htype Hname. unfold add_handler. rewrite Htype, Hname.
  split; [reflexivity|].
  cbn [snd handlers_getitem set_handlers handlers].
  rewrite lookup_insert_eq. apply lookup_insert_eq.
Qed.

(** C7. Registry uniqueness: registering a pair of resource type and
    operation name that the registry already holds raises, and the instance
    is left as it was: the pair is still mapped to the handler that was
    registered first. *)
Theorem add_handler_duplicate self type name (first handler : Handler Col) :
  handlers_getitem self (Some type) name = Some first ->
  (exists e, fst (add_handler self type name handler) = Raise e)
  /\ snd (add_handler self type name handler) = self
  /\ handlers_getitem (snd (add_handler self type name handler)) (Some type) name
     = Some first.
Proof.
  intros Hfirst. unfold handlers_getitem in Hfirst.
  destruct (handlers self !! type) as [of_type|] eqn:Htype; [|discriminate].
  assert (Hadd : add_handler self type name handler
                 = (Raise (Error "TypeError"
                      "exceptions must be old-style classes or derived from BaseException, not str"),
                    self)).
  { unfold add_handler. rewrite Htype, Hfirst. reflexivity. }
  rewrite Hadd. cbn [fst snd]. split; [eauto|]. split; [reflexivity|].
  unfold handlers_getitem. rewrite Htype. exact Hfirst.
Qed.

End RegistryFacts.

(** Registering [ping] twice under [collection]: the second call raises and
    [ping] stays. *)
Lemma add_handler_duplicate_witness :
  handlers_getitem (snd (add_handler Demo.bare_app "collection" "ping" Demo.ping))
    (Some "collection") "ping" = Some Demo.ping
  /\ (exists e,
        fst (add_handler (snd (add_handler Demo.bare_app "collection" "ping" Demo.ping))
               "collection" "ping" Demo.ping_again) = Raise e)
  /\ handlers_getitem
       (snd (add_handler (snd (add_handler Demo.bare_app "collection" "ping" Demo.ping))
               "collection" "ping" Demo.ping_again))
       (Some "collection") "ping" = Some Demo.ping.
Proof.
  assert (H : handlers_getitem
                (snd (add_handler Demo.bare_app "collection" "ping" Demo.ping))
                (Some "collection") "ping" = Some Demo.ping)
    by (vm_compute; reflexivity).
  split; [exact H|].
  destruct (add_handler_duplicate _ "collection" "ping" Demo.ping Demo.ping_again H)
    as (Hraise & _ & Hkept).
  split; [exact Hraise|exact Hkept].
Defined.

(** ** The dispatcher on the example collection *)

Import Demo.

(** Closed goals on the example collection are settled by evaluation. *)
Ltac evaluate := vm_compute; reflexivity.

Ltac reaches_execution :=
  do 3 eexists; split; [constructor; evaluate|];
  split; [evaluate|]; split; [evaluate|]; split; evaluate.

Lemma demo_app0_init :
  RestApp_init demo_anki demo_threading "/" "/srv/data" "*" true None
  = Ok demo_app0.
Proof. vm_compute. reflexivity. Qed.

Lemma demo_located_find_notes body :
  Located demo_app (request "POST" "/collection/deck1/find_notes" body)
    (Some "collection") "find_notes" ["deck1"] "/srv/data/deck1/collection.anki2".
Proof. constructor; vm_compute; reflexivity. Qed.

(** A [GET] on a path that does not resolve is answered 405. *)
Lemma method_gate_precedes_resolution_witness :
  _parsePath (req_path get_request) = Raise (HTTPError HTTPNotFound)
  /\ RestApp_wsgi demo_loads demo_dumps demo_app get_request
     = (Responded (ErrorResponse (HTTPMethodNotAllowed ["POST"])), []).
Proof.
  split; [vm_compute; reflexivity|].
  apply (method_gate_precedes_resolution demo_loads demo_dumps demo_app get_request).
  - left. reflexivity.
  - vm_compute. discriminate.
Defined.

(** C2 fails as stated: an unknown operation with a malformed body passes
    the gate, path resolution and resource location, and is answered 404, not
    400: the registry is looked up first and the body is never decoded. *)
Lemma unknown_operation_malformed_body_is_404 :
  Located demo_app unknown_operation_request
    (Some "collection") "nosuch" ["deck1"] "/srv/data/deck1/collection.anki2"
  /\ handlers_getitem demo_app (Some "collection") "nosuch" = None
  /\ (exists e, demo_loads (req_body unknown_operation_request) = Raise e
                /\ isinstance_JSONDecodeError e = true)
  /\ RestApp_wsgi demo_loads demo_dumps demo_app unknown_operation_request
     = (Responded (ErrorResponse HTTPNotFound),
        [Stdout "/srv/data/deck1/collection.anki2"])
  /\ fst (RestApp_wsgi demo_loads demo_dumps demo_app unknown_operation_request)
     <> Responded (ErrorResponse (HTTPBadRequest "")).
Proof.
  split; [constructor; vm_compute; reflexivity|].
  split; [vm_compute; reflexivity|].
  split; [eexists; split; vm_compute; reflexivity|].
  split; [vm_compute; reflexivity|].
  vm_compute. discriminate.
Qed.

Lemma lookup_precedes_body_decode_witness :
  RestApp_wsgi demo_loads demo_dumps demo_app unknown_operation_request
  = (Responded (ErrorResponse HTTPNotFound),
     [Stdout "/srv/data/deck1/collection.anki2"])
  /\ RestApp_wsgi demo_loads demo_dumps demo_app malformed_body_request
     = (Responded (ErrorResponse (HTTPBadRequest "")),
        [Stdout "/srv/data/deck1/collection.anki2";
         LogError ("/collection/deck1/find_notes: Unable to parse JSON: "
                   +:+ "No JSON object could be decoded")]).
Proof.
  split.
  - refine (proj1 (lookup_precedes_body_decode demo_loads demo_dumps demo_app
                     unknown_operation_request (Some "collection") "nosuch"
                     ["deck1"] "/srv/data/deck1/collection.anki2" _) _).
    + constructor; evaluate.
    + evaluate.
  - refine (proj2 (lookup_precedes_body_decode demo_loads demo_dumps demo_app
                     malformed_body_request (Some "collection") "find_notes"
                     ["deck1"] "/srv/data/deck1/collection.anki2" _)
              (_RestHandlerWrapper "CollectionHandler.find_notes"
                 (method "find_notes" (CollectionHandler_find_notes demo_anki)) true)
              (Error "JSONDecodeError" "No JSON object could be decoded") _ _ _).
    + apply demo_located_find_notes.
    + evaluate.
    + reflexivity.
    + reflexivity.
Defined.

(** A JSON array as the body of a request for [find_notes]. *)
Lemma non_object_body_escapes_witness :
  demo_loads (req_body array_body_request) = Ok (VList [])
  /\ RestApp_wsgi demo_loads demo_dumps demo_app array_body_request
     = (Propagated (Error "AttributeError" "object has no attribute 'items'"),
        [Stdout "/srv/data/deck1/collection.anki2"]).
Proof.
  split; [reflexivity|].
  refine (proj2 (non_object_body_escapes demo_loads demo_dumps array_body_request
                   (VList []) _ _)
            demo_app (Some "collection") "find_notes" ["deck1"]
            "/srv/data/deck1/collection.anki2"
            (_RestHandlerWrapper "CollectionHandler.find_notes"
               (method "find_notes" (CollectionHandler_find_notes demo_anki)) true)
            true _ _).
  - reflexivity.
  - discriminate.
  - apply demo_located_find_notes.
  - vm_compute. reflexivity.
Defined.



(** C8 fails as stated: an operation that raises [SystemExit] reaches
    execution, the executor surfaces the raise, and [except Exception] does
    not catch it: no 500 is sent and the exception reaches the HTTP layer. *)
Lemma system_exit_reaches_http_layer :
  Reaches_execution demo_loads demo_app_quit quit_request ["deck1"]
    "/srv/data/deck1/collection.anki2" quit true ∅ {| execute := spec_execute demo_col |}
  /\ fst (func quit ∅ ["deck1"] demo_col) = Raise (BaseError "SystemExit" "0")
  /\ RestApp_wsgi demo_loads demo_dumps demo_app_quit quit_request
     = (Propagated (BaseError "SystemExit" "0"),
        [Stdout "/srv/data/deck1/collection.anki2"; StdoutData ∅]).
Proof.
  split; [reaches_execution|]. split; evaluate.
Qed.

(** [add_note] on a body without [model]: the [KeyError] is logged and the
    answer is a bare 500. *)
Lemma internal_error_is_opaque_witness :
  RestApp_wsgi demo_loads demo_dumps demo_app add_note_request
  = (Responded (ErrorResponse HTTPInternalServerError),
     [Stdout "/srv/data/deck1/collection.anki2"; StdoutData ∅;
      LogException (Error "KeyError" "model")]).
Proof.
  refine (internal_error_is_opaque demo_loads demo_dumps demo_app add_note_request
            ["deck1"] "/srv/data/deck1/collection.anki2"
            (noReturnValue "add_note" (CollectionHandler_add_note demo_anki))
            false ∅ {| execute := spec_execute demo_col |}
            (Error "KeyError" "model") _ _ _).
  - reaches_execution.
  - evaluate.
  - reflexivity.
Defined.

(** C3 fails as stated: the path of the scenario resolves to the resource
    type [note] with the operation [index] and the identifiers [deck1] and
    [find_notes]; [find_notes] is taken as a note identifier, the handler run
    is [NoteHandler.index], and on the example collection the answer is a
    500, not a list of notes. *)
Lemma spec_scenario_runs_note_index :
  _parsePath (req_path spec_scenario_request)
  = Ok (Some "note", "index", ["deck1"; "find_notes"])
  /\ _getHandler demo_app (Some "note") "index"
     = Ok (_RestHandlerWrapper "NoteHandler.index"
             (method "index" (NoteHandler_index demo_anki)) true, true)
  /\ RestApp_wsgi demo_loads demo_dumps demo_app spec_scenario_request
     = (Responded (ErrorResponse HTTPInternalServerError),
        [Stdout "/srv/data/deck1/collection.anki2";
         StdoutData (<["query" := VStr "tag:foo"]> ∅);
         LogException (Error "TypeError" "'NoneType' object is not iterable")]).
Proof.
  split; [evaluate|]. split; evaluate.
Qed.

(** ** The [find_notes] scenario *)

Section Scenario.
Context {Col NoteT CardT : Type}.
Variable anki : Anki Col NoteT CardT.
Variable json_loads : string -> PyResult PyVal.
Variable json_dumps : PyVal -> string.

(** The instance under construction before the default handlers are
    added. *)
Definition new_instance (cwd root hosts : string) : RestApp Col :=
  {| data_root := Posixpath.abspath cwd root;
     allowed_hosts := hosts;
     handlers := empty_handlers;
     collection_manager := None |}.

(** The default handler groups are always registered without a raise. *)
Lemma add_default_groups_ok cwd root hosts :
  fst (add_groups (new_instance cwd root hosts) (default_groups anki)) = Ok tt.
Proof.
  unfold new_instance. generalize (Posixpath.abspath cwd root). intros r.
  evaluate.
Qed.

(** When [__init__] returns: the import and the fetch of the manager went
    through, and the instance is the new one with the default handlers, if
    asked for. *)
Lemma init_returns threading cwd root hosts defaults manager (app0 : RestApp Col) :
  RestApp_init anki threading cwd root hosts defaults manager = Ok app0 ->
  import_getCollectionManager threading = Ok tt
  /\ (manager = None -> exists m, getCollectionManager threading = Ok m)
  /\ app0 = if defaults
            then snd (add_groups (new_instance cwd root hosts) (default_groups anki))
            else new_instance cwd root hosts.
Proof.
  unfold RestApp_init. fold (new_instance cwd root hosts).
  destruct (import_getCollectionManager threading) as [[]|e]; [|discriminate].
  cbn [bindR]. intros Hinit.
  assert (Hfetch : manager = None -> exists m, getCollectionManager threading = Ok m).
  { intros ->. destruct (getCollectionManager threading) as [m|e]; [eauto|discriminate]. }
  split; [reflexivity|]. split; [exact Hfetch|].
  destruct (match manager with Some m => Ok m | None => getCollectionManager threading end)
    as [col|e]; [|discriminate].
  cbn [bindR] in Hinit. destruct defaults; [|congruence].
  destruct (add_groups _ _) as [[[]|e] self']; [|discriminate].
  injection Hinit as <-. reflexivity.
Qed.

(** When it raises: what the import raised, or what [getCollectionManager()]
    raised when no manager was given. *)
Lemma init_raises threading cwd root hosts defaults manager e :
  import_getCollectionManager threading = Raise e
  \/ (import_getCollectionManager threading = Ok tt /\ manager = None
      /\ getCollectionManager threading = Raise e) ->
  RestApp_init anki threading cwd root hosts defaults manager = Raise e.
Proof.
  unfold RestApp_init. intros [Himport|(Himport & -> & Hfetch)].
  - rewrite Himport. reflexivity.
  - rewrite Himport, Hfetch. reflexivity.
Qed.

(** With the default handlers [__init__] returns once the import and the
    fetch of the manager went through. *)
Lemma init_succeeds threading cwd root hosts manager :
  import_getCollectionManager threading = Ok tt ->
  (manager = None -> exists m, getCollectionManager threading = Ok m) ->
  RestApp_init anki threading cwd root hosts true manager
  = Ok (snd (add_groups (new_instance cwd root hosts) (default_groups anki))).
Proof.
  intros Himport Hfetch. unfold RestApp_init. fold (new_instance cwd root hosts).
  rewrite Himport. cbn [bindR].
  assert (Hcol : exists col,
            match manager with Some m => Ok m | None => getCollectionManager threading end
            = Ok col).
  { destruct manager as [m|]; [eauto|]. destruct (Hfetch eq_refl) as [m ->]. eauto. }
  destruct Hcol as [col ->]. cbn [bindR].
  pose proof (add_default_groups_ok cwd root hosts) as Hok.
  destruct (add_groups _ _) as [res self']. cbn [fst snd] in *. subst res.
  reflexivity.
Qed.

(** What [__init__] registers under [collection/find_notes]. *)
Lemma init_registers_find_notes threading cwd root hosts manager (app0 : RestApp Col) :
  RestApp_init anki threading cwd root hosts true manager = Ok app0 ->
  handlers_getitem app0 (Some "collection") "find_notes"
  = Some (_RestHandlerWrapper "CollectionHandler.find_notes"
            (method "find_notes" (CollectionHandler_find_notes anki)) true).
Proof.
  intros Hinit. apply init_returns in Hinit as (_ & _ & ->).
  unfold new_instance. generalize (Posixpath.abspath cwd root). intros r.
  evaluate.
Qed.

(** C3, as the code has it. The operation [find_notes] of a collection is
    reached by the path [/collection/deck1/find_notes]. On an application
    built by [__init__] with the default handlers, with a manager bound to it
    whose executor is the one of the spec, a [POST] to that path whose body
    decodes to the object with the one key [query], valued [tag:foo], is
    answered 200 with the JSON encoding of the list of objects [{"id": id}],
    one per identifier that [findNotes] returned, in the order it returned
    them. *)
Theorem find_notes_scenario threading cwd root hosts manager (app0 : RestApp Col)
  (open_collection : string -> Col) req collection_path
  (note_ids : list PyVal) (col' : Col) :
  RestApp_init anki threading cwd root hosts true manager = Ok app0 ->
  req_method req = "POST" ->
  origin_allowed app0 req ->
  req_path req = "/collection/deck1/find_notes" ->
  json_loads (req_body req) = Ok (VDict [("query", VStr "tag:foo")]) ->
  _getCollectionPath app0 "deck1" = Ok collection_path ->
  findNotes anki (VStr "tag:foo") (open_collection collection_path)
    = (Ok note_ids, col') ->
  RestApp_wsgi json_loads json_dumps
    (set_collection_manager app0 (spec_manager open_collection)) req
  = (Responded
       (Response200
          (json_dumps (VList (map (fun id => VDict [("id", id)]) note_ids)))
          "application/json"),
     [Stdout collection_path; StdoutData (<["query" := VStr "tag:foo"]> ∅)]).
Proof.
  intros Hinit Hmethod Horigin Hpath Hloads Hcoll Hfind.
  set (app := set_collection_manager app0 (spec_manager open_collection)).
  set (data := <["query" := VStr "tag:foo"]> (∅ : Data)).
  set (handler := _RestHandlerWrapper "CollectionHandler.find_notes"
                    (method "find_notes" (CollectionHandler_find_notes anki)) true).
  assert (Hreach : Reaches_execution json_loads app req ["deck1"] collection_path
                     handler true data
                     {| execute := spec_execute (open_collection collection_path) |}).
  { exists (Some "collection"), "find_notes", (spec_manager open_collection).
    split; [constructor|].
    - apply checkRequest_post; assumption.
    - rewrite Hpath. evaluate.
    - exact Hcoll.
    - split.
      { unfold _getHandler.
        change (handlers_getitem app) with (handlers_getitem app0).
        rewrite (init_registers_find_notes _ _ _ _ _ _ Hinit). reflexivity. }
      split.
      { unfold _parseRequestBody. rewrite Hloads. evaluate. }
      split; reflexivity. }
  unfold RestApp_wsgi. rewrite (call_reaches _ _ _ _ _ _ _ _ _ _ Hreach).
  assert (Hexec : execute {| execute := spec_execute (open_collection collection_path) |}
                    handler data ["deck1"] true
                  = Ok (VList (map (fun id => VDict [("id", id)]) note_ids))).
  { cbn [execute]. unfold spec_execute, handler.
    cbn [func _RestHandlerWrapper method].
    unfold CollectionHandler_find_notes.
    replace (get data "query" (VStr "")) with (VStr "tag:foo") by evaluate.
    replace (get data "preload" (VBool false)) with (VBool false) by evaluate.
    cbn [truthy]. unfold bindS. rewrite Hfind. reflexivity. }
  rewrite Hexec. reflexivity.
Qed.

End Scenario.

(** The scenario on the example collection: the notes tagged [foo], in the
    order of the collection. *)
Lemma find_notes_scenario_witness :
  RestApp_wsgi demo_loads demo_dumps demo_app find_notes_request
  = (Responded
       (Response200
          (demo_dumps (VList (map (fun id => VDict [("id", id)]) [VInt 7; VInt 5])))
          "application/json"),
     [Stdout "/srv/data/deck1/collection.anki2";
      StdoutData (<["query" := VStr "tag:foo"]> ∅)]).
Proof.
  refine (find_notes_scenario demo_anki demo_loads demo_dumps
            demo_threading "/" "/srv/data" "*" None demo_app0 (fun _ => demo_col)
            find_notes_request "/srv/data/deck1/collection.anki2"
            [VInt 7; VInt 5] demo_col _ _ _ _ _ _ _).
  - exact demo_app0_init.
  - reflexivity.
  - left. reflexivity.
  - reflexivity.
  - reflexivity.
  - evaluate.
  - evaluate.
Defined.

(** ** The resource locator *)

(** A path component that [normpath] keeps: neither empty nor a dot. *)
Definition kept (c : string) : bool := negb (PyStr.mem c [""; "."]).

(** A component of a normalized absolute path. *)
Definition clean (c : string) : Prop :=
  segment c /\ kept c = true /\ c <> "..".

(** The identifier has a [..] segment or is an absolute path. *)
Definition climbs_or_absolute (collection_id : string) : bool :=
  PyStr.mem ".." (PyStr.split PyStr.slash collection_id)
  || Posixpath.isabs collection_id.

(** The leading slashes of an absolute path. *)
Definition slashes (k : nat) : string := PyStr.replicate_char k PyStr.slash.


Ltac clean_components :=
  repeat (constructor; [repeat split; (reflexivity || discriminate)|]);
  constructor.

Section PosixpathFacts.
Import PyStr Posixpath.

Lemma append_cons (x : ascii) (a b : string) :
  String x a +:+ b = String x (a +:+ b).
Proof. reflexivity. Qed.

Lemma append_assoc (a b c : string) : (a +:+ b) +:+ c = a +:+ b +:+ c.
Proof.
  induction a as [|x a IH]; [reflexivity|].
  rewrite !append_cons. f_equal. exact IH.
Qed.

Lemma append_empty_r (a : string) : a +:+ "" = a.
Proof.
  induction a as [|x a IH]; [reflexivity|].
  rewrite append_cons. f_equal. exact IH.
Qed.

Lemma slice_to_append (a b : string) : slice_to (String.length a) (a +:+ b) = a.
Proof.
  induction a as [|x a IH]; [destruct b; reflexivity|].
  rewrite append_cons. simpl. f_equal. exact IH.
Qed.

Lemma endswith_char_app c a :
  endswith_char c a = true -> exists a', a = a' +:+ String c "".
Proof.
  induction a as [|x a IH]; simpl; [discriminate|].
  destruct a as [|y a].
  - intros H. apply Ascii.eqb_eq in H. subst. exists "". reflexivity.
  - intros H. destruct (IH H) as [a' Ha']. exists (String x a').
    rewrite append_cons. f_equal. exact Ha'.
Qed.

Lemma kept_false_iff c : kept c = false <-> mem c [""; "."] = true.
Proof. unfold kept. destruct (mem c [""; "."]); simpl; split; congruence. Qed.

(** The loop of [normpath] skips what [kept] rejects. *)
Lemma fold_norm_step_kept i comps : forall acc,
  fold_left (norm_step i) comps acc
  = fold_left (norm_step i) (List.filter kept comps) acc.
Proof.
  induction comps as [|c comps IH]; intros acc; [reflexivity|].
  simpl. destruct (kept c) eqn:Hk.
  - simpl. apply IH.
  - rewrite IH. f_equal. unfold norm_step.
    apply kept_false_iff in Hk. rewrite Hk. reflexivity.
Qed.

(** Without [..] the loop appends every component it keeps. *)
Lemma fold_norm_step_append i comps : forall acc,
  Forall (fun c => kept c = true /\ c <> "..") comps ->
  fold_left (norm_step i) comps acc = acc ++ comps.
Proof.
  induction comps as [|c comps IH]; intros acc Hall.
  - simpl. rewrite app_nil_r. reflexivity.
  - inversion Hall as [|? ? [Hk Hdd] Hrest]; subst. simpl.
    rewrite IH by assumption.
    unfold norm_step. unfold kept in Hk. apply negb_true_iff in Hk. rewrite Hk.
    apply String.eqb_neq in Hdd. rewrite Hdd. simpl.
    rewrite <- app_assoc. reflexivity.
Qed.

Lemma split_slash_cons s : split slash (String "/" s) = "" :: split slash s.
Proof. reflexivity. Qed.

Lemma filter_kept_split_slashes k s :
  List.filter kept (split slash (slashes k +:+ s)) = List.filter kept (split slash s).
Proof.
  induction k as [|k IH]; [reflexivity|].
  change (slashes (S k) +:+ s) with (String "/" (slashes k +:+ s)).
  rewrite split_slash_cons. simpl. exact IH.
Qed.

(** What [join] adds to the components of a path. *)
Lemma filter_kept_join_step a b :
  startswith "/" b = false ->
  List.filter kept (split slash (join_step a b))
  = List.filter kept (split slash a) ++ List.filter kept (split slash b).
Proof.
  intros Hb. unfold join_step. rewrite Hb.
  destruct (a =? "") eqn:Ha.
  - apply String.eqb_eq in Ha. subst a. reflexivity.
  - simpl. destruct (endswith_char slash a) eqn:Hend.
    + destruct (endswith_char_app _ _ Hend) as [a' ->].
      rewrite append_assoc.
      change (String slash "" +:+ b) with (String slash b).
      rewrite !split_app_sep, !List.filter_app. simpl.
      rewrite app_nil_r. reflexivity.
    + change (a +:+ "/" +:+ b) with (a +:+ String slash b).
      rewrite split_app_sep, List.filter_app. reflexivity.
Qed.

(** [join] extends its first argument when the second is relative. *)
Lemma join_step_extends a b :
  startswith "/" b = false -> exists x, join_step a b = a +:+ x.
Proof.
  intros Hb. unfold join_step. rewrite Hb.
  destruct ((a =? "") || endswith_char slash a); eauto.
Qed.

Lemma startswith_cons a p b s :
  startswith (String a p) (String b s) = Ascii.eqb a b && startswith p s.
Proof. reflexivity. Qed.

Lemma startswith_slash_cons c s :
  startswith "/" (String c s) = Ascii.eqb "/" c.
Proof. simpl. apply andb_true_r. Qed.

Lemma startswith_slash_false c s :
  startswith "/" (String c s) = false -> Ascii.eqb "/" c = false.
Proof. rewrite startswith_slash_cons. auto. Qed.

(** One or two slashes in front of a relative, non-empty path. *)
Lemma initial_slashes_relative k q :
  k = 1 \/ k = 2 ->
  q <> "" ->
  startswith "/" q = false ->
  initial_slashes (slashes k +:+ q) = k.
Proof.
  intros Hk Hq Hrel. destruct q as [|c q]; [congruence|].
  apply startswith_slash_false in Hrel.
  unfold initial_slashes.
  destruct Hk as [-> | ->].
  - change (slashes 1 +:+ String c q) with (String "/" (String c q)).
    rewrite !startswith_cons. cbn [startswith]. rewrite Hrel. reflexivity.
  - change (slashes 2 +:+ String c q) with (String "/" (String "/" (String c q))).
    rewrite !startswith_cons. cbn [startswith]. rewrite !Hrel. reflexivity.
Qed.

Lemma clean_not_dotdot acc : Forall clean acc -> last_is_dotdot acc = false.
Proof.
  intros Hall. unfold last_is_dotdot. destruct acc as [|c acc]; [reflexivity|].
  apply String.eqb_neq.
  assert (Hin : In (List.last (c :: acc) "") (c :: acc)).
  { clear Hall. revert c.
    induction acc as [|d acc IH]; intros c; [left; reflexivity|].
    right. exact (IH d). }
  rewrite List.Forall_forall in Hall.
  destruct (Hall _ Hin) as (_ & _ & Hdd). exact Hdd.
Qed.

Lemma Forall_removelast {A} (P : A -> Prop) (l : list A) :
  Forall P l -> Forall P (removelast l).
Proof.
  induction l as [|x l IH]; intros H; [constructor|].
  inversion H; subst. destruct l as [|y l]; [constructor|].
  simpl. constructor; [assumption|]. apply IH. assumption.
Qed.

(** On an absolute path the loop of [normpath] collects clean components
    only: a [..] never stays. *)
Lemma fold_norm_step_clean i comps : forall acc,
  i <> 0 ->
  Forall segment comps ->
  Forall clean acc ->
  Forall clean (fold_left (norm_step i) comps acc).
Proof.
  induction comps as [|c comps IH]; intros acc Hi Hsegs Hacc; [exact Hacc|].
  inversion Hsegs as [|? ? Hc Hrest]; subst. simpl. apply IH; try assumption.
  unfold norm_step. destruct (mem c [""; "."]) eqn:Hmem; [exact Hacc|].
  destruct (c =? "..") eqn:Hdd.
  - rewrite (clean_not_dotdot _ Hacc).
    destruct i as [|i]; [congruence|]. simpl.
    destruct acc; [constructor|]. apply Forall_removelast. exact Hacc.
  - simpl. apply Forall_app. split; [exact Hacc|].
    constructor; [|constructor]. repeat split.
    + exact Hc.
    + unfold kept. rewrite Hmem. reflexivity.
    + apply String.eqb_neq. exact Hdd.
Qed.

(** A normalized absolute path: one or two slashes, then clean components
    joined by slashes. *)
Lemma normpath_absolute p :
  isabs p = true ->
  exists k cs, (k = 1 \/ k = 2) /\ Forall clean cs
               /\ normpath p = slashes k +:+ String.concat "/" cs.
Proof.
  intros Habs. unfold normpath.
  destruct p as [|c p]; [discriminate|].
  change (String c p =? "") with false. cbv iota zeta.
  set (i := initial_slashes (String c p)).
  assert (Hi : i = 1 \/ i = 2).
  { subst i. unfold initial_slashes. unfold isabs in Habs. rewrite Habs.
    destruct (_ && _); auto. }
  exists i, (fold_left (norm_step i) (split slash (String c p)) []).
  split; [exact Hi|]. split.
  - apply fold_norm_step_clean;
      [destruct Hi; lia|apply split_pieces|constructor].
  - destruct Hi as [-> | ->]; reflexivity.
Qed.

Lemma abspath_absolute cwd path :
  isabs cwd = true -> isabs (if isabs path then path else join cwd [path]) = true.
Proof.
  intros Hcwd. destruct (isabs path) eqn:Hpath; [exact Hpath|].
  destruct (join_step_extends cwd path Hpath) as [x Hx].
  change (join cwd [path]) with (join_step cwd path). rewrite Hx.
  destruct cwd as [|c cwd]; [discriminate|].
  rewrite append_cons. unfold isabs in *.
  rewrite startswith_slash_cons in *. exact Hcwd.
Qed.

Lemma kept_nonempty c : kept c = true -> c <> "".
Proof. intros H ->. discriminate. Qed.

Lemma filter_kept_clean cs : Forall clean cs -> List.filter kept cs = cs.
Proof.
  induction 1 as [|c cs (_ & Hk & _) _ IH]; [reflexivity|].
  simpl. rewrite Hk, IH. reflexivity.
Qed.

Lemma clean_segments cs : Forall clean cs -> Forall segment cs.
Proof. apply List.Forall_impl. intros c (H & _). exact H. Qed.

(** The components that [normpath] keeps of a normalized root. *)
Lemma filter_kept_root k cs :
  Forall clean cs ->
  List.filter kept (split slash (slashes k +:+ String.concat "/" cs)) = cs.
Proof.
  intros Hcs. rewrite filter_kept_split_slashes.
  destruct cs as [|c cs]; [reflexivity|].
  rewrite split_concat_slash;
    [apply filter_kept_clean; exact Hcs|discriminate|apply clean_segments; exact Hcs].
Qed.

(** Clean components joined by slashes form a relative, non-empty path. *)
Lemma concat_clean_relative c cs :
  Forall clean (c :: cs) ->
  exists x rest, String.concat "/" (c :: cs) = String x rest
                 /\ Ascii.eqb "/" x = false.
Proof.
  intros Hall. inversion Hall as [|? ? (Hseg & Hk & _) _]; subst.
  destruct c as [|x c]; [discriminate|].
  exists x. unfold segment in Hseg. simpl in Hseg.
  apply orb_false_iff in Hseg as [Hx _].
  rewrite Ascii.eqb_sym in Hx.
  destruct cs as [|d cs]; [exists c|eexists]; (split; [reflexivity|exact Hx]).
Qed.

(** The joined path keeps the slashes of the root and goes on with a
    relative, non-empty path. *)
Lemma join_root_form k cs collection_id :
  k = 1 \/ k = 2 ->
  Forall clean cs ->
  startswith "/" collection_id = false ->
  exists q,
    join (slashes k +:+ String.concat "/" cs) [collection_id; "collection.anki2"]
    = slashes k +:+ q
    /\ q <> "" /\ startswith "/" q = false.
Proof.
  intros Hk Hcs Hrel.
  change (join ?a [collection_id; "collection.anki2"])
    with (join_step (join_step a collection_id) "collection.anki2").
  destruct cs as [|c cs].
  - change (String.concat "/" []) with "". rewrite append_empty_r.
    assert (Hroot : join_step (slashes k) collection_id = slashes k +:+ collection_id).
    { unfold join_step. rewrite Hrel. destruct Hk as [-> | ->]; reflexivity. }
    rewrite Hroot. unfold join_step at 1.
    change (startswith "/" "collection.anki2") with false. cbv iota.
    destruct collection_id as [|x collection_id].
    + rewrite append_empty_r.
      exists "collection.anki2".
      split; [destruct Hk as [-> | ->]; reflexivity|].
      split; [discriminate|reflexivity].
    + apply startswith_slash_false in Hrel.
      destruct (_ || _); rewrite append_assoc, append_cons; eexists;
        (split; [reflexivity|]); (split; [discriminate|]);
        rewrite startswith_slash_cons; exact Hrel.
  - destruct (concat_clean_relative _ _ Hcs) as (x & rest & Hconcat & Hx).
    rewrite Hconcat.
    destruct (join_step_extends (slashes k +:+ String x rest) _ Hrel) as [y Hy].
    rewrite Hy.
    destruct (join_step_extends ((slashes k +:+ String x rest) +:+ y)
                "collection.anki2" eq_refl) as [z Hz].
    rewrite Hz, !append_assoc, append_cons.
    eexists. split; [reflexivity|]. split; [discriminate|].
    rewrite startswith_slash_cons. exact Hx.
Qed.

Lemma slashes_append_nonempty k q :
  k = 1 \/ k = 2 -> (slashes k +:+ q =? "") = false.
Proof. intros [-> | ->]; reflexivity. Qed.

Lemma mem_false_iff x l : mem x l = false <-> ~ In x l.
Proof.
  rewrite <- mem_true_iff. destruct (mem x l); split; congruence.
Qed.

(** Normalizing the joined path of an identifier that neither climbs nor
    is absolute: the components of the root, then those of the identifier,
    then the file name. *)
Lemma normpath_join_clean k cs collection_id :
  k = 1 \/ k = 2 ->
  Forall clean cs ->
  climbs_or_absolute collection_id = false ->
  normpath (join (slashes k +:+ String.concat "/" cs)
              [collection_id; "collection.anki2"])
  = slashes k +:+ String.concat "/"
      (cs ++ List.filter kept (split slash collection_id) ++ ["collection.anki2"]).
Proof.
  intros Hk Hcs Hid. apply orb_false_iff in Hid as [Hdd Hrel].
  unfold isabs in Hrel.
  destruct (join_root_form k cs collection_id Hk Hcs Hrel) as (q & HP & Hq & Hqrel).
  assert (Hcomps :
    List.filter kept
      (split slash (join (slashes k +:+ String.concat "/" cs)
                      [collection_id; "collection.anki2"]))
    = cs ++ List.filter kept (split slash collection_id) ++ ["collection.anki2"]).
  { change (join ?a [collection_id; "collection.anki2"])
      with (join_step (join_step a collection_id) "collection.anki2").
    rewrite !filter_kept_join_step by (reflexivity || assumption).
    rewrite filter_kept_root by assumption.
    rewrite <- app_assoc. reflexivity. }
  unfold normpath.
  rewrite fold_norm_step_kept, Hcomps, HP.
  rewrite slashes_append_nonempty by assumption. cbv zeta.
  rewrite initial_slashes_relative by assumption.
  rewrite fold_norm_step_append.
  - fold (slashes k). rewrite app_nil_l, slashes_append_nonempty by assumption.
    reflexivity.
  - apply Forall_app. split.
    + eapply List.Forall_impl; [|exact Hcs]. intros c (_ & Hc & Hc'). auto.
    + apply Forall_app. split.
      * apply List.Forall_forall. intros c Hin.
        apply List.filter_In in Hin as [Hin Hc]. split; [exact Hc|].
        intros ->. apply mem_false_iff in Hdd. contradiction.
      * constructor; [|constructor]. split; [reflexivity|discriminate].
Qed.

(** A joined list goes on where its front stops. *)
Lemma concat_app_extends (cs rest : list string) :
  rest <> [] ->
  exists y, String.concat "/" (cs ++ rest) = String.concat "/" cs +:+ y.
Proof.
  intros Hrest. induction cs as [|c cs IH]; [eexists; reflexivity|].
  destruct IH as [y Hy]. destruct cs as [|d cs].
  - destruct rest as [|r rest]; [congruence|].
    exists ("/" +:+ String.concat "/" (r :: rest)). reflexivity.
  - exists y.
    change (String.concat "/" ((c :: d :: cs) ++ rest))
      with (c +:+ "/" +:+ String.concat "/" ((d :: cs) ++ rest)).
    rewrite Hy.
    change (String.concat "/" (c :: d :: cs))
      with (c +:+ "/" +:+ String.concat "/" (d :: cs)).
    rewrite !append_assoc. reflexivity.
Qed.

Lemma components_slashes k s : components (slashes k +:+ s) = components s.
Proof.
  induction k as [|k IH]; [reflexivity|].
  unfold components in *.
  change (slashes (Datatypes.S k) +:+ s) with (String "/" (slashes k +:+ s)).
  rewrite split_slash_cons. rewrite filter_cons_False by auto. exact IH.
Qed.

(** The components of a path built from non-empty segments. *)
Lemma components_concat k (xs : list string) :
  Forall (fun c => segment c /\ c <> "") xs ->
  components (slashes k +:+ String.concat "/" xs) = xs.
Proof.
  intros Hxs. rewrite components_slashes. unfold components.
  destruct xs as [|x xs]; [reflexivity|].
  rewrite split_concat_slash;
    [|discriminate|eapply List.Forall_impl; [|exact Hxs]; intros c [H _]; exact H].
  induction Hxs as [|c cs [_ Hc] _ IH]; [reflexivity|].
  rewrite filter_cons_True by exact Hc. f_equal. exact IH.
Qed.

End PosixpathFacts.

Section LocatorFacts.
Context {Col : Type}.
Implicit Types (self : RestApp Col).
Import PyStr Posixpath.



(** Under a normalized absolute root, an identifier that neither climbs
    nor is absolute is located below the root. *)
Lemma getCollectionPath_clean self k cs collection_id :
  k = 1 \/ k = 2 ->
  Forall clean cs ->
  data_root self = slashes k +:+ String.concat "/" cs ->
  climbs_or_absolute collection_id = false ->
  exists path,
    _getCollectionPath self collection_id = Ok path
    /\ is_descendant (data_root self) path = true.
Proof.
  intros Hk Hcs Hroot Hid.
  set (rest := List.filter kept (split slash collection_id) ++ ["collection.anki2"]).
  assert (Hrest : rest <> []) by (subst rest; destruct (List.filter _ _); discriminate).
  assert (Hpath : normpath (join (data_root self) [collection_id; "collection.anki2"])
                  = slashes k +:+ String.concat "/" (cs ++ rest)).
  { rewrite Hroot. apply normpath_join_clean; assumption. }
  destruct (concat_app_extends cs rest Hrest) as [y Hy].
  exists (slashes k +:+ String.concat "/" (cs ++ rest)). split.
  - unfold _getCollectionPath. rewrite Hpath, Hy, Hroot.
    rewrite <- append_assoc, slice_to_append, String.eqb_refl. reflexivity.
  - assert (Hsegs : Forall (fun c => segment c /\ c <> "") (cs ++ rest)).
    { apply Forall_app. split.
      - eapply List.Forall_impl; [|exact Hcs].
        intros c (Hseg & Hkept & _). split; [exact Hseg|apply kept_nonempty, Hkept].
      - subst rest. apply Forall_app. split.
        + apply List.Forall_forall. intros c Hin.
          apply List.filter_In in Hin as [Hin Hkept].
          split; [|apply kept_nonempty, Hkept].
          pose proof (split_pieces slash collection_id) as Hpieces.
          rewrite List.Forall_forall in Hpieces. apply Hpieces, Hin.
        + constructor; [|constructor]. split; [reflexivity|discriminate]. }
    assert (Hcs' : Forall (fun c => segment c /\ c <> "") cs).
    { apply Forall_app in Hsegs as [H _]. exact H. }
    apply orb_false_iff in Hid as [Hdd Hrel].
    unfold is_descendant. rewrite Hroot.
    rewrite !components_concat by assumption.
    assert (Habs : forall q, isabs (slashes k +:+ q) = true)
      by (intros q; destruct Hk as [-> | ->]; reflexivity).
    rewrite !Habs.
    rewrite bool_decide_eq_true_2 by (exists rest; reflexivity).
    assert (Hlen : Nat.eqb (length cs) (length (cs ++ rest)) = false).
    { apply Nat.eqb_neq. rewrite length_app.
      destruct rest; [congruence|]. simpl. lia. }
    rewrite Hlen.
    assert (Hno : forall x, (x = ".." \/ x = ".") -> mem x (cs ++ rest) = false).
    { intros x Hx. apply mem_false_iff. intros Hin.
      apply in_app_or in Hin as [Hin | Hin].
      - rewrite List.Forall_forall in Hcs.
        destruct (Hcs _ Hin) as (_ & Hkept & Hne).
        destruct Hx as [-> | ->]; [congruence|discriminate].
      - subst rest. apply in_app_or in Hin as [Hin | [<- | []]].
        + apply List.filter_In in Hin as [Hin Hkept].
          destruct Hx as [-> | ->]; [|discriminate].
          apply mem_false_iff in Hdd. contradiction.
        + destruct Hx; discriminate. }
    rewrite !Hno by auto. reflexivity.
Qed.



End LocatorFacts.



(** The prefix test compares strings, not components: below [/srv/c] the
    identifier [..] is located at [/srv/collection.anki2], which begins with
    the root string and lies outside the root. *)
Lemma prefix_test_admits_sibling :
  data_root sibling_app = "/srv/c"
  /\ _getCollectionPath sibling_app ".." = Ok "/srv/collection.anki2"
  /\ Posixpath.is_descendant "/srv/c" "/srv/collection.anki2" = false.
Proof. repeat split; evaluate. Qed.

(** * Part III: further properties *)

(** ** The request gate *)

Section GateFacts.
Context {Col : Type}.
Variable json_loads : string -> PyResult PyVal.
Variable json_dumps : PyVal -> string.
Implicit Types (self : RestApp Col) (req : Request).

Lemma checkRequest_forbidden self req :
  allowed_hosts self <> "*" ->
  request_origin req <> Some (allowed_hosts self) ->
  _checkRequest self req = Raise (HTTPError HTTPForbidden).
Proof.
  intros Hstar Horigin. unfold _checkRequest.
  apply String.eqb_neq in Hstar. rewrite Hstar. cbn [negb].
  fold (request_origin req).
  rewrite bool_decide_eq_false_2 by exact Horigin. reflexivity.
Qed.

(** X1. Origin gate: when an allow-list is configured, a request whose
    origin is not the configured address is answered 403 whatever its
    method, path and body, and nothing is printed or logged. The origin is
    the [X-Forwarded-For] header when the request has one, and the peer
    address only when it has none. *)
Theorem origin_gate_forbids self req :
  allowed_hosts self <> "*" ->
  request_origin req <> Some (allowed_hosts self) ->
  RestApp_wsgi json_loads json_dumps self req
  = (Responded (ErrorResponse HTTPForbidden), []).
Proof.
  intros Hstar Horigin. unfold RestApp_wsgi, RestApp_call.
  rewrite (checkRequest_forbidden _ _ Hstar Horigin). reflexivity.
Qed.

(** X2. The gate passes exactly the [POST] requests of an allowed
    origin: [_checkRequest] returns normally if and only if the method is
    [POST] and either no allow-list is configured or the origin is the
    configured address. *)
Theorem checkRequest_passes_iff self req :
  _checkRequest self req = Ok tt
  <-> origin_allowed self req /\ req_method req = "POST".
Proof.
  split.
  - intros Hok.
    assert (Horigin : origin_allowed self req).
    { destruct (String.eqb_spec (allowed_hosts self) "*") as [Hstar|Hstar];
        [left; exact Hstar|].
      destruct (decide (request_origin req = Some (allowed_hosts self)))
        as [Heq|Hne]; [right; exact Heq|].
      rewrite (checkRequest_forbidden _ _ Hstar Hne) in Hok. discriminate. }
    split; [exact Horigin|].
    destruct (String.eqb_spec (req_method req) "POST") as [Hm|Hm]; [exact Hm|].
    rewrite (checkRequest_not_post _ _ Horigin Hm) in Hok. discriminate.
  - intros [Horigin Hmethod]. apply checkRequest_post; assumption.
Qed.

End GateFacts.

(** A [GET] forwarded for another address, through a proxy whose own
    address is the allowed one: 403, not 405. *)
Lemma origin_gate_forbids_witness :
  RestApp_wsgi Demo.demo_loads Demo.demo_dumps Demo2.guarded_app
    (Demo2.forwarded "192.168.1.7" "GET" "/collection/deck1/find_notes" "{}")
  = (Responded (ErrorResponse HTTPForbidden), []).
Proof.
  apply (origin_gate_forbids Demo.demo_loads Demo.demo_dumps Demo2.guarded_app).
  - vm_compute. discriminate.
  - vm_compute. discriminate.
Defined.

(** ** More on the path resolver *)

(** Without an operation segment the loop consumes every pair and leaves
    nothing. *)
Lemma walk_pairs_exact pairs : forall slots ht ids,
  pairs <> [] ->
  drawn_in_order slots pairs = true ->
  walk slots {| w_handler_type := ht; w_ids := ids;
                w_parts := flat_map (fun p => [fst p; snd p]) pairs |}
  = {| w_handler_type := deepest_type pairs;
       w_ids := ids ++ map snd pairs;
       w_parts := [] |}.
Proof.
  induction pairs as [|[t i] ps IH]; intros slots ht ids Hne Hdrawn;
    [congruence|].
  destruct slots as [|s ss]; [discriminate|].
  simpl in Hdrawn. apply andb_true_iff in Hdrawn as [Hmem Hrest].
  simpl. rewrite Hmem. simpl.
  destruct ps as [|[t' i'] ps'].
  - reflexivity.
  - set (parts := flat_map (fun p => [fst p; snd p]) ((t', i') :: ps')).
    assert (Hlen : (length parts <? 2)%nat = false) by reflexivity.
    rewrite Hlen. subst parts.
    rewrite (IH ss (Some t) (ids ++ [i])) by (congruence || assumption).
    f_equal. rewrite <- app_assoc. reflexivity.
Qed.

(** X3. Default operation: a path that ends at an identifier, built from
    one to three type/identifier pairs drawn in order from the slots,
    resolves to the operation [index] on the type of the last pair, with
    the identifiers in order. *)
Theorem parsePath_default_operation (pairs : list (string * string)) :
  pairs <> [] ->
  drawn_in_order handler_types pairs = true ->
  Forall (fun p => segment (snd p)) pairs ->
  _parsePath ("/" +:+ String.concat "/" (flat_map (fun p => [fst p; snd p]) pairs))
  = Ok (deepest_type pairs, "index", map snd pairs).
Proof.
  intros Hne Hdrawn Hids.
  pose proof (drawn_types_are_segments _ _ handler_types_are_segments Hdrawn) as Hts.
  assert (Hsegs : Forall segment (flat_map (fun p => [fst p; snd p]) pairs)).
  { clear Hne Hdrawn. induction pairs as [|p ps IH]; simpl; [constructor|].
    inversion Hids; inversion Hts; subst. auto. }
  destruct pairs as [|[t i] ps]; [congruence|].
  assert (Ht : t = "collection").
  { cbn [drawn_in_order handler_types] in Hdrawn.
    apply andb_true_iff in Hdrawn as [Hmem _].
    apply mem_true_iff in Hmem. destruct Hmem as [<-|[]]. reflexivity. }
  subst t.
  change ("/" +:+ ?s) with (String "/" s).
  rewrite parsePath_joined;
    [|discriminate|exact Hsegs|apply concat_collection_nonempty].
  cbv zeta. rewrite walk_pairs_exact by (congruence || assumption).
  reflexivity.
Qed.

Lemma parsePath_default_operation_witness :
  _parsePath "/collection/c/note/42" = Ok (Some "note", "index", ["c"; "42"]).
Proof.
  apply (parsePath_default_operation [("collection", "c"); ("note", "42")]);
    [discriminate|reflexivity|repeat constructor].
Defined.

(** What the loop leaves of any list of segments, case by case. *)
Lemma walk_descriptor (parts : list string) :
  let w := walk handler_types
             {| w_handler_type := None; w_ids := []; w_parts := parts |} in
  (1 <? length (w_parts w))%nat || Nat.eqb (length (w_ids w)) 0 = false ->
  (w_handler_type w = Some "collection" /\ length (w_ids w) = 1)
  \/ (exists t, w_handler_type w = Some t
                /\ PyStr.mem t ["model"; "note"; "deck"] = true
                /\ length (w_ids w) = 2)
  \/ (w_handler_type w = Some "card" /\ length (w_ids w) = 3).
Proof.
  cbv zeta.
  destruct parts as [|p0 [|i1 [|p1 [|i2 [|p2 [|i3 [|x [|y r]]]]]]]];
    cbn [walk handler_types as_list w_parts w_ids w_handler_type length app
         Nat.ltb Nat.leb negb];
    repeat match goal with
      | |- context [PyStr.mem ?a ?l] =>
          let H := fresh "Hmem" in
          destruct (PyStr.mem a l) eqn:H;
          cbn [walk handler_types as_list w_parts w_ids w_handler_type length app
               Nat.ltb Nat.leb negb orb Nat.eqb]
      end;
    try discriminate; intros _;
    repeat match goal with
      | H : PyStr.mem _ [_] = true |- _ =>
          apply mem_true_iff in H; destruct H as [<-|[]]
      end;
    eauto 6.
Qed.

(** X4. Shape of a resolved path: the resource type fixes the number of
    identifiers. A path resolves to [collection] with one identifier, to
    one of [model], [note], [deck] with two, or to [card] with three; in
    particular the type is never missing and a handler of the second slot
    always finds [ids[1]]. *)
Theorem parsePath_descriptor path type name ids :
  _parsePath path = Ok (type, name, ids) ->
  (type = Some "collection" /\ length ids = 1)
  \/ (exists t, type = Some t
                /\ PyStr.mem t ["model"; "note"; "deck"] = true
                /\ length ids = 2)
  \/ (type = Some "card" /\ length ids = 3).
Proof.
  unfold _parsePath. destruct (PyStr.mem path [""; "/"]); [discriminate|].
  cbv zeta.
  match goal with |- context [PyStr.split PyStr.slash ?s] =>
    generalize (PyStr.split PyStr.slash s) end.
  intros parts. pose proof (walk_descriptor parts) as Hshape. cbv zeta in Hshape.
  destruct ((1 <? length (w_parts _))%nat || Nat.eqb (length (w_ids _)) 0) eqn:Hc;
    [discriminate|].
  intros [= <- _ <-]. apply Hshape. reflexivity.
Qed.

Lemma parsePath_descriptor_witness :
  (Some "deck" = Some "collection" /\ length ["X"; "Y"] = 1)
  \/ (exists t, Some "deck" = Some t
                /\ PyStr.mem t ["model"; "note"; "deck"] = true
                /\ length ["X"; "Y"] = 2)
  \/ (Some "deck" = Some "card" /\ length ["X"; "Y"] = 3).
Proof.
  apply (parsePath_descriptor "/collection/X/deck/Y/card" (Some "deck") "card" ["X"; "Y"]).
  reflexivity.
Defined.

(** [_parsePath] raises nothing but [HTTPNotFound]. *)
Lemma parsePath_raises path e :
  _parsePath path = Raise e -> e = HTTPError HTTPNotFound.
Proof.
  unfold _parsePath. destruct (PyStr.mem path [""; "/"]); [congruence|].
  cbv zeta. destruct (_ || _); congruence.
Qed.

(** [_getCollectionPath] raises nothing but [HTTPBadRequest] with the
    identifier in its message. *)
Lemma getCollectionPath_raises {Col} (self : RestApp Col) collection_id e :
  _getCollectionPath self collection_id = Raise e ->
  e = HTTPError (HTTPBadRequest
        (dquote +:+ collection_id +:+ dquote +:+ " is not a valid collection")).
Proof.
  unfold _getCollectionPath. destruct (negb _); congruence.
Qed.

Section ValidationFacts.
Context {Col : Type}.
Variable json_loads : string -> PyResult PyVal.
Variable json_dumps : PyVal -> string.
Implicit Types (self : RestApp Col) (req : Request).

(** X5. Validation failures end the request before anything is printed,
    looked up, decoded or run: once the gate is passed, a path that does not
    resolve is answered 404, and a path whose collection identifier the
    locator rejects is answered 400 with a message that quotes the
    identifier; in both cases the event list is empty. *)
Theorem validation_short_circuits self req :
  _checkRequest self req = Ok tt ->
  (forall e, _parsePath (req_path req) = Raise e ->
     RestApp_wsgi json_loads json_dumps self req
     = (Responded (ErrorResponse HTTPNotFound), []))
  /\ (forall type name ids e,
        _parsePath (req_path req) = Ok (type, name, ids) ->
        _getCollectionPath self (hd "" ids) = Raise e ->
        RestApp_wsgi json_loads json_dumps self req
        = (Responded (ErrorResponse (HTTPBadRequest
             (dquote +:+ hd "" ids +:+ dquote +:+ " is not a valid collection"))),
           [])).
Proof.
  intros Hgate. split.
  - intros e Hpath. rewrite (parsePath_raises _ _ Hpath) in Hpath.
    unfold RestApp_wsgi, RestApp_call. rewrite Hgate, bind_lift_Ok, Hpath.
    reflexivity.
  - intros type name ids e Hpath Hcoll.
    rewrite (getCollectionPath_raises _ _ _ Hcoll) in Hcoll.
    destruct (parsePath_ids _ _ _ _ Hpath) as (id0 & rest & ->).
    unfold RestApp_wsgi, RestApp_call.
    rewrite Hgate, bind_lift_Ok, Hpath, bind_lift_Ok.
    change (index (id0 :: rest) 0) with (@Ok string id0).
    rewrite bind_lift_Ok. change (hd "" (id0 :: rest)) with id0 in *.
    rewrite Hcoll. reflexivity.
Qed.

End ValidationFacts.

(** A path with no identifier, and a path whose collection is [..]. *)
Lemma validation_short_circuits_witness :
  RestApp_wsgi demo_loads demo_dumps demo_app (request "POST" "/collection" "{}")
  = (Responded (ErrorResponse HTTPNotFound), [])
  /\ RestApp_wsgi demo_loads demo_dumps demo_app
       (request "POST" "/collection/../find_notes" "{}")
     = (Responded (ErrorResponse (HTTPBadRequest
          (dquote +:+ ".." +:+ dquote +:+ " is not a valid collection"))), []).
Proof.
  split.
  - refine (proj1 (validation_short_circuits demo_loads demo_dumps demo_app
                     (request "POST" "/collection" "{}") eq_refl)
              (HTTPError HTTPNotFound) _).
    evaluate.
  - refine (proj2 (validation_short_circuits demo_loads demo_dumps demo_app
                     (request "POST" "/collection/../find_notes" "{}") eq_refl)
              (Some "collection") "find_notes" [".."] _ _ _).
    + evaluate.
    + evaluate.
Defined.

(** ** More on the registry *)

Section RegistryMore.
Context {Col : Type}.
Implicit Types (self : RestApp Col) (handler : Handler Col).

(** Registering a fresh name: the lookup returns the handler, and every
    other pair of the registry is as before. *)
Lemma add_handler_added self type name handler of_type :
  handlers self !! type = Some of_type ->
  of_type !! name = None ->
  fst (add_handler self type name handler) = Ok tt
  /\ _getHandler (snd (add_handler self type name handler)) (Some type) name
     = Ok (handler, returns_value handler)
  /\ (forall type' name',
        (type', name') <> (type, name) ->
        handlers_getitem (snd (add_handler self type name handler)) (Some type') name'
        = handlers_getitem self (Some type') name').
Proof.
  intros Htype Hname. unfold add_handler. rewrite Htype, Hname.
  cbn [fst snd]. split; [reflexivity|]. split.
  - unfold _getHandler, handlers_getitem. cbn [set_handlers handlers].
    rewrite lookup_insert_eq, lookup_insert_eq. reflexivity.
  - intros type' name' Hne. unfold handlers_getitem. cbn [set_handlers handlers].
    destruct (decide (type = type')) as [<-|Htype'].
    + rewrite lookup_insert_eq, Htype. apply lookup_insert_ne. congruence.
    + rewrite lookup_insert_ne by exact Htype'. reflexivity.
Qed.

(** X6. Registration round trip: registering a fresh operation name
    under a known resource type succeeds, the lookup then returns that
    handler with its flag ([True] unless the handler says otherwise), every
    other pair of the registry is as before, and so are the other attributes
    of the instance. *)
Theorem add_handler_registers self type name handler of_type :
  handlers self !! type = Some of_type ->
  of_type !! name = None ->
  fst (add_handler self type name handler) = Ok tt
  /\ _getHandler (snd (add_handler self type name handler)) (Some type) name
     = Ok (handler, returns_value handler)
  /\ (forall type' name',
        (type', name') <> (type, name) ->
        handlers_getitem (snd (add_handler self type name handler)) (Some type') name'
        = handlers_getitem self (Some type') name')
  /\ data_root (snd (add_handler self type name handler)) = data_root self
  /\ allowed_hosts (snd (add_handler self type name handler)) = allowed_hosts self
  /\ collection_manager (snd (add_handler self type name handler))
     = collection_manager self.
Proof.
  intros Htype Hname.
  destruct (add_handler_added self type name handler of_type Htype Hname)
    as (Hok & Hget & Hframe).
  split; [exact Hok|]. split; [exact Hget|]. split; [exact Hframe|].
  unfold add_handler. rewrite Htype, Hname. auto.
Qed.

(** Registration failure on an unknown resource type: [add_handler]
    raises [KeyError] for a type that is not one of the handler types of the
    instance, and the instance is unchanged. *)
Theorem add_handler_unknown_type self type name handler :
  handlers self !! type = None ->
  add_handler self type name handler = (Raise (Error "KeyError" type), self).
Proof. intros Htype. unfold add_handler. rewrite Htype. reflexivity. Qed.

(** The public names among the members of a group. *)
Definition public_names (ms : list (string * Handler Col)) : list string :=
  map fst (List.filter (fun nm => negb (PyStr.startswith "_" (fst nm))) ms).

Lemma add_members_registers type group ms : forall self of_type,
  handlers self !! type = Some of_type ->
  Forall (fun name => of_type !! name = None) (public_names ms) ->
  List.NoDup (public_names ms) ->
  exists self',
    add_members self type group ms = (Ok tt, self')
    /\ (forall name m,
          In (name, m) ms -> PyStr.startswith "_" name = false ->
          exists h, handlers_getitem self' (Some type) name = Some h
                    /\ func h = func m
                    /\ returns_value h = member_flag group m)
    /\ (forall type' name',
          type' <> type \/ ~ In name' (public_names ms) ->
          handlers_getitem self' (Some type') name'
          = handlers_getitem self (Some type') name').
Proof.
  induction ms as [|[name m] ms IH]; intros self of_type Htype Hfresh Hnodup.
  - exists self. split; [reflexivity|]. split; [intros ? ? []|reflexivity].
  - cbn [add_members]. unfold public_names in *. cbn [List.filter fst] in *.
    destruct (PyStr.startswith "_" name) eqn:Hprivate; cbn [negb] in *.
    + destruct (IH self of_type Htype Hfresh Hnodup) as (self' & Hrun & Hreg & Hframe).
      exists self'. split; [exact Hrun|]. split; [|exact Hframe].
      intros name' m' [[= <- <-]|Hin] Hpublic; [congruence|]. eauto.
    + cbn [map fst] in *.
      inversion Hfresh as [|? ? Hname Hfresh']; subst.
      inversion Hnodup as [|? ? Hnotin Hnodup']; subst.
      set (method' := match group_hasReturnValue group, hasReturnValue m with
                      | Some flag, None =>
                          _RestHandlerWrapper (class_name group +:+ "." +:+ name) m flag
                      | _, _ => m
                      end).
      destruct (add_handler_added self type name method' of_type Htype Hname)
        as (Hok & Hget & Hothers).
      destruct (add_handler self type name method') as [r self1] eqn:Hadd.
      cbn [fst snd] in *. subst r.
      assert (Htype1 : handlers self1 !! type = Some (<[name := method']> of_type)).
      { unfold add_handler in Hadd. rewrite Htype, Hname in Hadd.
        injection Hadd as <-. cbn [set_handlers handlers]. apply lookup_insert_eq. }
      assert (Hfresh1 : Forall (fun n => <[name := method']> of_type !! n = None)
                          (map fst (List.filter
                             (fun nm => negb (PyStr.startswith "_" (fst nm))) ms))).
      { rewrite List.Forall_forall in *. intros n Hn.
        rewrite lookup_insert_ne by (intros ->; contradiction). auto. }
      destruct (IH self1 _ Htype1 Hfresh1 Hnodup') as (self' & Hrun & Hreg & Hframe).
      exists self'. split; [exact Hrun|]. split.
      * intros name' m' [[= <- <-]|Hin] Hpublic; [|eauto].
        exists method'. split; [|split].
        -- rewrite Hframe by (right; exact Hnotin).
           unfold _getHandler in Hget.
           destruct (handlers_getitem self1 (Some type) name); congruence.
        -- subst method'.
           destruct (group_hasReturnValue group), (hasReturnValue m); reflexivity.
        -- subst method'. unfold returns_value, member_flag.
           destruct (group_hasReturnValue group), (hasReturnValue m) eqn:Hm;
             cbn; try rewrite Hm; reflexivity.
      * intros type' name' Hout. rewrite Hframe.
        -- apply Hothers. intros [= -> ->]. destruct Hout as [Hout|Hout];
             [congruence|]. apply Hout. left. reflexivity.
        -- destruct Hout as [Hout|Hout]; [left; exact Hout|].
           right. intros Hin. apply Hout. right. exact Hin.
Qed.

(** X7. Registering a group: when the public method names of a group
    are distinct and free under a known resource type,
    [add_handler_group] succeeds; every public method is then registered
    under its name, runs the method, and carries the method's own
    [hasReturnValue] when it has one and the group's otherwise; names that
    begin with an underscore and every other resource type are untouched. *)
Theorem add_handler_group_registers self type group of_type :
  handlers self !! type = Some of_type ->
  Forall (fun name => of_type !! name = None) (public_names (members group)) ->
  List.NoDup (public_names (members group)) ->
  exists self',
    add_handler_group self type group = (Ok tt, self')
    /\ (forall name m,
          In (name, m) (members group) -> PyStr.startswith "_" name = false ->
          exists h, _getHandler self' (Some type) name = Ok (h, member_flag group m)
                    /\ func h = func m)
    /\ (forall type' name',
          type' <> type \/ ~ In name' (public_names (members group)) ->
          handlers_getitem self' (Some type') name'
          = handlers_getitem self (Some type') name').
Proof.
  intros Htype Hfresh Hnodup.
  destruct (add_members_registers type group (members group) self of_type
              Htype Hfresh Hnodup) as (self' & Hrun & Hreg & Hframe).
  exists self'. split; [exact Hrun|]. split; [|exact Hframe].
  intros name m Hin Hpublic.
  destruct (Hreg name m Hin Hpublic) as (h & Hget & Hfunc & Hflag).
  exists h. split; [|exact Hfunc].
  unfold _getHandler. rewrite Hget. unfold returns_value in Hflag.
  rewrite Hflag. reflexivity.
Qed.

End RegistryMore.

Lemma add_handler_registers_witness :
  fst (add_handler bare_app "collection" "ping" ping) = Ok tt
  /\ _getHandler (snd (add_handler bare_app "collection" "ping" ping))
       (Some "collection") "ping" = Ok (ping, true).
Proof.
  destruct (add_handler_registers bare_app "collection" "ping" ping ∅)
    as (Hok & Hget & _); [evaluate|reflexivity|].
  split; [exact Hok|exact Hget].
Defined.

Lemma add_handler_unknown_type_witness :
  add_handler bare_app "notes" "ping" ping = (Raise (Error "KeyError" "notes"), bare_app).
Proof. apply (add_handler_unknown_type bare_app "notes" "ping" ping). evaluate. Defined.

Lemma add_handler_group_registers_witness :
  exists self',
    add_handler_group bare_app "collection" (CollectionHandler demo_anki) = (Ok tt, self')
    /\ (forall name m,
          In (name, m) (members (CollectionHandler demo_anki)) ->
          PyStr.startswith "_" name = false ->
          exists h, _getHandler self' (Some "collection") name
                    = Ok (h, member_flag (CollectionHandler demo_anki) m)
                    /\ func h = func m)
    /\ (forall type' name',
          type' <> "collection"
          \/ ~ In name' (public_names (members (CollectionHandler demo_anki))) ->
          handlers_getitem self' (Some type') name'
          = handlers_getitem bare_app (Some type') name').
Proof.
  apply (add_handler_group_registers bare_app "collection"
           (CollectionHandler demo_anki) ∅).
  - evaluate.
  - repeat constructor.
  - repeat (constructor; [cbn; intuition discriminate|]). constructor.
Defined.

(** ** What [__init__] builds *)

Section InitFacts.
Context {Col NoteT CardT : Type}.
Variable anki : Anki Col NoteT CardT.
Variable json_loads : string -> PyResult PyVal.
Variable json_dumps : PyVal -> string.

(** The new instance with the default handlers. *)
Lemma default_instance_facts cwd root hosts :
  let app0 : RestApp Col :=
    snd (add_groups (new_instance cwd root hosts) (default_groups anki)) in
  data_root app0 = Posixpath.abspath cwd root
  /\ allowed_hosts app0 = hosts
  /\ operation_flags app0 = default_operation_flags
  /\ collection_manager app0 = None.
Proof.
  cbv zeta. unfold new_instance. generalize (Posixpath.abspath cwd root). intros r.
  repeat split; evaluate.
Qed.

(** X8. The default application: with the default handlers, [__init__]
    raises what the import of [getCollectionManager] raises, or what
    [getCollectionManager()] raises when no manager is given, and otherwise
    returns; the instance it then builds has the absolute data root, the
    allow-list it was given, and exactly the operations of the five default
    groups, three of which ([add_note], [sched_reset], [select_deck]) have no
    return value; no operation is registered for [card]. *)
Theorem init_default_application threading cwd root hosts manager :
  exists app0 : RestApp Col,
    RestApp_init anki threading cwd root hosts true manager
    = match import_getCollectionManager threading, manager,
            getCollectionManager threading with
      | Raise e, _, _ => Raise e
      | Ok _, None, Raise e => Raise e
      | Ok _, _, _ => Ok app0
      end
    /\ data_root app0 = Posixpath.abspath cwd root
    /\ allowed_hosts app0 = hosts
    /\ operation_flags app0 = default_operation_flags.
Proof.
  destruct (default_instance_facts cwd root hosts) as (Hroot & Hhosts & Hflags & _).
  exists (snd (add_groups (new_instance cwd root hosts) (default_groups anki))).
  split; [|auto].
  destruct (import_getCollectionManager threading) as [[]|e] eqn:Himport.
  - destruct manager as [m|].
    + rewrite (init_succeeds anki threading cwd root hosts (Some m) Himport)
        by discriminate.
      destruct (getCollectionManager threading); reflexivity.
    + destruct (getCollectionManager threading) as [m|e] eqn:Hfetch.
      * apply init_succeeds; eauto.
      * apply init_raises. right. auto.
  - apply init_raises. left. exact Himport.
Qed.

(** [__init__] binds no collection manager. *)
Lemma init_binds_no_manager threading cwd root hosts defaults manager
  (app0 : RestApp Col) :
  RestApp_init anki threading cwd root hosts defaults manager = Ok app0 ->
  collection_manager app0 = None.
Proof.
  intros Hinit. apply init_returns in Hinit as (_ & _ & ->).
  destruct defaults; [|reflexivity].
  apply default_instance_facts.
Qed.

(** X9. An instance as [__init__] leaves it cannot run any operation:
    whatever manager the constructor was given, the instance has no
    [collection_manager] attribute, so every request that passes the gate,
    resolves, is located, names a registered operation and carries a
    decodable body ends in an [AttributeError] that reaches the HTTP layer,
    after the collection path and the body were printed. *)
Theorem fresh_instance_cannot_execute threading cwd root hosts defaults manager
  (app0 : RestApp Col) req type name ids collection_path handler flag data :
  RestApp_init anki threading cwd root hosts defaults manager = Ok app0 ->
  Located app0 req type name ids collection_path ->
  _getHandler app0 type name = Ok (handler, flag) ->
  _parseRequestBody json_loads req = (Ok data, []) ->
  RestApp_wsgi json_loads json_dumps app0 req
  = (Propagated (Error "AttributeError"
                   "'RestApp' object has no attribute 'collection_manager'"),
     [Stdout collection_path; StdoutData data]).
Proof.
  intros Hinit Hloc Hhandler Hbody. unfold RestApp_wsgi.
  rewrite (call_located _ _ _ _ _ _ _ _ Hloc), Hhandler, Hbody.
  rewrite (init_binds_no_manager _ _ _ _ _ _ _ Hinit). reflexivity.
Qed.

End InitFacts.

Lemma fresh_instance_cannot_execute_witness :
  RestApp_wsgi demo_loads demo_dumps demo_app0 find_notes_request
  = (Propagated (Error "AttributeError"
                   "'RestApp' object has no attribute 'collection_manager'"),
     [Stdout "/srv/data/deck1/collection.anki2";
      StdoutData (<["query" := VStr "tag:foo"]> ∅)]).
Proof.
  refine (fresh_instance_cannot_execute demo_anki demo_loads demo_dumps
            demo_threading "/" "/srv/data" "*" true (Some demo_manager) demo_app0
            find_notes_request (Some "collection") "find_notes" ["deck1"]
            "/srv/data/deck1/collection.anki2"
            (_RestHandlerWrapper "CollectionHandler.find_notes"
               (method "find_notes" (CollectionHandler_find_notes demo_anki)) true)
            true (<["query" := VStr "tag:foo"]> ∅) _ _ _ _).
  - evaluate.
  - constructor; evaluate.
  - evaluate.
  - evaluate.
Defined.

(** ** The body parser *)

(** The key is plain ASCII: [str(k)] succeeds. *)
Definition ascii_only (k : string) : bool :=
  forallb (fun c => (nat_of_ascii c <? 128)%nat) (list_ascii_of_string k).

Lemma assoc_app k (l1 l2 : list (string * PyVal)) :
  assoc k (l1 ++ l2)
  = match assoc k l1 with Some v => Some v | None => assoc k l2 end.
Proof.
  induction l1 as [|[k' v] l1 IH]; [reflexivity|].
  simpl. destruct (k' =? k); [reflexivity|exact IH].
Qed.

Lemma dict_of_items_lookup items : forall d : Data,
  Forall (fun kv => ascii_only (fst kv) = true) items ->
  exists d', foldR (fun d kv => let? k := str (fst kv) in Ok (<[k := snd kv]> d))
               items d = Ok d'
             /\ forall k, d' !! k
                          = match assoc k (rev items) with
                            | Some v => Some v
                            | None => d !! k
                            end.
Proof.
  induction items as [|[k1 v1] items IH]; intros d Hascii.
  - exists d. split; reflexivity.
  - inversion Hascii as [|? ? Hk1 Hrest]; subst. cbn [fst] in Hk1.
    cbn [foldR fst snd]. unfold str at 1. fold (ascii_only k1). rewrite Hk1.
    cbn [bindR].
    destruct (IH (<[k1 := v1]> d) Hrest) as (d' & Hrun & Hlookup).
    exists d'. split; [exact Hrun|]. intros k. rewrite Hlookup.
    cbn [rev]. rewrite assoc_app. destruct (assoc k (rev items)); [reflexivity|].
    cbn [assoc]. destruct (String.eqb_spec k1 k) as [->|Hne].
    + apply lookup_insert_eq.
    + apply lookup_insert_ne. exact Hne.
Qed.

Lemma dict_of_items_unicode items : forall d : Data,
  Exists (fun kv => ascii_only (fst kv) = false) items ->
  foldR (fun d kv => let? k := str (fst kv) in Ok (<[k := snd kv]> d)) items d
  = Raise (Error "UnicodeEncodeError" "'ascii' codec can't encode character").
Proof.
  induction items as [|[k1 v1] items IH]; intros d Hex; [inversion Hex|].
  cbn [foldR fst snd]. unfold str at 1. fold (ascii_only k1).
  destruct (ascii_only k1) eqn:Hk1; cbn [bindR]; [|reflexivity].
  apply IH. inversion Hex as [? ? Hhead|? ? Htail]; subst; [|exact Htail].
  cbn [fst] in Hhead. congruence.
Qed.

Section BodyFacts.
Context {Col : Type}.
Variable json_loads : string -> PyResult PyVal.
Variable json_dumps : PyVal -> string.

(** X10. A decoded object reaches the handler as it was sent: when the
    body decodes to an object whose keys are plain ASCII, the parser returns
    a dict, logs nothing, and the dict maps every key to the value of the
    last item of the object with that key, and holds no other key. *)
Theorem parseRequestBody_object req items :
  json_loads (req_body req) = Ok (VDict items) ->
  Forall (fun kv => ascii_only (fst kv) = true) items ->
  exists data,
    _parseRequestBody json_loads req = (Ok data, [])
    /\ forall k, data !! k = assoc k (rev items).
Proof.
  intros Hloads Hascii. unfold _parseRequestBody, dict_of_items. rewrite Hloads.
  destruct (dict_of_items_lookup items ∅ Hascii) as (data & Hrun & Hlookup).
  exists data. rewrite Hrun. split; [reflexivity|].
  intros k. rewrite Hlookup. destruct (assoc k (rev items)); [reflexivity|].
  apply lookup_empty.
Qed.

(** X11. An object with a key outside ASCII escapes the 400 contract:
    [str(k)] raises [UnicodeEncodeError], which [_parseRequestBody] does not
    catch; for a request that reaches the body parser the error goes through
    the dispatcher to the HTTP layer. *)
Theorem unicode_key_escapes req items :
  json_loads (req_body req) = Ok (VDict items) ->
  Exists (fun kv => ascii_only (fst kv) = false) items ->
  _parseRequestBody json_loads req
  = (Raise (Error "UnicodeEncodeError" "'ascii' codec can't encode character"), [])
  /\ forall (self : RestApp Col) type name ids collection_path handler flag,
       Located self req type name ids collection_path ->
       _getHandler self type name = Ok (handler, flag) ->
       RestApp_wsgi json_loads json_dumps self req
       = (Propagated (Error "UnicodeEncodeError" "'ascii' codec can't encode character"),
          [Stdout collection_path]).
Proof.
  intros Hloads Hkey.
  assert (Hbody : _parseRequestBody json_loads req
                  = (Raise (Error "UnicodeEncodeError"
                              "'ascii' codec can't encode character"), [])).
  { unfold _parseRequestBody, dict_of_items. rewrite Hloads.
    rewrite (dict_of_items_unicode items ∅ Hkey). reflexivity. }
  split; [exact Hbody|].
  intros self type name ids collection_path handler flag Hloc Hhandler.
  unfold RestApp_wsgi. rewrite (call_located _ _ _ _ _ _ _ _ Hloc).
  rewrite Hhandler, Hbody. reflexivity.
Qed.

End BodyFacts.

Lemma parseRequestBody_object_witness :
  exists data,
    _parseRequestBody demo_loads find_notes_request = (Ok data, [])
    /\ forall k, data !! k = assoc k (rev [("query", VStr "tag:foo")]).
Proof.
  apply (parseRequestBody_object demo_loads find_notes_request
           [("query", VStr "tag:foo")]).
  - reflexivity.
  - repeat constructor.
Defined.

Lemma unicode_key_escapes_witness :
  RestApp_wsgi Demo2.demo2_loads demo_dumps demo_app
    (request "POST" "/collection/deck1/find_notes" Demo2.accent_body)
  = (Propagated (Error "UnicodeEncodeError" "'ascii' codec can't encode character"),
     [Stdout "/srv/data/deck1/collection.anki2"]).
Proof.
  refine (proj2 (unicode_key_escapes Demo2.demo2_loads demo_dumps
                   (request "POST" "/collection/deck1/find_notes" Demo2.accent_body)
                   [(Demo2.e_acute, VInt 1)] _ _)
            demo_app (Some "collection") "find_notes" ["deck1"]
            "/srv/data/deck1/collection.anki2"
            (_RestHandlerWrapper "CollectionHandler.find_notes"
               (method "find_notes" (CollectionHandler_find_notes demo_anki)) true)
            true _ _).
  - evaluate.
  - constructor. reflexivity.
  - apply demo_located_find_notes.
  - evaluate.
Defined.

(** ** More on the resource locator *)

Section LocatorMore.
Import PyStr Posixpath.

(** A normalized absolute path is a fixed point of [normpath]. *)
Lemma normpath_normalized k cs :
  k = 1 \/ k = 2 ->
  Forall clean cs ->
  normpath (slashes k +:+ String.concat "/" cs) = slashes k +:+ String.concat "/" cs.
Proof.
  intros Hk Hcs. destruct cs as [|c cs].
  - destruct Hk as [-> | ->]; reflexivity.
  - destruct (concat_clean_relative c cs Hcs) as (x & rest & Hconcat & Hx).
    assert (Hq : String.concat "/" (c :: cs) <> "") by (rewrite Hconcat; discriminate).
    assert (Hrel : startswith "/" (String.concat "/" (c :: cs)) = false)
      by (rewrite Hconcat, startswith_slash_cons; exact Hx).
    unfold normpath.
    rewrite slashes_append_nonempty by assumption. cbv zeta.
    rewrite initial_slashes_relative by assumption.
    rewrite fold_norm_step_kept, filter_kept_root by assumption.
    rewrite fold_norm_step_append.
    + fold (slashes k). rewrite app_nil_l, slashes_append_nonempty by assumption.
      reflexivity.
    + eapply List.Forall_impl; [|exact Hcs]. intros d (_ & Hd & Hd'). auto.
Qed.

(** One [..] after clean components takes the last of them away. *)
Lemma fold_norm_step_pop k xs x rest :
  k <> 0 ->
  Forall clean (xs ++ [x]) ->
  Forall (fun c => kept c = true /\ c <> "..") rest ->
  fold_left (norm_step k) ((xs ++ [x]) ++ ".." :: rest) [] = xs ++ rest.
Proof.
  intros Hk Hclean Hrest.
  rewrite fold_left_app, (fold_norm_step_append k (xs ++ [x]) []), app_nil_l.
  - cbn [fold_left]. unfold norm_step at 2.
    change (mem ".." [""; "."]) with false. cbv iota.
    rewrite (clean_not_dotdot _ Hclean).
    destruct k as [|k]; [congruence|]. cbn [String.eqb negb orb Nat.eqb andb].
    change (".." =? "..") with true. cbn [negb orb].
    destruct (xs ++ [x]) as [|y ys] eqn:Hxs; [destruct xs; discriminate|].
    rewrite <- Hxs, removelast_last.
    apply fold_norm_step_append. exact Hrest.
  - eapply List.Forall_impl; [|exact Hclean]. intros d (_ & Hd & Hd'). auto.
Qed.

Lemma concat_snoc_append (cs : list string) (c t : string) :
  String.concat "/" (cs ++ [c +:+ t]) = String.concat "/" (cs ++ [c]) +:+ t.
Proof.
  induction cs as [|d cs IH]; [reflexivity|].
  destruct cs as [|e cs].
  - cbn [app String.concat]. rewrite !append_assoc. reflexivity.
  - change (String.concat "/" ((d :: e :: cs) ++ [c +:+ t]))
      with (d +:+ "/" +:+ String.concat "/" ((e :: cs) ++ [c +:+ t])).
    rewrite IH.
    change (String.concat "/" ((d :: e :: cs) ++ [c]))
      with (d +:+ "/" +:+ String.concat "/" ((e :: cs) ++ [c])).
    rewrite !append_assoc. reflexivity.
Qed.

Lemma startswith_append (c s : string) :
  startswith c s = true -> exists t, s = c +:+ t.
Proof.
  revert s. induction c as [|x c IH]; intros s; [exists s; reflexivity|].
  destruct s as [|y s]; [discriminate|]. rewrite startswith_cons.
  intros H. apply andb_true_iff in H as [Hxy Hrest].
  apply Ascii.eqb_eq in Hxy. subst y.
  destruct (IH s Hrest) as [t ->]. exists t. reflexivity.
Qed.

Lemma append_eq_self (c s : string) : c +:+ s = c -> s = "".
Proof.
  induction c as [|x c IH]; [auto|].
  rewrite append_cons. intros [= H]. auto.
Qed.

(** Normalizing the joined path of a relative identifier that begins with
    one [..]: the last component of the root is dropped. *)
Lemma normpath_join_dotdot k cs c collection_id rest :
  k = 1 \/ k = 2 ->
  Forall clean (cs ++ [c]) ->
  startswith "/" collection_id = false ->
  List.filter kept (split slash collection_id) = ".." :: rest ->
  Forall (fun d => kept d = true /\ d <> "..") rest ->
  normpath (join (slashes k +:+ String.concat "/" (cs ++ [c]))
              [collection_id; "collection.anki2"])
  = slashes k +:+ String.concat "/" (cs ++ rest ++ ["collection.anki2"]).
Proof.
  intros Hk Hclean Hrel Hid Hrest.
  destruct (join_root_form k (cs ++ [c]) collection_id Hk Hclean Hrel)
    as (q & HP & Hq & Hqrel).
  assert (Hcomps :
    List.filter kept
      (split slash (join (slashes k +:+ String.concat "/" (cs ++ [c]))
                      [collection_id; "collection.anki2"]))
    = (cs ++ [c]) ++ ".." :: (rest ++ ["collection.anki2"])).
  { change (join ?a [collection_id; "collection.anki2"])
      with (join_step (join_step a collection_id) "collection.anki2").
    rewrite !filter_kept_join_step by (reflexivity || assumption).
    rewrite filter_kept_root by assumption. rewrite Hid.
    rewrite <- !app_assoc. reflexivity. }
  unfold normpath.
  rewrite fold_norm_step_kept, Hcomps, HP.
  rewrite slashes_append_nonempty by assumption. cbv zeta.
  rewrite initial_slashes_relative by assumption.
  rewrite fold_norm_step_pop.
  - fold (slashes k). rewrite slashes_append_nonempty by assumption. reflexivity.
  - destruct Hk; lia.
  - exact Hclean.
  - apply Forall_app. split; [exact Hrest|].
    constructor; [|constructor]. split; [reflexivity|discriminate].
Qed.

Lemma clean_nonempty_segments cs :
  Forall clean cs -> Forall (fun d => segment d /\ d <> "") cs.
Proof.
  apply List.Forall_impl. intros d (Hseg & Hkept & _).
  split; [exact Hseg|apply kept_nonempty, Hkept].
Qed.

End LocatorMore.

Section LocatorEscapes.
Context {Col NoteT CardT : Type}.
Variable anki : Anki Col NoteT CardT.
Implicit Types (self : RestApp Col).
Import PyStr Posixpath.

Lemma init_data_root threading cwd root hosts defaults manager
  (app0 : RestApp Col) :
  RestApp_init anki threading cwd root hosts defaults manager = Ok app0 ->
  data_root app0 = abspath cwd root.
Proof.
  intros Hinit. apply init_returns in Hinit as (_ & _ & ->).
  destruct defaults; [|reflexivity].
  apply default_instance_facts.
Qed.

(** X12. The data root of an instance is absolute and normalized: in a
    process with an absolute working directory, whatever [data_root] the
    constructor is given, the stored root begins with a slash, has no empty,
    [.] or [..] component, and is left unchanged by [normpath]. *)
Theorem init_data_root_normalized threading cwd root hosts defaults manager
  (app0 : RestApp Col) :
  isabs cwd = true ->
  RestApp_init anki threading cwd root hosts defaults manager = Ok app0 ->
  isabs (data_root app0) = true
  /\ Forall clean (components (data_root app0))
  /\ normpath (data_root app0) = data_root app0.
Proof.
  intros Hcwd Hinit. rewrite (init_data_root _ _ _ _ _ _ _ Hinit).
  destruct (normpath_absolute _ (abspath_absolute cwd root Hcwd))
    as (k & cs & Hk & Hcs & Hnorm).
  unfold abspath. rewrite Hnorm. split; [|split].
  - destruct Hk as [-> | ->]; reflexivity.
  - rewrite components_concat by (apply clean_nonempty_segments; exact Hcs).
    exact Hcs.
  - apply normpath_normalized; assumption.
Qed.

(** X13. The prefix test lets [..] out when the name of the data root
    is a prefix of the file name: under a root [parent/c] whose last
    component [c] is a string prefix of [collection.anki2] (a root named
    [c], [col], [collection], ...), the identifier [..] is located at
    [parent/collection.anki2], which is not a descendant of the root. *)
Theorem dotdot_escapes_prefix_named_root self k cs c :
  k = 1 \/ k = 2 ->
  Forall clean (cs ++ [c]) ->
  data_root self = slashes k +:+ String.concat "/" (cs ++ [c]) ->
  startswith c "collection.anki2" = true ->
  _getCollectionPath self ".."
  = Ok (slashes k +:+ String.concat "/" (cs ++ ["collection.anki2"]))
  /\ is_descendant (data_root self)
       (slashes k +:+ String.concat "/" (cs ++ ["collection.anki2"])) = false.
Proof.
  intros Hk Hclean Hroot Hprefix.
  assert (Hcs : Forall clean cs) by (apply Forall_app in Hclean as [H _]; exact H).
  destruct (startswith_append _ _ Hprefix) as [t Ht].
  split.
  - unfold _getCollectionPath. rewrite Hroot.
    rewrite (normpath_join_dotdot k cs c ".." []);
      [|assumption|assumption|reflexivity|reflexivity|constructor].
    cbn [app]. rewrite Ht at 1. rewrite concat_snoc_append, <- append_assoc.
    rewrite slice_to_append, String.eqb_refl. reflexivity.
  - unfold is_descendant. rewrite Hroot.
    rewrite !components_concat.
    + assert (Hlen : Nat.eqb (length (cs ++ [c]))
                       (length (cs ++ ["collection.anki2"])) = true)
        by (rewrite !length_app; apply Nat.eqb_refl).
      rewrite Hlen. cbn [negb]. rewrite andb_false_r. reflexivity.
    + apply Forall_app. split; [apply clean_nonempty_segments; exact Hcs|].
      constructor; [|constructor]. split; [reflexivity|discriminate].
    + apply clean_nonempty_segments. exact Hclean.
Qed.

(** X14. The prefix test lets a caller into sibling directories: under a
    root [parent/c], the identifier [../c'] where [c'] is [c] followed by
    further characters (a sibling whose name extends the name of the root)
    is located at [parent/c'/collection.anki2], which is not a descendant of
    the root. *)
Theorem sibling_with_longer_name_escapes self k cs c suffix :
  k = 1 \/ k = 2 ->
  Forall clean (cs ++ [c]) ->
  data_root self = slashes k +:+ String.concat "/" (cs ++ [c]) ->
  clean (c +:+ suffix) ->
  suffix <> "" ->
  _getCollectionPath self ("../" +:+ c +:+ suffix)
  = Ok (slashes k +:+ String.concat "/" (cs ++ [c +:+ suffix; "collection.anki2"]))
  /\ is_descendant (data_root self)
       (slashes k +:+ String.concat "/" (cs ++ [c +:+ suffix; "collection.anki2"]))
     = false.
Proof.
  intros Hk Hclean Hroot Hsib Hsuffix.
  assert (Hcs : Forall clean cs) by (apply Forall_app in Hclean as [H _]; exact H).
  destruct Hsib as (Hseg & Hkept & Hdd).
  assert (Hsplit : split slash ("../" +:+ c +:+ suffix) = [".."; c +:+ suffix]).
  { change ("../" +:+ c +:+ suffix) with (".." +:+ String slash (c +:+ suffix)).
    rewrite split_app_sep, (split_no_sep _ _ Hseg). reflexivity. }
  split.
  - unfold _getCollectionPath. rewrite Hroot.
    rewrite (normpath_join_dotdot k cs c _ [c +:+ suffix]);
      [|assumption|assumption|reflexivity| |].
    + cbn [app].
      change (cs ++ [c +:+ suffix; "collection.anki2"])
        with (cs ++ [c +:+ suffix] ++ ["collection.anki2"]).
      rewrite app_assoc.
      destruct (concat_app_extends (cs ++ [c +:+ suffix]) ["collection.anki2"])
        as [y Hy]; [discriminate|].
      rewrite Hy, concat_snoc_append, append_assoc, <- append_assoc.
      rewrite slice_to_append, String.eqb_refl. reflexivity.
    + rewrite Hsplit. cbn [List.filter]. rewrite Hkept. reflexivity.
    + constructor; [|constructor]. split; assumption.
  - unfold is_descendant. rewrite Hroot.
    rewrite !components_concat.
    + rewrite bool_decide_eq_false_2.
      * rewrite andb_false_r. reflexivity.
      * intros [tail Htail]. rewrite <- app_assoc in Htail.
        apply app_inv_head in Htail. injection Htail as Hc _.
        apply append_eq_self in Hc. contradiction.
    + apply Forall_app. split; [apply clean_nonempty_segments; exact Hcs|].
      constructor; [split; [exact Hseg|apply kept_nonempty, Hkept]|].
      constructor; [|constructor]. split; [reflexivity|discriminate].
    + apply clean_nonempty_segments. exact Hclean.
Qed.

(** The identifiers of a resolved path are segments of the path: the loop
    only moves entries of the split path into [ids]. *)
Lemma walk_keeps (P : string -> Prop) slots : forall w,
  Forall P (w_ids w) -> Forall P (w_parts w) ->
  Forall P (w_ids (walk slots w)) /\ Forall P (w_parts (walk slots w)).
Proof.
  induction slots as [|s rest IH]; intros [ht ids parts] Hids Hparts;
    cbn [w_ids w_parts] in *; [auto|].
  cbn [walk w_parts w_ids]. destruct parts as [|part parts]; [auto|].
  destruct (negb (mem part (as_list s))); [auto|].
  inversion Hparts as [|? ? Hpart Hparts']; subst.
  destruct parts as [|id parts'].
  - cbn. auto.
  - inversion Hparts' as [|? ? Hid Hparts'']; subst.
    destruct (length parts' <? 2)%nat.
    + cbn. split; [apply Forall_app; auto|assumption].
    + apply IH; cbn [w_ids w_parts]; [apply Forall_app; auto|assumption].
Qed.

Lemma parsePath_ids_segments path type name ids :
  _parsePath path = Ok (type, name, ids) -> Forall segment ids.
Proof.
  unfold _parsePath. destruct (mem path [""; "/"]); [discriminate|].
  cbv zeta.
  match goal with |- context [walk handler_types ?w0] =>
    assert (Hkeeps : Forall segment (w_ids (walk handler_types w0)))
      by (apply walk_keeps; [constructor|apply split_pieces]);
    revert Hkeeps; generalize (walk handler_types w0)
  end.
  intros w Hkeeps. destruct (_ || _); [discriminate|].
  intros [= _ _ <-]. exact Hkeeps.
Qed.

(** A segment climbs nowhere unless it is [..] itself. *)
Lemma segment_climbs collection_id :
  segment collection_id -> collection_id <> ".." ->
  climbs_or_absolute collection_id = false.
Proof.
  intros Hseg Hne. unfold climbs_or_absolute.
  rewrite (split_no_sep _ _ Hseg). apply orb_false_iff. split.
  - apply mem_false_iff. intros [H|[]]. congruence.
  - destruct collection_id as [|c r]; [reflexivity|].
    unfold isabs. rewrite startswith_slash_cons.
    unfold segment in Hseg. cbn [contains] in Hseg.
    apply orb_false_iff in Hseg as [Hc _].
    rewrite Ascii.eqb_sym. exact Hc.
Qed.

(** X15. Over HTTP only [..] can leave the data root: the collection
    identifier of a resolved path is one segment of the path, so it holds no
    slash; unless it is [..] itself, the locator accepts it and the
    collection file lies below the data root. *)
Theorem resolved_identifier_is_jailed self cwd root path type name ids :
  isabs cwd = true ->
  data_root self = abspath cwd root ->
  _parsePath path = Ok (type, name, ids) ->
  exists id0 rest,
    ids = id0 :: rest
    /\ segment id0
    /\ (id0 <> ".." ->
        exists collection_path,
          _getCollectionPath self id0 = Ok collection_path
          /\ is_descendant (data_root self) collection_path = true).
Proof.
  intros Hcwd Hroot Hpath.
  destruct (parsePath_ids _ _ _ _ Hpath) as (id0 & rest & ->).
  pose proof (parsePath_ids_segments _ _ _ _ Hpath) as Hsegs.
  inversion Hsegs as [|? ? Hseg _]; subst.
  exists id0, rest. split; [reflexivity|]. split; [exact Hseg|].
  intros Hne.
  destruct (normpath_absolute _ (abspath_absolute cwd root Hcwd))
    as (k & cs & Hk & Hcs & Hnorm).
  apply (getCollectionPath_clean self k cs); try assumption.
  - rewrite Hroot. exact Hnorm.
  - apply segment_climbs; assumption.
Qed.

End LocatorEscapes.

Lemma init_data_root_normalized_witness :
  Posixpath.isabs (data_root demo_app0) = true
  /\ Forall clean (Posixpath.components (data_root demo_app0))
  /\ Posixpath.normpath (data_root demo_app0) = data_root demo_app0.
Proof.
  apply (init_data_root_normalized demo_anki demo_threading "/" "/srv/data" "*"
           true None demo_app0).
  - reflexivity.
  - exact demo_app0_init.
Defined.

(** Below [/srv/c] the identifier [..] leads to [/srv/collection.anki2]. *)
Lemma dotdot_escapes_prefix_named_root_witness :
  _getCollectionPath sibling_app ".."
  = Ok (slashes 1 +:+ String.concat "/" (["srv"] ++ ["collection.anki2"]))
  /\ Posixpath.is_descendant (data_root sibling_app)
       (slashes 1 +:+ String.concat "/" (["srv"] ++ ["collection.anki2"])) = false.
Proof.
  apply (dotdot_escapes_prefix_named_root sibling_app 1 ["srv"] "c").
  - left. reflexivity.
  - clean_components.
  - evaluate.
  - reflexivity.
Defined.

(** Below [/srv/data] the identifier [../data2] leads to
    [/srv/data2/collection.anki2]. *)
Lemma sibling_with_longer_name_escapes_witness :
  _getCollectionPath demo_app ("../" +:+ "data" +:+ "2")
  = Ok (slashes 1 +:+ String.concat "/"
          (["srv"] ++ ["data" +:+ "2"; "collection.anki2"]))
  /\ Posixpath.is_descendant (data_root demo_app)
       (slashes 1 +:+ String.concat "/"
          (["srv"] ++ ["data" +:+ "2"; "collection.anki2"])) = false.
Proof.
  apply (sibling_with_longer_name_escapes demo_app 1 ["srv"] "data" "2").
  - left. reflexivity.
  - clean_components.
  - evaluate.
  - repeat split; (reflexivity || discriminate).
  - discriminate.
Defined.

(** The path of the scenario: its identifier [deck1] is located below the
    root. *)
Lemma resolved_identifier_is_jailed_witness :
  exists id0 rest,
    ["deck1"] = id0 :: rest
    /\ segment id0
    /\ (id0 <> ".." ->
        exists collection_path,
          _getCollectionPath demo_app id0 = Ok collection_path
          /\ Posixpath.is_descendant (data_root demo_app) collection_path = true).
Proof.
  apply (resolved_identifier_is_jailed demo_app "/" "/srv/data"
           "/collection/deck1/find_notes" (Some "collection") "find_notes" ["deck1"]).
  - reflexivity.
  - evaluate.
  - evaluate.
Defined.

(** ** The operations of the default groups *)

Section HandlerFacts.
Context {Col NoteT CardT : Type}.
Variable anki : Anki Col NoteT CardT.

Lemma mapS_length {A B} (f : A -> StoreM Col B) (l : list A) : forall c ys c',
  mapS f l c = (Ok ys, c') -> length ys = length l.
Proof.
  induction l as [|x xs IH]; intros c ys c' H.
  - injection H as <- _. reflexivity.
  - cbn [mapS] in H. unfold bindS in H.
    destruct (f x c) as [[y|e] c1]; [|discriminate].
    destruct (mapS f xs c1) as [[ys'|e] c2] eqn:Hxs; [|discriminate].
    unfold retS in H. injection H as <- _. cbn [length]. f_equal.
    exact (IH _ _ _ Hxs).
Qed.

Lemma mapS_Forall {A B} (P : B -> Prop) (f : A -> StoreM Col B) (l : list A) :
  (forall x c y c', f x c = (Ok y, c') -> P y) ->
  forall c ys c', mapS f l c = (Ok ys, c') -> Forall P ys.
Proof.
  intros Hf. induction l as [|x xs IH]; intros c ys c' H.
  - injection H as <- _. constructor.
  - cbn [mapS] in H. unfold bindS in H.
    destruct (f x c) as [[y|e] c1] eqn:Hx; [|discriminate].
    destruct (mapS f xs c1) as [[ys'|e] c2] eqn:Hxs; [|discriminate].
    unfold retS in H. injection H as <- _.
    constructor; [exact (Hf _ _ _ _ Hx)|exact (IH _ _ _ Hxs)].
Qed.

Lemma id_dicts_have_id (found : list PyVal) :
  Forall has_id (map (fun id => VDict [("id", id)]) found).
Proof.
  induction found as [|id found IH]; constructor; [|exact IH].
  exists [("id", id)], id. split; reflexivity.
Qed.

(** X16. [find_notes] answers with one dict per note found: whenever it
    returns, [findNotes] returned some identifiers for the query of the body
    (the empty query when the body has none), and the result is a list of as
    many dicts, each with an [id] entry, with or without [preload]; without
    [preload] they are the dicts [{'id': id}] in the order found and the
    collection is as [findNotes] left it. *)
Theorem find_notes_one_node_per_hit data ids c v c' :
  CollectionHandler_find_notes anki data ids c = (Ok v, c') ->
  exists found c1 nodes,
    findNotes anki (get data "query" (VStr "")) c = (Ok found, c1)
    /\ v = VList nodes
    /\ length nodes = length found
    /\ Forall has_id nodes
    /\ (truthy (get data "preload" (VBool false)) = false ->
        c' = c1 /\ nodes = map (fun id => VDict [("id", id)]) found).
Proof.
  unfold CollectionHandler_find_notes. cbv zeta. unfold bindS at 1.
  destruct (findNotes anki _ c) as [[found|e] c1]; [|discriminate].
  destruct (truthy _).
  - unfold bindS at 1.
    destruct (mapS _ found c1) as [[nodes|e] c2] eqn:Hmap; [|discriminate].
    unfold retS. intros [= <- <-]. exists found, c1, nodes.
    split; [reflexivity|]. split; [reflexivity|].
    split; [exact (mapS_length _ _ _ _ _ Hmap)|]. split; [|discriminate].
    refine (mapS_Forall has_id _ _ _ _ _ _ Hmap).
    intros id c0 y c0' Hy. unfold bindS, liftS in Hy.
    destruct (getNote anki id c0) as [[note|e] c3]; [|discriminate].
    unfold NoteHandler__serialize, bindR in Hy.
    destruct (note_model anki note) as [model|e]; [|discriminate].
    destruct (assoc "name" model) as [name|]; [|discriminate].
    injection Hy as <- _. eexists _, _. split; reflexivity.
  - unfold retS. intros [= <- <-].
    exists found, c1, (map (fun id => VDict [("id", id)]) found).
    split; [reflexivity|]. split; [reflexivity|].
    split; [apply length_map|]. split; [apply id_dicts_have_id|].
    intros _. split; reflexivity.
Qed.

(** X17. [find_cards] answers with one dict per card found: whenever it
    returns, the result is a list of as many dicts as [findCards] returned
    identifiers, each with an [id] entry and nothing else; without [preload]
    no card is loaded: the dicts are [{'id': id}] in the order found and the
    collection is as [findCards] left it. *)
Theorem find_cards_one_card_per_hit data ids c v c' :
  CollectionHandler_find_cards anki data ids c = (Ok v, c') ->
  exists found c1 cards,
    findCards anki (get data "query" (VStr "")) c = (Ok found, c1)
    /\ v = VList cards
    /\ length cards = length found
    /\ Forall (fun card => exists id, card = VDict [("id", id)]) cards
    /\ (truthy (get data "preload" (VBool false)) = false ->
        c' = c1 /\ cards = map (fun id => VDict [("id", id)]) found).
Proof.
  unfold CollectionHandler_find_cards. cbv zeta. unfold bindS at 1.
  destruct (findCards anki _ c) as [[found|e] c1]; [|discriminate].
  destruct (truthy _).
  - unfold bindS at 1.
    destruct (mapS _ found c1) as [[cards|e] c2] eqn:Hmap; [|discriminate].
    unfold retS. intros [= <- <-]. exists found, c1, cards.
    split; [reflexivity|]. split; [reflexivity|].
    split; [exact (mapS_length _ _ _ _ _ Hmap)|]. split; [|discriminate].
    refine (mapS_Forall _ _ _ _ _ _ _ Hmap).
    intros id c0 y c0' Hy. unfold bindS, retS in Hy.
    destruct (getCard anki id c0) as [[card|e] c3]; [|discriminate].
    injection Hy as <- _. eexists. reflexivity.
  - unfold retS. intros [= <- <-].
    exists found, c1, (map (fun id => VDict [("id", id)]) found).
    split; [reflexivity|]. split; [reflexivity|].
    split; [apply length_map|]. split.
    + clear. induction found; constructor; eauto.
    + intros _. split; reflexivity.
Qed.

End HandlerFacts.

Section OperationFacts.
Context {Col NoteT CardT : Type}.
Variable anki : Anki Col NoteT CardT.
Variable json_loads : string -> PyResult PyVal.
Variable json_dumps : PyVal -> string.

(** X18. A model that does not exist is answered 500, not 404:
    [field_names] raises [HTTPNotFound] when the collection has no model for
    the second identifier of the path, without asking for field names; for
    an executor that surfaces the failure of the operation, that exception
    is caught by the dispatcher like any other, logged, and answered with
    a bare 500. *)
Theorem missing_model_is_answered_500 self req ids collection_path handler flag
  data (col : CollectionWrapper Col) (c c1 : Col) model_id :
  Reaches_execution json_loads self req ids collection_path handler flag data col ->
  func handler = ModelHandler_field_names anki ->
  (forall e, fst (func handler data ids c) = Raise e ->
             execute col handler data ids flag = Raise e) ->
  ids !! 1 = Some model_id ->
  models_get anki (VStr model_id) c = (Ok VNone, c1) ->
  ModelHandler_field_names anki data ids c = (Raise (HTTPError HTTPNotFound), c1)
  /\ RestApp_wsgi json_loads json_dumps self req
     = (Responded (ErrorResponse HTTPInternalServerError),
        [Stdout collection_path; StdoutData data;
         LogException (HTTPError HTTPNotFound)]).
Proof.
  intros Hreach Hfunc Hsurface Hid Hget.
  assert (Hop : ModelHandler_field_names anki data ids c
                = (Raise (HTTPError HTTPNotFound), c1)).
  { unfold ModelHandler_field_names, bindS, liftS, index.
    rewrite Hid, Hget. reflexivity. }
  split; [exact Hop|].
  unfold RestApp_wsgi. rewrite (call_reaches _ _ _ _ _ _ _ _ _ _ Hreach).
  rewrite (Hsurface (HTTPError HTTPNotFound)) by (rewrite Hfunc, Hop; reflexivity).
  reflexivity.
Qed.

(** X19. No card due is answered with an empty body: [next_card] selects
    the deck named by the second identifier of the path, then asks the
    scheduler of the collection as the selection left it; when no card is due
    it returns [None], and for an executor that hands back the result of the
    operation the dispatcher answers an empty 200 of type [text/plain], not
    the JSON [null]. *)
Theorem no_card_due_is_answered_empty self req ids collection_path handler flag
  data (col : CollectionWrapper Col) (c c1 c2 : Col) deck_id :
  Reaches_execution json_loads self req ids collection_path handler flag data col ->
  func handler = DeckHandler_next_card anki ->
  (forall v, fst (func handler data ids c) = Ok v ->
             execute col handler data ids flag = Ok v) ->
  ids !! 1 = Some deck_id ->
  decks_select anki (VStr deck_id) c = (Ok tt, c1) ->
  sched_getCard anki c1 = (Ok None, c2) ->
  DeckHandler_next_card anki data ids c = (Ok VNone, c2)
  /\ RestApp_wsgi json_loads json_dumps self req
     = (Responded (Response200 "" "text/plain"),
        [Stdout collection_path; StdoutData data]).
Proof.
  intros Hreach Hfunc Hresult Hid Hselect Hcard.
  assert (Hop : DeckHandler_next_card anki data ids c = (Ok VNone, c2)).
  { unfold DeckHandler_next_card, bindS, liftS, index.
    rewrite Hid, Hselect, Hcard. reflexivity. }
  split; [exact Hop|].
  unfold RestApp_wsgi. rewrite (call_reaches _ _ _ _ _ _ _ _ _ _ Hreach).
  rewrite (Hresult VNone) by (rewrite Hfunc, Hop; reflexivity).
  reflexivity.
Qed.

End OperationFacts.

(** On the example collection, with [preload]: the two notes tagged [foo],
    serialized. *)
Lemma find_notes_one_node_per_hit_witness :
  exists found c1 nodes,
    findNotes demo_anki (get Demo2.preload_data "query" (VStr "")) demo_col
    = (Ok found, c1)
    /\ VList [VDict [("id", VInt 7); ("model", VStr "Basic"); ("tags", VStr "foo")];
              VDict [("id", VInt 5); ("model", VStr "Cloze"); ("tags", VStr "foo bar")]]
       = VList nodes
    /\ length nodes = length found
    /\ Forall has_id nodes
    /\ (truthy (get Demo2.preload_data "preload" (VBool false)) = false ->
        demo_col = c1 /\ nodes = map (fun id => VDict [("id", id)]) found).
Proof.
  apply (find_notes_one_node_per_hit demo_anki Demo2.preload_data ["deck1"] demo_col).
  evaluate.
Defined.

(** With two cards in the collection and [preload]: both are loaded. *)
Lemma find_cards_one_card_per_hit_witness :
  exists found c1 cards,
    findCards Demo2.card_anki (get Demo2.preload_data "query" (VStr "")) demo_col
    = (Ok found, c1)
    /\ VList [VDict [("id", VInt 11)]; VDict [("id", VInt 12)]] = VList cards
    /\ length cards = length found
    /\ Forall (fun card => exists id, card = VDict [("id", id)]) cards
    /\ (truthy (get Demo2.preload_data "preload" (VBool false)) = false ->
        demo_col = c1 /\ cards = map (fun id => VDict [("id", id)]) found).
Proof.
  apply (find_cards_one_card_per_hit Demo2.card_anki Demo2.preload_data ["deck1"]
           demo_col).
  evaluate.
Defined.

(** The example collection has no model: asking for the field names of
    model [99] is answered 500. *)
Lemma missing_model_is_answered_500_witness :
  ModelHandler_field_names demo_anki ∅ ["deck1"; "99"] demo_col
  = (Raise (HTTPError HTTPNotFound), demo_col)
  /\ RestApp_wsgi demo_loads demo_dumps demo_app
       (request "POST" "/collection/deck1/model/99/field_names" "{}")
     = (Responded (ErrorResponse HTTPInternalServerError),
        [Stdout "/srv/data/deck1/collection.anki2"; StdoutData ∅;
         LogException (HTTPError HTTPNotFound)]).
Proof.
  refine (missing_model_is_answered_500 demo_anki demo_loads demo_dumps demo_app
            (request "POST" "/collection/deck1/model/99/field_names" "{}")
            ["deck1"; "99"] "/srv/data/deck1/collection.anki2"
            (_RestHandlerWrapper "ModelHandler.field_names"
               (method "field_names" (ModelHandler_field_names demo_anki)) true)
            true ∅ {| execute := spec_execute demo_col |} demo_col demo_col "99"
            _ _ _ _ _).
  - reaches_execution.
  - reflexivity.
  - intros e H. exact H.
  - reflexivity.
  - reflexivity.
Defined.

(** The scheduler of the example collection has no card due: the next card
    of deck [3] is answered with an empty body. *)
Lemma no_card_due_is_answered_empty_witness :
  DeckHandler_next_card demo_anki ∅ ["deck1"; "3"] demo_col
  = (Ok VNone, {| dc_notes := dc_notes demo_col; dc_deck := Some (VStr "3") |})
  /\ RestApp_wsgi demo_loads demo_dumps demo_app
       (request "POST" "/collection/deck1/deck/3/next_card" "{}")
     = (Responded (Response200 "" "text/plain"),
        [Stdout "/srv/data/deck1/collection.anki2"; StdoutData ∅]).
Proof.
  refine (no_card_due_is_answered_empty demo_anki demo_loads demo_dumps demo_app
            (request "POST" "/collection/deck1/deck/3/next_card" "{}")
            ["deck1"; "3"] "/srv/data/deck1/collection.anki2"
            (_RestHandlerWrapper "DeckHandler.next_card"
               (method "next_card" (DeckHandler_next_card demo_anki)) true)
            true ∅ {| execute := spec_execute demo_col |} demo_col
            {| dc_notes := dc_notes demo_col; dc_deck := Some (VStr "3") |}
            {| dc_notes := dc_notes demo_col; dc_deck := Some (VStr "3") |} "3"
            _ _ _ _ _ _).
  - reaches_execution.
  - reflexivity.
  - intros v H. exact H.
  - reflexivity.
  - reflexivity.
  - reflexivity.
Defined.

(** ** Importing a file *)

(** The file types that [_get_importer_class] knows. *)
Definition known_filetypes : list string :=
  ["text"; "apkg"; "anki1"; "supermemo_xml"; "mnemosyne"; "pauker"].

(** The file type of an importer class. *)
Definition filetype_of (cls : ImporterClass) : string :=
  match cls with
  | TextImporter => "text"
  | AnkiPackageImporter => "apkg"
  | Anki1Importer => "anki1"
  | SupermemoXmlImporter => "supermemo_xml"
  | MnemosyneImporter => "mnemosyne"
  | PaukerImporter => "pauker"
  end.

(** The calls of the importer on a file, in the order [import_file] makes
    them. *)
Definition importer_calls {Fd} (cls : ImporterClass) (path : string)
  : list (IOEvent Fd) :=
  [ImporterNew cls path; ImporterOpen; ImporterRun].

Section ImportFacts.
Context {Fd Importer W : Type}.
Variable env : ImportEnv Fd Importer W.

Lemma bindIO_inv {A B} (m : IO Fd W A) (k : A -> IO Fd W B) w r w' t :
  bindIO m k w = (r, w', t) ->
  (exists e, m w = (Raise e, w', t) /\ r = Raise e)
  \/ (exists a w1 t1 t2,
        m w = (Ok a, w1, t1) /\ k a w1 = (r, w', t2) /\ t = t1 ++ t2).
Proof.
  unfold bindIO. destruct (m w) as [[[a|e] w1] t1].
  - destruct (k a w1) as [[r2 w2] t2] eqn:Hk. intros [= <- <- <-]. right.
    exists a, w1, t1, t2. auto.
  - intros [= <- <- <-]. left. eauto.
Qed.

Lemma call_inv {A} (ev : PyResult A -> IOEvent Fd) (op : StoreM W A) w r w' t :
  call ev op w = (r, w', t) -> op w = (r, w') /\ t = [ev r].
Proof.
  unfold call. destruct (op w) as [r0 w0]. intros [= <- <- <-]. auto.
Qed.

Lemma attempt_inv {A} (m : IO Fd W A) w r w' t :
  attempt m w = (r, w', t) -> exists r0, r = Ok r0 /\ m w = (r0, w', t).
Proof.
  unfold attempt. destruct (m w) as [[r0 w0] t0]. intros [= <- <- <-]. eauto.
Qed.

Lemma py_eq_true v s : py_eq v s = true -> v = VStr s.
Proof.
  destruct v; try discriminate. cbn. intros H. apply String.eqb_eq in H.
  congruence.
Qed.

(** [_get_importer_class] imports at most one module, the one of the class
    it returns, which is the class of the file type. *)
Lemma get_importer_class_outcome data w r w' t :
  _get_importer_class env data w = (r, w', t) ->
  (t = [] /\ w' = w /\ exists e, r = Raise e)
  \/ exists cls,
       t = [ImportModule cls]
       /\ data !! "filetype" = Some (VStr (filetype_of cls))
       /\ (forall cls', r = Ok cls' -> cls' = cls).
Proof.
  unfold _get_importer_class. intros H.
  apply bindIO_inv in H as [(e & H & ->)|(filetype & w1 & t1 & t2 & H & Hk & ->)].
  - unfold liftIO in H. injection H as _ <- <-. left. eauto.
  - unfold liftIO, getitem in H.
    destruct (data !! "filetype") as [v|]; [|discriminate].
    injection H as <- <- <-.
    repeat match type of Hk with
    | (if py_eq ?v ?s then _ else _) _ = _ =>
        destruct (py_eq v s) eqn:Heq;
          [apply py_eq_true in Heq; subst v;
           unfold import_and_return in Hk;
           apply bindIO_inv in Hk
             as [(e & Hc & ->)|(? & w2 & t3 & t4 & Hc & Hret & ->)];
           [apply call_inv in Hc as [_ ->]; right; eexists;
            split; [reflexivity|]; split; [reflexivity|discriminate]
           |apply call_inv in Hc as [_ ->]; injection Hret as <- _ <-;
            right; eexists;
            split; [reflexivity|]; split; [reflexivity|];
            intros ? [= <-]; reflexivity]
          |clear Heq]
    end.
    unfold raiseIO in Hk. injection Hk as <- <- <-. left. eauto.
Qed.

(** X20. The file type is validated before anything else is done: when
    the body has no [filetype], or one that is not among the six known file
    types, [import_file] raises ([KeyError], or [HTTPBadRequest] naming the
    file type), and it has imported no module, fetched no URL and created no
    file: the world is untouched. *)
Theorem unknown_filetype_touches_nothing data ids w :
  (forall s, In s known_filetypes -> data !! "filetype" <> Some (VStr s)) ->
  import_file env data ids w
  = (Raise (match data !! "filetype" with
            | None => Error "KeyError" "filetype"
            | Some v => HTTPError (HTTPBadRequest
                          ("Unknown filetype '" +:+ percent_s env v +:+ "'"))
            end), w, []).
Proof.
  intros Hunknown. unfold import_file, bindIO at 1.
  unfold _get_importer_class, bindIO at 1, liftIO, getitem.
  destruct (data !! "filetype") as [v|]; [|reflexivity].
  assert (Hne : forall s, In s known_filetypes -> py_eq v s = false).
  { intros s Hs. destruct (py_eq v s) eqn:Heq; [|reflexivity].
    apply py_eq_true in Heq. subst v. destruct (Hunknown s Hs). reflexivity. }
  rewrite !Hne by (cbn; tauto). reflexivity.
Qed.

(** What [_get_filedata] does, case by case. *)
Lemma get_filedata_outcome data w r w' t :
  _get_filedata env data w = (r, w', t) ->
  match data !! "data" with
  | Some filedata => r = Ok filedata /\ w' = w /\ t = []
  | None =>
      (t = [] /\ w' = w /\ data !! "url" = None
       /\ r = Raise (Error "KeyError" "url"))
      \/ (exists url e,
            data !! "url" = Some url /\ t = [UrlOpen url None] /\ r = Raise e)
      \/ (exists url fd,
            data !! "url" = Some url
            /\ t = [UrlOpen url (Some fd); FdRead fd; FdClose fd])
  end.
Proof.
  unfold _get_filedata. destruct (data !! "data") as [filedata|].
  - intros [= <- <- <-]. auto.
  - unfold getitem. destruct (data !! "url") as [url|].
    + unfold bindIO, liftIO, attempt, call.
      destruct (urlopen env url w) as [[fd|e] w1]; cbn.
      * destruct (fd_read env fd w1) as [read w2].
        destruct (fd_close env fd w2) as [[[]|e] w3]; cbn;
          intros [= <- <- <-]; right; right; eauto.
      * intros [= <- <- <-]. right. left. eauto.
    + intros [= <- <- <-]. left. auto.
Qed.

(** What the [try] block of [import_file] does, case by case. *)
Lemma import_file_try_outcome cls filedata w r w' t :
  import_file_try env cls filedata w = (r, w', t) ->
  (exists e, r = Ok (None, Raise e) /\ t = [TempCreate None])
  \/ exists path outcome n,
       r = Ok (Some path, outcome)
       /\ t = TempCreate (Some path) :: TempWrite path filedata :: TempExit path
              :: take n (importer_calls cls path)
       /\ (outcome = Ok tt -> n = 3).
Proof.
  unfold import_file_try, bindIO, attempt, call, retIO.
  destruct (NamedTemporaryFile env w) as [[path|e] w1]; cbn;
    [|intros [= <- <- <-]; left; eauto].
  destruct (tmp_write env path filedata w1) as [[[]|e] w2]; cbn;
    destruct (tmp_exit env path w2) as [[[]|e'] w3]; cbn;
    try (intros [= <- <- <-]; right; exists path; eexists; exists 0;
         split; [reflexivity|]; split; [reflexivity|discriminate]).
  destruct (importer_new env cls path w3) as [[importer|e] w4]; cbn;
    [|intros [= <- <- <-]; right; exists path; eexists; exists 1;
      split; [reflexivity|]; split; [reflexivity|discriminate]].
  destruct (importer_open env importer w4) as [[[]|e] w5]; cbn;
    [|intros [= <- <- <-]; right; exists path; eexists; exists 2;
      split; [reflexivity|]; split; [reflexivity|discriminate]].
  destruct (importer_run env importer w5) as [run w6]; cbn.
  intros [= <- <- <-]. right. exists path; eexists; exists 3.
  split; [reflexivity|]. split; reflexivity.
Qed.

(** What [import_file] does, case by case: it stops at the file type or at
    the file data, or it goes through the [try] block and its [finally]
    clause. *)
Lemma import_file_outcome data ids w r w' t :
  import_file env data ids w = (r, w', t) ->
  (exists e,
     r = Raise e
     /\ (_get_importer_class env data w = (Raise e, w', t)
         \/ exists cls w1 t1 t2,
              _get_importer_class env data w = (Ok cls, w1, t1)
              /\ _get_filedata env data w1 = (Raise e, w', t2)
              /\ t = t1 ++ t2))
  \/ exists cls w1 t1 filedata w2 t2 t3,
       _get_importer_class env data w = (Ok cls, w1, t1)
       /\ _get_filedata env data w1 = (Ok filedata, w2, t2)
       /\ t = t1 ++ t2 ++ t3
       /\ ((t3 = [TempCreate None] /\ exists e, r = Raise e)
           \/ exists path n,
                t3 = TempCreate (Some path) :: TempWrite path filedata
                       :: TempExit path :: take n (importer_calls cls path)
                       ++ [Unlink path]
                /\ ((exists e, r = Raise e) \/ (r = Ok VNone /\ n = 3))).
Proof.
  unfold import_file. intros H.
  apply bindIO_inv in H as [(e & H & ->)|(cls & w1 & t1 & t' & Hcls & H & ->)].
  { left. exists e. auto. }
  apply bindIO_inv in H as [(e & H & ->)|(filedata & w2 & t2 & t'' & Hdata & H & ->)].
  { left. exists e. split; [reflexivity|]. right. exists cls, w1, t1, t'. auto. }
  right. exists cls, w1, t1, filedata, w2, t2, t''.
  split; [exact Hcls|]. split; [exact Hdata|]. split; [reflexivity|].
  apply bindIO_inv in H
    as [(e & H & ->)|([path outcome] & w3 & t3 & t4 & Htry & H & ->)].
  { apply import_file_try_outcome in H
      as [(e0 & Hr & _)|(p & o & n & Hr & _)]; discriminate. }
  apply import_file_try_outcome in Htry
    as [(e0 & Hr & ->)|(p & o & n & Hr & -> & Hn)];
    injection Hr as -> ->.
  - left. unfold bindIO, retIO, liftIO in H. injection H as <- <- <-.
    split; [reflexivity|eauto].
  - right. exists p, n. unfold bindIO, call, liftIO, retIO in H.
    destruct (os_unlink env p w3) as [[[]|e] w4].
    + destruct o as [[]|e]; injection H as <- <- <-;
        (split; [cbn; rewrite ?app_nil_r; reflexivity|]); eauto.
    + injection H as <- <- <-. split; [reflexivity|eauto].
Qed.

(** Before the [try] block no file is touched. *)
Definition file_event {Fd} (ev : IOEvent Fd) : bool :=
  match ev with
  | TempCreate _ | TempWrite _ _ | TempExit _ | ImporterNew _ _
  | ImporterOpen | ImporterRun | Unlink _ => true
  | _ => false
  end.

Lemma get_importer_class_no_file data w r w' t :
  _get_importer_class env data w = (r, w', t) ->
  Forall (fun ev => file_event ev = false) t.
Proof.
  intros H. apply get_importer_class_outcome in H as [(-> & _)|(cls & -> & _)];
    repeat constructor.
Qed.

Lemma get_filedata_no_file data w r w' t :
  _get_filedata env data w = (r, w', t) ->
  Forall (fun ev => file_event ev = false) t.
Proof.
  intros H. apply get_filedata_outcome in H.
  destruct (data !! "data").
  - destruct H as (_ & _ & ->). constructor.
  - destruct H as [(-> & _)|[(url & e & _ & -> & _)|(url & fd & _ & ->)]];
      repeat constructor.
Qed.

Lemma In_take {A} (x : A) n : forall l, In x (take n l) -> In x l.
Proof.
  induction n as [|n IH]; intros [|y l] Hin; try (destruct Hin; fail).
  destruct Hin as [->|Hin]; [left; reflexivity|right; apply IH; exact Hin].
Qed.

Lemma no_file_event_in (t : list (IOEvent Fd)) ev :
  Forall (fun ev => file_event ev = false) t -> file_event ev = true -> ~ In ev t.
Proof.
  intros Hall Hev Hin. rewrite List.Forall_forall in Hall.
  rewrite (Hall _ Hin) in Hev. discriminate.
Qed.

(** X21. What [_get_filedata] opens it closes: inline [data] is
    returned as it is, without any call, also when a [url] is given with it;
    otherwise, whenever [urlopen] returned, the file is read and then closed,
    whatever [read] or [close] did, and nothing is read or closed that was not
    opened. *)
Theorem get_filedata_closes_what_it_opens data w r w' t :
  _get_filedata env data w = (r, w', t) ->
  (forall filedata,
     data !! "data" = Some filedata -> r = Ok filedata /\ w' = w /\ t = [])
  /\ (forall url fd,
        In (UrlOpen url (Some fd)) t ->
        data !! "url" = Some url
        /\ t = [UrlOpen url (Some fd); FdRead fd; FdClose fd])
  /\ (forall fd,
        In (FdRead fd) t \/ In (FdClose fd) t ->
        exists url, In (UrlOpen url (Some fd)) t).
Proof.
  intros H. apply get_filedata_outcome in H.
  destruct (data !! "data") as [inline|].
  - destruct H as (-> & -> & ->). split; [|split].
    + intros filedata [= <-]. auto.
    + intros url fd [].
    + intros fd [[]|[]].
  - split; [discriminate|].
    destruct H as [(-> & _)|[(url & e & Hurl & -> & _)|(url & fd & Hurl & ->)]].
    + split; [intros url fd []|intros fd [[]|[]]].
    + split.
      * intros url' fd' [Hin|[]]. discriminate.
      * intros fd' [[Hin|[]]|[Hin|[]]]; discriminate.
    + split.
      * intros url' fd' [Hin|[Hin|[Hin|[]]]]; try discriminate.
        injection Hin as <- <-. auto.
      * intros fd' [[Hin|[Hin|[Hin|[]]]]|[Hin|[Hin|[Hin|[]]]]]; try discriminate;
          injection Hin as <-; exists url; left; reflexivity.
Qed.

(** X22. [import_file] unlinks the file it creates: whatever raises or
    returns on the way, if [NamedTemporaryFile] returned a file then the last
    call of [import_file] is [os.unlink] on that file; and nothing is unlinked
    that [NamedTemporaryFile] did not return. *)
Theorem import_file_unlinks_what_it_creates data ids w r w' t :
  import_file env data ids w = (r, w', t) ->
  (forall path, In (TempCreate (Some path)) t -> last t = Some (Unlink path))
  /\ (forall path, In (Unlink path) t -> In (TempCreate (Some path)) t).
Proof.
  intros H.
  assert (Hshape :
    exists t0 t3,
      t = t0 ++ t3
      /\ Forall (fun ev => file_event ev = false) t0
      /\ (t3 = [] \/ t3 = [TempCreate None]
          \/ exists path filedata cls n,
               t3 = (TempCreate (Some path) :: TempWrite path filedata
                       :: TempExit path :: take n (importer_calls cls path))
                    ++ [Unlink path])).
  { apply import_file_outcome in H
      as [(e & _ & [H|(cls & w1 & t1 & t2 & Hcls & Hdata & ->)])
         |(cls & w1 & t1 & filedata & w2 & t2 & t3 & Hcls & Hdata & -> & Hfile)].
    - exists t, []. rewrite app_nil_r. split; [reflexivity|].
      split; [exact (get_importer_class_no_file _ _ _ _ _ H)|auto].
    - exists (t1 ++ t2), []. rewrite app_nil_r. split; [reflexivity|].
      split; [|auto]. apply Forall_app. split.
      + exact (get_importer_class_no_file _ _ _ _ _ Hcls).
      + exact (get_filedata_no_file _ _ _ _ _ Hdata).
    - exists (t1 ++ t2), t3. split; [apply app_assoc|]. split.
      + apply Forall_app. split.
        * exact (get_importer_class_no_file _ _ _ _ _ Hcls).
        * exact (get_filedata_no_file _ _ _ _ _ Hdata).
      + destruct Hfile as [(-> & _)|(path & n & -> & _)]; [auto|].
        right. right. exists path, filedata, cls, n. reflexivity. }
  destruct Hshape as (t0 & t3 & -> & Hbefore & Hfile).
  assert (Hcalls : forall path path' cls n (ev : IOEvent Fd),
            In ev (take n (importer_calls cls path)) ->
            ev <> TempCreate (Some path') /\ ev <> Unlink path').
  { intros path path' cls n ev Hin. apply In_take in Hin.
    destruct Hin as [<-|[<-|[<-|[]]]]; split; discriminate. }
  split.
  - intros path Hin. apply in_app_or in Hin as [Hin|Hin].
    { destruct (no_file_event_in _ (TempCreate (Some path)) Hbefore eq_refl Hin). }
    destruct Hfile as [->|[->|(p & filedata & cls & n & ->)]].
    + destruct Hin.
    + destruct Hin as [Hin|[]]. discriminate.
    + rewrite app_assoc. rewrite last_snoc. f_equal. f_equal.
      apply in_app_or in Hin as [Hin|[Hin|[]]]; [|discriminate].
      destruct Hin as [Hin|[Hin|[Hin|Hin]]]; try discriminate.
      * congruence.
      * destruct (Hcalls _ path _ _ _ Hin) as [Hne _]. congruence.
  - intros path Hin. apply in_or_app. right.
    apply in_app_or in Hin as [Hin|Hin].
    { destruct (no_file_event_in _ (Unlink path) Hbefore eq_refl Hin). }
    destruct Hfile as [->|[->|(p & filedata & cls & n & ->)]].
    + destruct Hin.
    + destruct Hin as [Hin|[]]. discriminate.
    + apply in_app_or in Hin as [Hin|[Hin|[]]].
      * destruct Hin as [Hin|[Hin|[Hin|Hin]]]; try discriminate.
        destruct (Hcalls _ path _ _ _ Hin) as [_ Hne]. congruence.
      * injection Hin as <-. left. reflexivity.
Qed.

(** X23. A successful import did every step, in order: when
    [import_file] returns, it returns [None]; the body named one of the six
    file types, the module of that importer class was imported, the file
    data was taken from the body or fetched from the URL, which was closed,
    and written to a new file; the importer of that class was built on that
    file, opened and run; and the file was unlinked at the end. *)
Theorem import_file_success data ids w v w' t :
  import_file env data ids w = (Ok v, w', t) ->
  v = VNone
  /\ exists cls fetch path filedata,
       data !! "filetype" = Some (VStr (filetype_of cls))
       /\ t = ImportModule cls :: fetch
              ++ TempCreate (Some path) :: TempWrite path filedata
              :: TempExit path :: importer_calls cls path ++ [Unlink path]
       /\ ((data !! "data" = Some filedata /\ fetch = [])
           \/ (data !! "data" = None
               /\ exists url fd,
                    data !! "url" = Some url
                    /\ fetch = [UrlOpen url (Some fd); FdRead fd; FdClose fd])).
Proof.
  intros H. apply import_file_outcome in H
    as [(e & Hr & _)
       |(cls & w1 & t1 & filedata & w2 & t2 & t3 & Hcls & Hdata & -> & Hfile)];
    [discriminate|].
  destruct Hfile as [(_ & e & Hr)|(path & n & -> & [(e & Hr)|(Hr & ->)])];
    try discriminate.
  injection Hr as ->. split; [reflexivity|].
  apply get_importer_class_outcome in Hcls
    as [(_ & _ & e & He)|(cls0 & -> & Htype & Hsame)]; [discriminate|].
  rewrite <- (Hsame cls eq_refl) in Htype.
  rewrite <- (Hsame cls eq_refl).
  exists cls, t2, path, filedata. split; [exact Htype|]. split; [reflexivity|].
  apply get_filedata_outcome in Hdata.
  destruct (data !! "data") as [inline|].
  - destruct Hdata as ([= <-] & _ & ->). auto.
  - right. split; [reflexivity|].
    destruct Hdata as [(_ & _ & _ & Hr)|[(url & e & _ & _ & Hr)|(url & fd & Hurl & ->)]];
      try discriminate.
    eauto.
Qed.

(** X24. Inline data is imported without the network: when the body
    carries [data], [import_file] opens no URL, whether or not the body also
    carries a [url], and what it writes to the file is that data. *)
Theorem inline_data_is_not_fetched data ids w r w' t filedata :
  data !! "data" = Some filedata ->
  import_file env data ids w = (r, w', t) ->
  (forall url fd, ~ In (UrlOpen url fd) t)
  /\ (forall path written, In (TempWrite path written) t -> written = filedata).
Proof.
  intros Hinline H.
  assert (Hcalls : forall path cls n (ev : IOEvent Fd),
            In ev (take n (importer_calls cls path)) ->
            (forall url fd, ev <> UrlOpen url fd)
            /\ (forall p written, ev <> TempWrite p written)).
  { intros path cls n ev Hin. apply In_take in Hin.
    destruct Hin as [<-|[<-|[<-|[]]]]; split; discriminate. }
  assert (Hclass : forall w0 r0 w1 t1 (ev : IOEvent Fd),
            _get_importer_class env data w0 = (r0, w1, t1) -> In ev t1 ->
            exists cls, ev = ImportModule cls).
  { intros w0 r0 w1 t1 ev H0 Hin.
    apply get_importer_class_outcome in H0 as [(-> & _)|(cls & -> & _)].
    - destruct Hin.
    - destruct Hin as [<-|[]]. eauto. }
  assert (Hfetch : forall w0 r0 w1 t1,
            _get_filedata env data w0 = (r0, w1, t1) -> r0 = Ok filedata /\ t1 = []).
  { intros w0 r0 w1 t1 H0. apply get_filedata_outcome in H0.
    rewrite Hinline in H0. tauto. }
  apply import_file_outcome in H
    as [(e & _ & [H|(cls & w1 & t1 & t2 & Hcls & Hdata & ->)])
       |(cls & w1 & t1 & got & w2 & t2 & t3 & Hcls & Hdata & -> & Hfile)].
  - split; intros ? ? Hin; destruct (Hclass _ _ _ _ _ H Hin); discriminate.
  - destruct (Hfetch _ _ _ _ Hdata) as [_ ->]. rewrite app_nil_r.
    split; intros ? ? Hin; destruct (Hclass _ _ _ _ _ Hcls Hin); discriminate.
  - destruct (Hfetch _ _ _ _ Hdata) as [[= ->] ->]. cbn [app].
    split.
    + intros url fd Hin. apply in_app_or in Hin as [Hin|Hin].
      { destruct (Hclass _ _ _ _ _ Hcls Hin). discriminate. }
      destruct Hfile as [(-> & _)|(path & n & -> & _)].
      * destruct Hin as [Hin|[]]. discriminate.
      * destruct Hin as [Hin|[Hin|[Hin|Hin]]]; try discriminate.
        apply in_app_or in Hin as [Hin|[Hin|[]]]; [|discriminate].
        destruct (Hcalls _ _ _ _ Hin) as [Hne _]. destruct (Hne url fd eq_refl).
    + intros p written Hin. apply in_app_or in Hin as [Hin|Hin].
      { destruct (Hclass _ _ _ _ _ Hcls Hin). discriminate. }
      destruct Hfile as [(-> & _)|(path & n & -> & _)].
      * destruct Hin as [Hin|[]]. discriminate.
      * destruct Hin as [Hin|[Hin|[Hin|Hin]]]; try discriminate.
        { congruence. }
        apply in_app_or in Hin as [Hin|[Hin|[]]]; [|discriminate].
        destruct (Hcalls _ _ _ _ Hin) as [_ Hne]. destruct (Hne p written eq_refl).
Qed.

End ImportFacts.

Section ImportRegistry.
Context {Fd Importer W : Type}.
Variable env : ImportEnv Fd Importer W.

(** X25. Registering [ImportExportHandler] exposes [import_file] and
    nothing else: under a known resource type where the name is free,
    [add_handler_group] succeeds and registers [import_file], as an
    operation with a return value; the methods [_get_filedata] and
    [_get_importer_class] are not registered, and every other entry of the
    registry is as before. *)
Theorem import_export_group_exposes_import_file
  (self : RestApp (W * list (IOEvent Fd))) type of_type :
  handlers self !! type = Some of_type ->
  of_type !! "import_file" = None ->
  exists self',
    add_handler_group self type (ImportExportHandler env) = (Ok tt, self')
    /\ (exists h,
          _getHandler self' (Some type) "import_file" = Ok (h, true)
          /\ func h = fun data ids => as_handler (import_file env data ids))
    /\ (forall type' name',
          (type', name') <> (type, "import_file") ->
          handlers_getitem self' (Some type') name'
          = handlers_getitem self (Some type') name').
Proof.
  intros Htype Hfree.
  destruct (add_members_registers type (ImportExportHandler env)
              (members (ImportExportHandler env)) self of_type Htype)
    as (self' & Hrun & Hreg & Hframe).
  - constructor; [exact Hfree|constructor].
  - constructor; [intros []|constructor].
  - exists self'. split; [exact Hrun|]. split.
    + destruct (Hreg "import_file"
                  (method "import_file"
                     (fun data ids => as_handler (import_file env data ids))))
        as (h & Hget & Hfunc & Hflag).
      * right. right. left. reflexivity.
      * reflexivity.
      * exists h. split; [|exact Hfunc].
        unfold _getHandler. rewrite Hget. unfold returns_value in Hflag.
        rewrite Hflag. reflexivity.
    + intros type' name' Hne. apply Hframe.
      destruct (decide (type' = type)) as [->|Hother]; [right|left; exact Hother].
      intros [<-|[]]. apply Hne. reflexivity.
Qed.

End ImportRegistry.

Import DemoImport.

(** An unknown file type on the example system. *)
Lemma unknown_filetype_touches_nothing_witness :
  import_file demo_env csv_data ["deck1"] []
  = (Raise (HTTPError (HTTPBadRequest "Unknown filetype 'csv'")), [], []).
Proof.
  apply (unknown_filetype_touches_nothing demo_env csv_data ["deck1"] []).
  intros s Hs. cbn in Hs.
  repeat (destruct Hs as [<-|Hs]; [vm_compute; discriminate|]). destruct Hs.
Defined.

(** Fetching the deck of the example system. *)
Lemma get_filedata_closes_what_it_opens_witness :
  (forall filedata,
     url_data !! "data" = Some filedata ->
     Ok (VStr "front;back") = Ok filedata /\ @nil (string * list PyVal) = []
     /\ fetch_calls = [])
  /\ (forall url fd,
        In (UrlOpen url (Some fd)) fetch_calls ->
        url_data !! "url" = Some url
        /\ fetch_calls = [UrlOpen url (Some fd); FdRead fd; FdClose fd])
  /\ (forall fd,
        In (FdRead fd) fetch_calls \/ In (FdClose fd) fetch_calls ->
        exists url, In (UrlOpen url (Some fd)) fetch_calls).
Proof.
  apply (get_filedata_closes_what_it_opens demo_env url_data []
           (Ok (VStr "front;back")) []).
  evaluate.
Defined.

(** An import that fails when the importer runs: the file is unlinked. *)
Lemma import_file_unlinks_what_it_creates_witness :
  (forall path,
     In (TempCreate (Some path)) failed_import_calls ->
     last failed_import_calls = Some (Unlink path))
  /\ (forall path,
        In (Unlink path) failed_import_calls ->
        In (TempCreate (Some path)) failed_import_calls).
Proof.
  apply (import_file_unlinks_what_it_creates demo_env anki1_data ["deck1"] []
           (Raise (Error "Exception" "invalid deck")) []).
  evaluate.
Defined.

(** A successful import of the deck behind the URL. *)
Lemma import_file_success_witness :
  VNone = VNone
  /\ exists cls fetch path filedata,
       url_data !! "filetype" = Some (VStr (filetype_of cls))
       /\ url_import_calls
          = ImportModule cls :: fetch
              ++ TempCreate (Some path) :: TempWrite path filedata
              :: TempExit path :: importer_calls cls path ++ [Unlink path]
       /\ ((url_data !! "data" = Some filedata /\ fetch = [])
           \/ (url_data !! "data" = None
               /\ exists url fd,
                    url_data !! "url" = Some url
                    /\ fetch = [UrlOpen url (Some fd); FdRead fd; FdClose fd])).
Proof.
  apply (import_file_success demo_env url_data ["deck1"] [] VNone []).
  evaluate.
Defined.

(** Inline data next to a URL: the URL is not opened. *)
Lemma inline_data_is_not_fetched_witness :
  (forall url fd, ~ In (UrlOpen url fd) inline_import_calls)
  /\ (forall path written,
        In (TempWrite path written) inline_import_calls ->
        written = VStr "front;back").
Proof.
  apply (inline_data_is_not_fetched demo_env inline_data ["deck1"] [] (Ok VNone) []).
  - evaluate.
  - evaluate.
Defined.

(** Registering the group on an instance without handlers. *)
Lemma import_export_group_exposes_import_file_witness :
  exists self',
    add_handler_group import_app "collection" (ImportExportHandler demo_env)
    = (Ok tt, self')
    /\ (exists h,
          _getHandler self' (Some "collection") "import_file" = Ok (h, true)
          /\ func h = fun data ids => as_handler (import_file demo_env data ids))
    /\ (forall type' name',
          (type', name') <> ("collection", "import_file") ->
          handlers_getitem self' (Some type') name'
          = handlers_getitem import_app (Some type') name').
Proof.
  apply (import_export_group_exposes_import_file demo_env import_app "collection" ∅).
  - evaluate.
  - reflexivity.
Defined.

(** ** The entry point *)

Section EntryPoint.
Context {Col NoteT CardT : Type}.
Variable anki : Anki Col NoteT CardT.
Import PyStr Posixpath.

Lemma initial_slashes_app_dot cwd x :
  isabs cwd = true ->
  (endswith_char slash cwd = true /\ x = ".")
  \/ (endswith_char slash cwd = false /\ x = "/.") ->
  initial_slashes (cwd +:+ x) = initial_slashes cwd.
Proof.
  intros Habs Hx. unfold isabs in Habs.
  destruct cwd as [|a [|b [|c r]]]; [discriminate| | |].
  - rewrite startswith_slash_cons in Habs. apply Ascii.eqb_eq in Habs. subst a.
    destruct Hx as [[_ ->]|[Hend _]]; [reflexivity|discriminate].
  - rewrite startswith_slash_cons in Habs. apply Ascii.eqb_eq in Habs. subst a.
    destruct Hx as [[Hend ->]|[Hend ->]]; cbn in Hend.
    + apply Ascii.eqb_eq in Hend. subst b. reflexivity.
    + unfold initial_slashes. rewrite !append_cons, !startswith_cons.
      replace (Ascii.eqb "/" b) with false
        by (rewrite Ascii.eqb_sym; symmetry; exact Hend).
      reflexivity.
  - unfold initial_slashes. rewrite !append_cons, !startswith_cons. reflexivity.
Qed.

(** The directory [.] is the working directory. *)
Lemma abspath_dot cwd : isabs cwd = true -> abspath cwd "." = normpath cwd.
Proof.
  intros Habs. unfold abspath. change (isabs ".") with false. cbv iota.
  change (join cwd ["."]) with (join_step cwd ".").
  assert (Hne : (cwd =? "") = false) by (destruct cwd; [discriminate|reflexivity]).
  assert (Hjoin : exists x,
            join_step cwd "." = cwd +:+ x
            /\ ((endswith_char slash cwd = true /\ x = ".")
                \/ (endswith_char slash cwd = false /\ x = "/."))).
  { unfold join_step. change (startswith "/" ".") with false. cbv iota.
    rewrite Hne. cbn [orb].
    destruct (endswith_char slash cwd); eexists; split; eauto. }
  destruct Hjoin as (x & Hjoin & Hx).
  assert (Hcomps : List.filter kept (split slash (join_step cwd "."))
                   = List.filter kept (split slash cwd)).
  { rewrite filter_kept_join_step by reflexivity. cbn. apply app_nil_r. }
  unfold normpath.
  rewrite (fold_norm_step_kept _ (split slash (join_step cwd "."))), Hcomps.
  rewrite <- fold_norm_step_kept.
  rewrite Hjoin, (initial_slashes_app_dot cwd x Habs Hx), Hne.
  destruct cwd as [|a r]; [discriminate|]. rewrite append_cons. reflexivity.
Qed.

(** X26. What [make_app] builds: whenever it returns, the import of
    [getCollectionManager] went through and [getCollectionManager()] returned,
    and the application is the default one: its data root is the absolute
    path of the configured [data_root] (the working directory when none is
    configured), its allow-list is the configured [allowed_hosts] ([*] when
    none is configured), it has exactly the operations of the default groups,
    and no collection manager is bound to it.  Without a
    [logging.config_file] it makes no logging call, and it returns unless
    the import or [getCollectionManager()] raises, whose exception it then
    raises; [fileConfig] is only called on the configured file, and the log
    patch is only imported on Python 2.5. *)
Theorem make_app_builds_default_application threading setup cwd local_conf r calls :
  isabs cwd = true ->
  make_app anki threading setup cwd local_conf = (r, calls) ->
  (forall app : RestApp Col,
     r = Ok app ->
     import_getCollectionManager threading = Ok tt
     /\ (exists m, getCollectionManager threading = Ok m)
     /\ data_root app = abspath cwd (default "." (local_conf !! "data_root"))
     /\ (local_conf !! "data_root" = None -> data_root app = normpath cwd)
     /\ allowed_hosts app = default "*" (local_conf !! "allowed_hosts")
     /\ operation_flags app = default_operation_flags
     /\ collection_manager app = None)
  /\ (local_conf !! "logging.config_file" = None
      \/ local_conf !! "logging.config_file" = Some "" ->
      calls = []
      /\ match import_getCollectionManager threading,
               getCollectionManager threading with
         | Raise e, _ => r = Raise e
         | Ok _, Raise e => r = Raise e
         | Ok _, Ok _ => exists app, r = Ok app
         end)
  /\ (forall file,
        In (FileConfig file) calls ->
        local_conf !! "logging.config_file" = Some file /\ file <> "")
  /\ (In ImportLogpatch calls -> version_info setup = (2, 5)).
Proof.
  intros Habs Hmake.
  set (R := RestApp_init anki threading cwd
              (default "." (local_conf !! "data_root"))
              (default "*" (local_conf !! "allowed_hosts")) true None).
  assert (Hbuilt : forall app : RestApp Col,
            R = Ok app ->
            import_getCollectionManager threading = Ok tt
            /\ (exists m, getCollectionManager threading = Ok m)
            /\ data_root app = abspath cwd (default "." (local_conf !! "data_root"))
            /\ (local_conf !! "data_root" = None -> data_root app = normpath cwd)
            /\ allowed_hosts app = default "*" (local_conf !! "allowed_hosts")
            /\ operation_flags app = default_operation_flags
            /\ collection_manager app = None).
  { intros app Hinit. apply init_returns in Hinit as (Himport & Hfetch & ->).
    destruct (default_instance_facts anki cwd
                (default "." (local_conf !! "data_root"))
                (default "*" (local_conf !! "allowed_hosts")))
      as (Hroot & Hhosts & Hflags & Hnone).
    split; [exact Himport|]. split; [exact (Hfetch eq_refl)|].
    split; [exact Hroot|]. split; [|auto].
    intros Hdefault. rewrite Hroot, Hdefault.
    apply abspath_dot. exact Habs. }
  assert (Hreturns :
            match import_getCollectionManager threading,
                  getCollectionManager threading with
            | Raise e, _ => R = Raise e
            | Ok _, Raise e => R = Raise e
            | Ok _, Ok _ => exists app, R = Ok app
            end).
  { destruct (import_getCollectionManager threading) as [[]|e] eqn:Himport.
    - destruct (getCollectionManager threading) as [m|e] eqn:Hfetch.
      + eexists. apply init_succeeds; eauto.
      + apply init_raises. right. auto.
    - apply init_raises. left. exact Himport. }
  unfold make_app in Hmake. fold R in Hmake. cbv zeta in Hmake.
  destruct (local_conf !! "logging.config_file") as [file|] eqn:Hfile.
  - destruct (file =? "") eqn:Hempty; cbn [negb] in Hmake.
    + apply String.eqb_eq in Hempty. subst file.
      injection Hmake as <- <-. split; [exact Hbuilt|].
      split; [auto|]. split; [intros ? []|intros []].
    + apply String.eqb_neq in Hempty.
      assert (Hnot : ~ (Some file = None \/ Some file = Some ""))
        by (intros [|[=]]; congruence).
      destruct (Nat.eqb (fst (version_info setup)) 2
                && Nat.eqb (snd (version_info setup)) 5) eqn:Hversion.
      * apply andb_true_iff in Hversion as [Hmajor Hminor].
        apply Nat.eqb_eq in Hmajor, Hminor.
        assert (Hv : version_info setup = (2, 5))
          by (destruct (version_info setup); cbn in *; congruence).
        destruct (import_logpatch setup) as [[]|e].
        -- cbn [app] in Hmake. destruct (fileConfig setup file) as [[]|e];
             injection Hmake as <- <-;
             (split; [try exact Hbuilt; discriminate|]);
             (split; [intros H; destruct (Hnot H)|]);
             (split; [intros f [|[[= <-]|[]]]; [discriminate|auto]|auto]).
        -- injection Hmake as <- <-.
           split; [discriminate|]. split; [intros H; destruct (Hnot H)|].
           split; [intros f [|[]]; discriminate|auto].
      * cbn [app] in Hmake. destruct (fileConfig setup file) as [[]|e];
          injection Hmake as <- <-;
          (split; [try exact Hbuilt; discriminate|]);
          (split; [intros H; destruct (Hnot H)|]);
          (split; [intros f [[= <-]|[]]; auto|intros [|[]]; discriminate]).
  - injection Hmake as <- <-. split; [exact Hbuilt|].
    split; [auto|]. split; [intros ? []|intros []].
Qed.

End EntryPoint.

(** A configuration with a data root and a logging file, on Python 2.5. *)
Lemma make_app_builds_default_application_witness :
  (forall app : RestApp DemoCol,
     Ok demo_app0 = Ok app ->
     import_getCollectionManager demo_threading = Ok tt
     /\ (exists m, getCollectionManager demo_threading = Ok m)
     /\ data_root app
        = Posixpath.abspath "/" (default "." (DemoSetup.paste_conf !! "data_root"))
     /\ (DemoSetup.paste_conf !! "data_root" = None ->
         data_root app = Posixpath.normpath "/")
     /\ allowed_hosts app = default "*" (DemoSetup.paste_conf !! "allowed_hosts")
     /\ operation_flags app = default_operation_flags
     /\ collection_manager app = None)
  /\ (DemoSetup.paste_conf !! "logging.config_file" = None
      \/ DemoSetup.paste_conf !! "logging.config_file" = Some "" ->
      DemoSetup.setup_calls = []
      /\ match import_getCollectionManager demo_threading,
               getCollectionManager demo_threading with
         | Raise e, _ => Ok demo_app0 = Raise e
         | Ok _, Raise e => Ok demo_app0 = Raise e
         | Ok _, Ok _ => exists app, Ok demo_app0 = Ok app
         end)
  /\ (forall file,
        In (FileConfig file) DemoSetup.setup_calls ->
        DemoSetup.paste_conf !! "logging.config_file" = Some file /\ file <> "")
  /\ (In ImportLogpatch DemoSetup.setup_calls ->
      version_info DemoSetup.python25 = (2, 5)).
Proof.
  apply (make_app_builds_default_application demo_anki demo_threading
           DemoSetup.python25 "/" DemoSetup.paste_conf (Ok demo_app0)
           DemoSetup.setup_calls).
  - reflexivity.
  - evaluate.
Defined.
